(** * Pi-hole Ansible modules: a shallow embedding and its properties

    The repository holds seven Ansible modules
    ([plugins/modules/*.py]).  Each one parses its parameters with
    [AnsibleModule], builds a [PiHole6Client], performs a short fixed
    sequence of client calls and ends in [module.exit_json] or
    [module.fail_json].

    The embedding follows the Python text function by function:
    - JSON-like Python objects are the inductive type [value];
    - a Python [dict] is an association list in insertion order;
    - the client library, the appliance behind it and the local file
      system are an oracle [remote_call] over an abstract state;
    - control flow is a small monad [M] with two kinds of abrupt
      termination, as in Python: an [Exception] (caught by
      [except Exception]) and [SystemExit] (raised by [exit_json] and
      [fail_json], caught only by a bare [except:]);
    - the mutable [result] dictionary of each [main] lives in the monad's
      state, so that an exception handler sees the mutations made before
      the exception was raised;
    - every oracle call is logged, with its answer, in a trace. *)

From Stdlib Require Import String Ascii List ZArith Bool Lia.
Import ListNotations.
Local Open Scope string_scope.
Local Open Scope list_scope.

Set Implicit Arguments.

(* ===================================================================== *)
(** ** Python values, dictionaries and the module monad *)
(* ===================================================================== *)

Module Py.

(** JSON-like Python objects (floats are left out: no module computes
    with them). *)
#[warnings="-register-all"]
Inductive value : Type :=
| VNone
| VBool (b : bool)
| VInt (z : Z)
| VStr (s : string)
| VList (l : list value)
| VDict (d : list (string * value)).

Definition dict : Type := list (string * value).

(** Python truthiness: [bool(v)]. *)
Definition truthy (v : value) : bool :=
  match v with
  | VNone => false
  | VBool b => b
  | VInt z => negb (Z.eqb z 0)
  | VStr s => negb (String.eqb s "")
  | VList l => match l with [] => false | _ => true end
  | VDict d => match d with [] => false | _ => true end
  end.

(** [v is None] *)
Definition is_None (v : value) : bool :=
  match v with VNone => true | _ => false end.

(** [type(v).__name__], used in the text of the run-time errors. *)
Definition type_name (v : value) : string :=
  match v with
  | VNone => "NoneType"
  | VBool _ => "bool"
  | VInt _ => "int"
  | VStr _ => "str"
  | VList _ => "list"
  | VDict _ => "dict"
  end.

(** [d.get(k)] as an option. *)
Fixpoint dict_get (d : dict) (k : string) : option value :=
  match d with
  | [] => None
  | (k', v) :: d' => if String.eqb k' k then Some v else dict_get d' k
  end.

(** [d[k] = v]: an existing key keeps its place, a new key goes last. *)
Fixpoint dict_set (d : dict) (k : string) (v : value) : dict :=
  match d with
  | [] => [(k, v)]
  | (k', v') :: d' =>
      if String.eqb k' k then (k', v) :: d' else (k', v') :: dict_set d' k v
  end.

(** [d.get(k, default)]. *)
Definition dict_get_default (d : dict) (k : string) (default : value) : value :=
  match dict_get d k with Some v => v | None => default end.

(** A Python [str] or [None] parameter. *)
Definition ostr (o : option string) : value :=
  match o with Some s => VStr s | None => VNone end.

Definition oint (o : option Z) : value :=
  match o with Some z => VInt z | None => VNone end.

(** [f'{x}'] for a [str] or [None]. *)
Definition fmt (o : option string) : string :=
  match o with Some s => s | None => "None" end.

(** [x == 'lit'] for a [str] or [None]. *)
Definition eqs (o : option string) (lit : string) : bool :=
  match o with Some s => String.eqb s lit | None => false end.

(** [bool(x)] for a [str] or [None]. *)
Definition truthy_str (o : option string) : bool :=
  match o with Some s => negb (String.eqb s "") | None => false end.

(** [bool(x)] for an [int] or [None]. *)
Definition truthy_int (o : option Z) : bool :=
  match o with Some z => negb (Z.eqb z 0) | None => false end.

(** [x in choices] for a list of string literals. *)
Definition in_choices (x : string) (choices : list string) : bool :=
  existsb (String.eqb x) choices.

(** *** The outside world

    One constructor per client method used by the modules, plus the two
    file-system operations of [config_management].  The arguments are the
    arguments of the Python call. *)
Inductive request : Type :=
(* PiHole6Client(url, password) and client.close_session() *)
| OpenSession (url password : option string)
| CloseSession
(* client.actions *)
| FlushArp
| FlushLogs
| RunGravity
| RestartDns
(* client.dns_control *)
| GetBlockingStatus
| SetBlockingStatus (blocking : bool) (timer : option Z)
(* client.config *)
| GetConfigSection (section : string) (detailed : bool)
| GetConfig (detailed : bool)
| UpdateConfig (config_changes : option value)
| AddConfigItem (element value : option string)
| DeleteConfigItem (element value : option string)
| ExportSettings
| ImportSettings (import_path : option string) (import_options : option value)
(* open(export_path, 'wb') followed by f.write(binary_data) *)
| WriteFile (export_path : option string) (binary_data : value)
(* os.path.exists(import_path) *)
| PathExists (import_path : option string)
(* client.group_management and client.domain_management *)
| GetGroups
| GetDomain (domain domain_type kind : option string)
| AddDomain (domain domain_type kind comment : option string)
            (groups : option (list value)) (enabled : bool)
| UpdateDomain (domain domain_type kind comment : option string)
               (groups : option (list value)) (enabled : bool)
| DeleteDomain (domain domain_type kind : option string)
(* client.metrics *)
| GetStatsSummary
| GetStatsQueryTypes
| GetStatsTopClients (blocked : option bool) (count : option Z)
| GetStatsTopDomains (blocked : option bool) (count : option Z)
| GetStatsUpstreams
| GetStatsRecentBlocked (count : option Z)
| GetHistory
| GetHistoryClients (clients : Z)
| GetQueries (length : Z) (from_ts until_ts : option Z)
             (upstream domain client cursor : option string)
| GetQuerySuggestions
(* client.ftl_info and client.network_info *)
| GetFtlInfo
| GetNetworkInfo
| GetNetworkDevices.

(** A call either returns an object or raises an [Exception] whose text
    ([to_native(e)]) is [msg]. *)
Inductive response : Type :=
| Returns (v : value)
| Raises (msg : string).

Definition event : Type := (request * response)%type.

(** Calls that change the appliance (or, for [WriteFile], the local
    disk).  Opening and closing the API session and every read are not
    mutations. *)
Definition mutating (r : request) : bool :=
  match r with
  | FlushArp | FlushLogs | RunGravity | RestartDns => true
  | SetBlockingStatus _ _ => true
  | UpdateConfig _ | AddConfigItem _ _ | DeleteConfigItem _ _ => true
  | ImportSettings _ _ => true
  | WriteFile _ _ => true
  | AddDomain _ _ _ _ _ _ | UpdateDomain _ _ _ _ _ _ => true
  | DeleteDomain _ _ _ => true
  | _ => false
  end.

(** What the modules run against: the deterministic behaviour of client
    library, appliance and file system over an abstract state, and two
    pieces of text produced by Python and by Ansible themselves:
    [py_str v] is [f'{v}'] for a dictionary, [arg_error name] is the
    message of [AnsibleModule] when parameter [name] is rejected. *)
Record Host (Remote : Type) : Type := {
  remote_call : request -> Remote -> response * Remote;
  py_str : option value -> string;
  arg_error : string -> string
}.

(** The same host, except that [client.close_session()] behaves as [f]. *)
Definition with_close {Remote} (h : Host Remote)
    (f : Remote -> response * Remote) : Host Remote :=
  {| remote_call := fun r s =>
       match r with CloseSession => f s | _ => remote_call h r s end;
     py_str := py_str h;
     arg_error := arg_error h |}.

(** How an Ansible module ends. *)
Inductive exit : Type :=
| ExitJson (kwargs : dict)
| FailJson (kwargs : dict).

Definition kwargs_of (e : exit) : dict :=
  match e with ExitJson k => k | FailJson k => k end.

Definition failed (e : exit) : bool :=
  match e with ExitJson _ => false | FailJson _ => true end.

(** *** The monad *)

Inductive outcome (A : Type) : Type :=
| Ok (a : A)
| Raise (msg : string)          (* an Exception *)
| SystemExit (e : exit).        (* exit_json / fail_json *)

Arguments Ok {A} a.
Arguments Raise {A} msg.
Arguments SystemExit {A} e.

(** The state threaded through a run: the outside world and the [result]
    dictionary of [main]. *)
Record st (Remote : Type) : Type := {
  remote : Remote;
  result : dict
}.

Definition M (Remote A : Type) : Type :=
  st Remote -> outcome A * st Remote * list event.

Section Monad.
Context {Remote : Type}.

Definition ret {A} (a : A) : M Remote A := fun s => (Ok a, s, []).

Definition bind {A B} (m : M Remote A) (k : A -> M Remote B)
  : M Remote B := fun s =>
  match m s with
  | (Ok a, s1, t1) =>
      match k a s1 with (o, s2, t2) => (o, s2, t1 ++ t2) end
  | (Raise msg, s1, t1) => (Raise msg, s1, t1)
  | (SystemExit e, s1, t1) => (SystemExit e, s1, t1)
  end.

Definition raise {A} (msg : string) : M Remote A := fun s => (Raise msg, s, []).

(** [try: m  except Exception as e: handler(to_native(e))] *)
Definition try_except {A} (m : M Remote A) (handler : string -> M Remote A)
  : M Remote A := fun s =>
  match m s with
  | (Raise msg, s1, t1) =>
      match handler msg s1 with (o, s2, t2) => (o, s2, t1 ++ t2) end
  | r => r
  end.

(** [try: m  except: pass] *)
Definition try_pass (m : M Remote unit) : M Remote unit := fun s =>
  match m s with
  | (_, s1, t1) => (Ok tt, s1, t1)
  end.

(** A call into the outside world. *)
Definition call (h : Host Remote) (r : request) : M Remote value := fun s =>
  match remote_call h r (remote s) with
  | (Returns v, w) =>
      (Ok v, {| remote := w; result := result s |}, [(r, Returns v)])
  | (Raises msg, w) =>
      (Raise msg, {| remote := w; result := result s |}, [(r, Raises msg)])
  end.

(** [result[k] = v] *)
Definition set_result (k : string) (v : value) : M Remote unit := fun s =>
  (Ok tt, {| remote := remote s; result := dict_set (result s) k v |}, []).

(** reading [result] *)
Definition get_result : M Remote dict := fun s => (Ok (result s), s, []).

(** [result = dict(...)] *)
Definition init_result (d : dict) : M Remote unit := fun s =>
  (Ok tt, {| remote := remote s; result := d |}, []).

(** [module.exit_json] on [result] *)
Definition exit_json {A} : M Remote A := fun s =>
  (SystemExit (ExitJson (result s)), s, []).

(** [module.fail_json] with keywords [k1=v1, ...] and [result] *)
Definition fail_json {A} (kwargs : dict) : M Remote A := fun s =>
  (SystemExit (FailJson (kwargs ++ result s)), s, []).

(** [module.fail_json(msg=...)] with no further keyword *)
Definition fail_json_msg {A} (msg : string) : M Remote A := fun s =>
  (SystemExit (FailJson [("msg", VStr msg)]), s, []).

(** [v.get(k, default)]: a dictionary answers, anything else raises
    [AttributeError]. *)
Definition py_get (v : value) (k : string) (default : value) : M Remote value :=
  match v with
  | VDict d => ret (dict_get_default d k default)
  | _ => raise ("'" ++ type_name v ++ "' object has no attribute 'get'")
  end.

(** [v > 0]: integers compare, [bool] is an [int], anything else raises
    [TypeError]. *)
Definition py_gt0 (v : value) : M Remote bool :=
  match v with
  | VInt z => ret (Z.ltb 0 z)
  | VBool b => ret b
  | _ => raise ("'>' not supported between instances of '" ++ type_name v
                ++ "' and 'int'")
  end.

End Monad.

End Py.

Import Py.

Declare Scope py_scope.
Delimit Scope py_scope with py.
Notation "x <- c1 ;; c2" := (bind c1 (fun x => c2))
  (at level 61, c1 at next level, right associativity) : py_scope.
Notation "' pat <- c1 ;; c2" := (bind c1 (fun x => match x with pat => c2 end))
  (at level 61, pat pattern, c1 at next level, right associativity) : py_scope.
Notation "c1 ;; c2" := (bind c1 (fun _ => c2))
  (at level 61, right associativity) : py_scope.
Local Open Scope py_scope.

(** The text of the failure when the client library cannot be imported. *)
Definition missing_library_msg : string :=
  "The pihole6api Python library is required. Install it with: pip install pihole6api".

(** [AnsibleModule(argument_spec=...)] for a parameter declared
    [type='str', required=True]: a missing value is rejected, and so is a
    value outside [choices] when the declaration has some. *)
Definition required_str (choices : option (list string)) (x : option string)
  : bool :=
  match x with
  | None => false
  | Some s => match choices with Some cs => in_choices s cs | None => true end
  end.

(* ===================================================================== *)
(** ** plugins/modules/actions.py *)
(* ===================================================================== *)

Module actions.

Record params : Type := {
  action : option string;
  password : option string;
  url : option string
}.

Definition action_choices : list string :=
  ["flush_arp"; "flush_logs"; "run_gravity"; "restart_dns"].

(** The checks of [AnsibleModule(argument_spec=module_args, ...)]: the
    first parameter it rejects, if any. *)
Definition rejected_parameter (p : params) : option string :=
  if negb (required_str (Some action_choices) (action p)) then Some "action"
  else if negb (required_str None (password p)) then Some "password"
  else if negb (required_str None (url p)) then Some "url"
  else None.

Section WithHost.
Context {Remote : Type} (h : Host Remote).

(** [perform_action(client, action)] *)
Definition perform_action (action : option string) : M Remote (value * value) :=
  let finish (result : value) : M Remote (value * value) :=
    success <- py_get result "success" (VBool false) ;;
    ret (success, result) in
  try_except
    (if eqs action "flush_arp" then
       result <- call h FlushArp ;; finish result
     else if eqs action "flush_logs" then
       result <- call h FlushLogs ;; finish result
     else if eqs action "run_gravity" then
       result <- call h RunGravity ;; finish result
     else if eqs action "restart_dns" then
       result <- call h RestartDns ;; finish result
     else
       ret (VBool false,
            VDict [("error", VStr ("Unknown action: " ++ fmt action))]))
    (fun e => ret (VBool false, VDict [("error", VStr e)])).

(** [AnsibleModule(argument_spec=module_args, supports_check_mode=True)] *)
Definition AnsibleModule (p : params) : M Remote unit :=
  match rejected_parameter p with
  | Some name => fail_json_msg (arg_error h name)
  | None => ret tt
  end.

(** [main()] *)
Definition main (HAS_PIHOLE6API check_mode : bool) (p : params)
  : M Remote unit :=
  init_result [("changed", VBool false); ("action_performed", VStr "");
               ("success", VBool false); ("response", VDict [])] ;;
  AnsibleModule p ;;
  (if negb HAS_PIHOLE6API then fail_json_msg missing_library_msg else ret tt) ;;
  let action := action p in
  let password := password p in
  let url := url p in
  set_result "action_performed" (ostr action) ;;
  try_except
    (_ <- call h (OpenSession url password) ;;
     (if negb check_mode then
        '(success, response) <- perform_action action ;;
        set_result "success" success ;;
        set_result "response" response ;;
        if truthy success then set_result "changed" (VBool true)
        else
          fail_json [("msg", VStr ("Failed to perform action " ++ fmt action))]
      else
        set_result "changed" (VBool true) ;;
        set_result "success" (VBool true) ;;
        set_result "response"
          (VDict [("message",
                    VStr ("Would perform action: " ++ fmt action))])) ;;
     try_pass (_ <- call h CloseSession ;; ret tt))
    (fun e =>
       fail_json [("msg", VStr ("Failed to perform action " ++ fmt action
                                ++ ": " ++ e))]) ;;
  exit_json.

End WithHost.

End actions.

(* ===================================================================== *)
(** ** plugins/modules/dns_control.py *)
(* ===================================================================== *)

Module dns_control.

Record params : Type := {
  action : option string;
  timer : option Z;
  password : option string;
  url : option string
}.

Definition action_choices : list string := ["enable"; "disable"; "status"].

(** The checks of [AnsibleModule(argument_spec=module_args, ...)]: the
    first parameter it rejects, if any. *)
Definition rejected_parameter (p : params) : option string :=
  if negb (required_str (Some action_choices) (action p)) then Some "action"
  else if negb (required_str None (password p)) then Some "password"
  else if negb (required_str None (url p)) then Some "url"
  else None.

Section WithHost.
Context {Remote : Type} (h : Host Remote).

(** [get_blocking_status(client)] *)
Definition get_blocking_status : M Remote (value * value * value) :=
  try_except
    (result <- call h GetBlockingStatus ;;
     blocking <- py_get result "blocking" (VBool false) ;;
     timer <- py_get result "timer" (VInt 0) ;;
     ret (blocking, timer, result))
    (fun e => ret (VNone, VNone, VDict [("error", VStr e)])).

(** [set_blocking_status(client, blocking, timer)] *)
Definition set_blocking_status (blocking : bool) (timer : option Z)
  : M Remote (value * value) :=
  try_except
    (result <- call h (SetBlockingStatus blocking timer) ;;
     success <- py_get result "success" (VBool false) ;;
     ret (success, result))
    (fun e => ret (VBool false, VDict [("error", VStr e)])).

(** [AnsibleModule(argument_spec=module_args, supports_check_mode=True)] *)
Definition AnsibleModule (p : params) : M Remote unit :=
  match rejected_parameter p with
  | Some name => fail_json_msg (arg_error h name)
  | None => ret tt
  end.

(** [main()] *)
Definition main (HAS_PIHOLE6API check_mode : bool) (p : params)
  : M Remote unit :=
  init_result [("changed", VBool false); ("action_performed", VStr "")] ;;
  AnsibleModule p ;;
  (if negb HAS_PIHOLE6API then fail_json_msg missing_library_msg else ret tt) ;;
  let action := action p in
  let timer := timer p in
  let password := password p in
  let url := url p in
  try_except
    (_ <- call h (OpenSession url password) ;;
     '(current_blocking, current_timer, status_result) <- get_blocking_status ;;
     (if is_None current_blocking then
        fail_json [("msg", VStr "Failed to get current blocking status")]
      else ret tt) ;;
     set_result "blocking" current_blocking ;;
     timer_active <- py_gt0 current_timer ;;
     (if timer_active then set_result "timer" current_timer else ret tt) ;;
     (if eqs action "status" then
        set_result "action_performed" (VStr "status")
      else if eqs action "enable" then
        set_result "action_performed" (VStr "enable") ;;
        if negb (truthy current_blocking) || timer_active then
          if negb check_mode then
            '(success, response) <- set_blocking_status true timer ;;
            if truthy success then
              set_result "changed" (VBool true) ;;
              set_result "blocking" (VBool true) ;;
              if truthy_int timer then set_result "timer" (oint timer)
              else ret tt
            else
              fail_json [("msg", VStr "Failed to enable blocking");
                         ("response", response)]
          else
            set_result "changed" (VBool true) ;;
            set_result "blocking" (VBool true) ;;
            if truthy_int timer then set_result "timer" (oint timer)
            else ret tt
        else ret tt
      else if eqs action "disable" then
        set_result "action_performed" (VStr "disable") ;;
        if truthy current_blocking then
          if negb check_mode then
            '(success, response) <- set_blocking_status false timer ;;
            if truthy success then
              set_result "changed" (VBool true) ;;
              set_result "blocking" (VBool false) ;;
              if truthy_int timer then set_result "timer" (oint timer)
              else ret tt
            else
              fail_json [("msg", VStr "Failed to disable blocking");
                         ("response", response)]
          else
            set_result "changed" (VBool true) ;;
            set_result "blocking" (VBool false) ;;
            if truthy_int timer then set_result "timer" (oint timer)
            else ret tt
        else ret tt
      else ret tt) ;;
     try_pass (_ <- call h CloseSession ;; ret tt))
    (fun e =>
       fail_json [("msg", VStr ("Failed to control DNS blocking: " ++ e))]) ;;
  exit_json.

End WithHost.

End dns_control.

(* ===================================================================== *)
(** ** plugins/modules/config_management.py *)
(* ===================================================================== *)

Module config_management.

Record params : Type := {
  action : option string;
  config_section : option string;
  config_changes : option value;      (* a dict or None *)
  element : option string;
  value : option string;
  export_path : option string;
  import_path : option string;
  import_options : option Py.value;   (* a dict or None *)
  detailed : bool;
  password : option string;
  url : option string
}.

Definition action_choices : list string :=
  ["get"; "update"; "export"; "import"; "add_item"; "delete_item"].

(** [bool(x)] for a dictionary parameter or [None]. *)
Definition truthy_opt (o : option Py.value) : bool :=
  match o with Some v => truthy v | None => false end.

(** The checks of [AnsibleModule(argument_spec=module_args, ...)]: the
    first parameter it rejects, if any. *)
Definition rejected_parameter (p : params) : option string :=
  if negb (required_str (Some action_choices) (action p)) then Some "action"
  else if negb (required_str None (password p)) then Some "password"
  else if negb (required_str None (url p)) then Some "url"
  else None.

Section WithHost.
Context {Remote : Type} (h : Host Remote).

(** [get_config(client, config_section, detailed)] *)
Definition get_config (config_section : option string) (detailed : bool)
  : M Remote (Py.value * Py.value) :=
  try_except
    (result <- (match config_section with
                | Some s => if truthy_str config_section
                            then call h (GetConfigSection s detailed)
                            else call h (GetConfig detailed)
                | None => call h (GetConfig detailed)
                end) ;;
     ret (VBool true, result))
    (fun e => ret (VBool false, VDict [("error", VStr e)])).

(** [update_config(client, config_changes)] *)
Definition update_config (config_changes : option Py.value)
  : M Remote (Py.value * Py.value) :=
  try_except
    (result <- call h (UpdateConfig config_changes) ;;
     success <- py_get result "success" (VBool false) ;;
     ret (success, result))
    (fun e => ret (VBool false, VDict [("error", VStr e)])).

(** [add_config_item(client, element, value)] *)
Definition add_config_item (element value : option string)
  : M Remote (Py.value * Py.value) :=
  try_except
    (result <- call h (AddConfigItem element value) ;;
     success <- py_get result "success" (VBool false) ;;
     ret (success, result))
    (fun e => ret (VBool false, VDict [("error", VStr e)])).

(** [delete_config_item(client, element, value)] *)
Definition delete_config_item (element value : option string)
  : M Remote (Py.value * Py.value) :=
  try_except
    (result <- call h (DeleteConfigItem element value) ;;
     success <- py_get result "success" (VBool false) ;;
     ret (success, result))
    (fun e => ret (VBool false, VDict [("error", VStr e)])).

(** [export_config(client, export_path)] *)
Definition export_config (export_path : option string)
  : M Remote (Py.value * Py.value) :=
  try_except
    (binary_data <- call h ExportSettings ;;
     _ <- call h (WriteFile export_path binary_data) ;;
     ret (VBool true,
          VDict [("message",
                  VStr ("Configuration exported to " ++ fmt export_path))]))
    (fun e => ret (VBool false, VDict [("error", VStr e)])).

(** [import_config(client, import_path, import_options)] *)
Definition import_config (import_path : option string)
    (import_options : option Py.value) : M Remote (Py.value * Py.value) :=
  try_except
    (present <- call h (PathExists import_path) ;;
     if negb (truthy present) then
       ret (VBool false,
            VDict [("error",
                    VStr ("Import file not found: " ++ fmt import_path))])
     else
       result <- call h (ImportSettings import_path import_options) ;;
       success <- py_get result "success" (VBool false) ;;
       ret (success, result))
    (fun e => ret (VBool false, VDict [("error", VStr e)])).

(** [AnsibleModule(argument_spec=module_args, supports_check_mode=True)] *)
Definition AnsibleModule (p : params) : M Remote unit :=
  match rejected_parameter p with
  | Some name => fail_json_msg (arg_error h name)
  | None => ret tt
  end.

(** [main()] *)
Definition main (HAS_PIHOLE6API check_mode : bool) (p : params)
  : M Remote unit :=
  init_result [("changed", VBool false); ("action_performed", VStr "");
               ("success", VBool false); ("response", VDict [])] ;;
  AnsibleModule p ;;
  (if negb HAS_PIHOLE6API then fail_json_msg missing_library_msg else ret tt) ;;
  let action := action p in
  let config_section := config_section p in
  let config_changes := config_changes p in
  let element := element p in
  let value := value p in
  let export_path := export_path p in
  let import_path := import_path p in
  let import_options := import_options p in
  let detailed := detailed p in
  let password := password p in
  let url := url p in
  set_result "action_performed" (ostr action) ;;
  (if (eqs action "add_item" || eqs action "delete_item")
      && (negb (truthy_str element) || negb (truthy_str value)) then
     fail_json_msg ("Action " ++ fmt action
                    ++ " requires both element and value parameters")
   else ret tt) ;;
  (if eqs action "update" && negb (truthy_opt config_changes) then
     fail_json_msg "Action update requires config_changes parameter"
   else ret tt) ;;
  (if eqs action "export" && negb (truthy_str export_path) then
     fail_json_msg "Action export requires export_path parameter"
   else ret tt) ;;
  (if eqs action "import" && negb (truthy_str import_path) then
     fail_json_msg "Action import requires import_path parameter"
   else ret tt) ;;
  try_except
    (_ <- call h (OpenSession url password) ;;
     (if eqs action "get" then
        '(success, response) <- get_config config_section detailed ;;
        set_result "success" success ;;
        set_result "response" response ;;
        if truthy success then set_result "config" response else ret tt
      else if eqs action "update" then
        if negb check_mode then
          '(success, response) <- update_config config_changes ;;
          set_result "success" success ;;
          set_result "response" response ;;
          if truthy success then set_result "changed" (VBool true) else ret tt
        else
          set_result "changed" (VBool true) ;;
          set_result "success" (VBool true) ;;
          set_result "response"
            (VDict [("message",
                     VStr ("Would update configuration with: "
                           ++ py_str h config_changes))])
      else if eqs action "add_item" then
        if negb check_mode then
          '(success, response) <- add_config_item element value ;;
          set_result "success" success ;;
          set_result "response" response ;;
          if truthy success then set_result "changed" (VBool true) else ret tt
        else
          set_result "changed" (VBool true) ;;
          set_result "success" (VBool true) ;;
          set_result "response"
            (VDict [("message",
                     VStr ("Would add " ++ fmt value ++ " to " ++ fmt element))])
      else if eqs action "delete_item" then
        if negb check_mode then
          '(success, response) <- delete_config_item element value ;;
          set_result "success" success ;;
          set_result "response" response ;;
          if truthy success then set_result "changed" (VBool true) else ret tt
        else
          set_result "changed" (VBool true) ;;
          set_result "success" (VBool true) ;;
          set_result "response"
            (VDict [("message",
                     VStr ("Would remove " ++ fmt value ++ " from "
                           ++ fmt element))])
      else if eqs action "export" then
        if negb check_mode then
          '(success, response) <- export_config export_path ;;
          set_result "success" success ;;
          set_result "response" response ;;
          if truthy success then
            set_result "changed" (VBool true) ;;
            set_result "export_path" (ostr export_path)
          else ret tt
        else
          set_result "changed" (VBool true) ;;
          set_result "success" (VBool true) ;;
          set_result "response"
            (VDict [("message",
                     VStr ("Would export configuration to "
                           ++ fmt export_path))]) ;;
          set_result "export_path" (ostr export_path)
      else if eqs action "import" then
        if negb check_mode then
          '(success, response) <- import_config import_path import_options ;;
          set_result "success" success ;;
          set_result "response" response ;;
          if truthy success then set_result "changed" (VBool true) else ret tt
        else
          set_result "changed" (VBool true) ;;
          set_result "success" (VBool true) ;;
          set_result "response"
            (VDict [("message",
                     VStr ("Would import configuration from "
                           ++ fmt import_path))])
      else ret tt) ;;
     result <- get_result ;;
     (if negb (truthy (dict_get_default result "success" VNone))
         && negb (eqs action "get") then
        fail_json [("msg", VStr ("Failed to perform action " ++ fmt action))]
      else ret tt) ;;
     try_pass (_ <- call h CloseSession ;; ret tt))
    (fun e =>
       fail_json [("msg", VStr ("Failed to perform configuration action "
                                ++ fmt action ++ ": " ++ e))]) ;;
  exit_json.

End WithHost.

End config_management.

(* ===================================================================== *)
(** ** plugins/modules/domain_management.py *)
(* ===================================================================== *)

Module domain_management.

(** One element of the [domains] parameter, after Ansible has filled in
    the defaults of [comment], [groups] and [enabled]. *)
Record domain_config : Type := {
  domain : option string;
  domain_type : option string;
  kind : option string;
  state : option string;
  comment : option string;
  groups : list string;
  enabled : bool
}.

Record params : Type := {
  domains : option (list domain_config);
  password : option string;
  url : option string
}.

(** The checks of the [options] of one entry. *)
Definition entry_ok (dc : domain_config) : bool :=
  required_str None (domain dc)
  && required_str (Some ["allow"; "deny"]) (domain_type dc)
  && required_str (Some ["exact"; "regex"]) (kind dc)
  && required_str (Some ["present"; "absent"]) (state dc).

(** [module.params['domains']], with its [default=[]]. *)
Definition domains_param (p : params) : list domain_config :=
  match domains p with Some l => l | None => [] end.

(** [[group_mapping[g] for g in groups if g in group_mapping]], the loop
    that fills [group_ids]. *)
Definition map_group_ids (groups : list string) (group_mapping : dict)
  : list value :=
  flat_map (fun group_name =>
              match dict_get group_mapping group_name with
              | Some id => [id]
              | None => []
              end) groups.

(** [groups=group_ids if group_ids else None] *)
Definition groups_argument (dc : domain_config) (group_mapping : dict)
  : option (list value) :=
  match map_group_ids (groups dc) group_mapping with
  | [] => None
  | ids => Some ids
  end.

(** The checks of [AnsibleModule(argument_spec=module_args, ...)]: the
    first parameter it rejects, if any. *)
Definition rejected_parameter (p : params) : option string :=
  if negb (forallb entry_ok (domains_param p)) then Some "domains"
  else if negb (required_str None (password p)) then Some "password"
  else if negb (required_str None (url p)) then Some "url"
  else None.

Section WithHost.
Context {Remote : Type} (h : Host Remote).

(** Iterating over an object. *)
Definition py_iter (v : value) : M Remote (list value) :=
  match v with
  | VList l => ret l
  | VDict d => ret (map (fun kv => VStr (fst kv)) d)
  | VStr s => ret (map (fun c => VStr (String c EmptyString))
                       (list_ascii_of_string s))
  | _ => raise ("'" ++ type_name v ++ "' object is not iterable")
  end.

(** [v[k]] for a string literal [k]. *)
Definition py_getitem (v : value) (k : string) : M Remote value :=
  match v with
  | VDict d => match dict_get d k with
               | Some x => ret x
               | None => raise ("'" ++ k ++ "'")
               end
  | VList _ => raise "list indices must be integers or slices, not str"
  | VStr _ => raise "string indices must be integers, not 'str'"
  | _ => raise ("'" ++ type_name v ++ "' object is not subscriptable")
  end.

(** The dictionary comprehension of [get_group_name_to_id_mapping].
    A key that is not hashable raises; a hashable key that is not a string
    can never be found by a group name and is not kept. *)
Fixpoint collect_groups (groups : list value) (acc : dict) : M Remote dict :=
  match groups with
  | [] => ret acc
  | group :: rest =>
      name <- py_getitem group "name" ;;
      id <- py_getitem group "id" ;;
      match name with
      | VStr s => collect_groups rest (dict_set acc s id)
      | VList _ | VDict _ =>
          raise ("unhashable type: '" ++ type_name name ++ "'")
      | _ => collect_groups rest acc
      end
  end.

(** [get_group_name_to_id_mapping(client)] *)
Definition get_group_name_to_id_mapping : M Remote dict :=
  try_except
    (groups <- call h GetGroups ;;
     listed <- py_get groups "groups" (VList []) ;;
     items <- py_iter listed ;;
     collect_groups items [])
    (fun _ => ret []).

(** [domain_exists(client, domain, domain_type, kind)] *)
Definition domain_exists (domain domain_type kind : option string)
  : M Remote value :=
  try_except
    (result <- call h (GetDomain domain domain_type kind) ;;
     py_get result "success" (VBool false))
    (fun _ => ret (VBool false)).

(** [add_domain(client, domain_config, group_mapping)] *)
Definition add_domain (dc : domain_config) (group_mapping : dict)
  : M Remote (value * value) :=
  try_except
    (result <- call h (AddDomain (domain dc) (domain_type dc) (kind dc)
                                 (comment dc) (groups_argument dc group_mapping)
                                 (enabled dc)) ;;
     success <- py_get result "success" (VBool false) ;;
     ret (success, result))
    (fun e => ret (VBool false, VDict [("error", VStr e)])).

(** [update_domain(client, domain_config, group_mapping)] *)
Definition update_domain (dc : domain_config) (group_mapping : dict)
  : M Remote (value * value) :=
  try_except
    (result <- call h (UpdateDomain (domain dc) (domain_type dc) (kind dc)
                                    (comment dc)
                                    (groups_argument dc group_mapping)
                                    (enabled dc)) ;;
     success <- py_get result "success" (VBool false) ;;
     ret (success, result))
    (fun e => ret (VBool false, VDict [("error", VStr e)])).

(** [delete_domain(client, domain_config)] *)
Definition delete_domain (dc : domain_config) : M Remote (value * value) :=
  try_except
    (result <- call h (DeleteDomain (domain dc) (domain_type dc) (kind dc)) ;;
     success <- py_get result "success" (VBool false) ;;
     ret (success, result))
    (fun e => ret (VBool false, VDict [("error", VStr e)])).

(** [AnsibleModule(argument_spec=module_args, supports_check_mode=True)] *)
Definition AnsibleModule (p : params) : M Remote unit :=
  match rejected_parameter p with
  | Some name => fail_json_msg (arg_error h name)
  | None => ret tt
  end.

(** [result[k].append(v)] *)
Definition append_result (k : string) (v : value) : M Remote unit :=
  result <- get_result ;;
  match dict_get result k with
  | Some (VList l) => set_result k (VList (l ++ [v]))
  | Some x => raise ("'" ++ type_name x ++ "' object has no attribute 'append'")
  | None => raise ("'" ++ k ++ "'")
  end.

(** The body of the [for domain_config in domains] loop. *)
Definition process_domain (check_mode : bool) (group_mapping : dict)
    (dc : domain_config) : M Remote unit :=
  let domain_result :=
    [("domain", ostr (domain dc)); ("domain_type", ostr (domain_type dc));
     ("kind", ostr (kind dc)); ("state", ostr (state dc));
     ("changed", VBool false); ("success", VBool false)] in
  present <- domain_exists (domain dc) (domain_type dc) (kind dc) ;;
  domain_result <-
    (if eqs (state dc) "present" then
       if truthy present then
         if negb check_mode then
           '(success, response) <- update_domain dc group_mapping ;;
           let domain_result := dict_set domain_result "success" success in
           let domain_result :=
             dict_set domain_result "response" response in
           if truthy success then
             let domain_result :=
               dict_set domain_result "changed" (VBool true) in
             set_result "changed" (VBool true) ;;
             ret domain_result
           else ret domain_result
         else ret domain_result
       else
         if negb check_mode then
           '(success, response) <- add_domain dc group_mapping ;;
           let domain_result := dict_set domain_result "success" success in
           let domain_result :=
             dict_set domain_result "response" response in
           if truthy success then
             let domain_result :=
               dict_set domain_result "changed" (VBool true) in
             set_result "changed" (VBool true) ;;
             ret domain_result
           else ret domain_result
         else
           let domain_result :=
             dict_set domain_result "changed" (VBool true) in
           set_result "changed" (VBool true) ;;
           ret domain_result
     else if eqs (state dc) "absent" then
       if truthy present then
         if negb check_mode then
           '(success, response) <- delete_domain dc ;;
           let domain_result := dict_set domain_result "success" success in
           let domain_result :=
             dict_set domain_result "response" response in
           if truthy success then
             let domain_result :=
               dict_set domain_result "changed" (VBool true) in
             set_result "changed" (VBool true) ;;
             ret domain_result
           else ret domain_result
         else
           let domain_result :=
             dict_set domain_result "changed" (VBool true) in
           set_result "changed" (VBool true) ;;
           ret domain_result
       else ret domain_result
     else ret domain_result) ;;
  append_result "domains" (ostr (domain dc)) ;;
  append_result "results" (VDict domain_result).

(** The loop itself. *)
Fixpoint process_domains (check_mode : bool) (group_mapping : dict)
    (domains : list domain_config) : M Remote unit :=
  match domains with
  | [] => ret tt
  | dc :: rest =>
      process_domain check_mode group_mapping dc ;;
      process_domains check_mode group_mapping rest
  end.

(** [main()] *)
Definition main (HAS_PIHOLE6API check_mode : bool) (p : params)
  : M Remote unit :=
  init_result [("changed", VBool false); ("domains", VList []);
               ("results", VList [])] ;;
  AnsibleModule p ;;
  (if negb HAS_PIHOLE6API then fail_json_msg missing_library_msg else ret tt) ;;
  let domains := domains_param p in
  let password := password p in
  let url := url p in
  (match domains with [] => exit_json | _ => ret tt end) ;;
  try_except
    (_ <- call h (OpenSession url password) ;;
     group_mapping <- get_group_name_to_id_mapping ;;
     process_domains check_mode group_mapping domains ;;
     try_pass (_ <- call h CloseSession ;; ret tt))
    (fun e => fail_json [("msg", VStr ("Failed to manage domains: " ++ e))]) ;;
  exit_json.

End WithHost.

End domain_management.

(* ===================================================================== *)
(** ** plugins/modules/metrics.py *)
(* ===================================================================== *)

Module metrics.

Record params : Type := {
  metric_type : option string;
  blocked : option bool;
  count : option Z;
  clients : option Z;
  start_time : option Z;
  end_time : option Z;
  from_ts : option Z;
  until_ts : option Z;
  upstream : option string;
  domain : option string;
  client : option string;
  cursor : option string;
  length : option Z;
  password : option string;
  url : option string
}.

Definition metric_type_choices : list string :=
  ["summary"; "query_types"; "top_clients"; "top_domains"; "upstreams";
   "recent_blocked"; "history"; "history_clients"; "queries";
   "query_suggestions"].

(** [params.get(key, default)] on the dictionary [params] of [main],
    which holds the parameters that are not [None]. *)
Definition get_default (x : option Z) (default : Z) : Z :=
  match x with Some z => z | None => default end.

(** The checks of [AnsibleModule(argument_spec=module_args, ...)]: the
    first parameter it rejects, if any. *)
Definition rejected_parameter (p : params) : option string :=
  if negb (required_str (Some metric_type_choices) (metric_type p))
  then Some "metric_type"
  else if negb (required_str None (password p)) then Some "password"
  else if negb (required_str None (url p)) then Some "url"
  else None.

Section WithHost.
Context {Remote : Type} (h : Host Remote).

(** [get_metric(client, metric_type, params)] *)
Definition get_metric (metric_type : option string) (p : params)
  : M Remote (value * value) :=
  let finish (m : M Remote value) : M Remote (value * value) :=
    result <- m ;; ret (VBool true, result) in
  try_except
    (if eqs metric_type "summary" then
       finish (call h GetStatsSummary)
     else if eqs metric_type "query_types" then
       finish (call h GetStatsQueryTypes)
     else if eqs metric_type "top_clients" then
       finish (call h (GetStatsTopClients (blocked p) (count p)))
     else if eqs metric_type "top_domains" then
       finish (call h (GetStatsTopDomains (blocked p) (count p)))
     else if eqs metric_type "upstreams" then
       finish (call h GetStatsUpstreams)
     else if eqs metric_type "recent_blocked" then
       finish (call h (GetStatsRecentBlocked (count p)))
     else if eqs metric_type "history" then
       finish (call h GetHistory)
     else if eqs metric_type "history_clients" then
       finish (call h (GetHistoryClients (get_default (clients p) 20)))
     else if eqs metric_type "queries" then
       finish (call h (GetQueries (get_default (length p) 100)
                                  (from_ts p) (until_ts p) (upstream p)
                                  (domain p) (client p) (cursor p)))
     else if eqs metric_type "query_suggestions" then
       finish (call h GetQuerySuggestions)
     else
       ret (VBool false,
            VDict [("error",
                    VStr ("Unknown metric type: " ++ fmt metric_type))]))
    (fun e => ret (VBool false, VDict [("error", VStr e)])).

(** [AnsibleModule(argument_spec=module_args, supports_check_mode=True)] *)
Definition AnsibleModule (p : params) : M Remote unit :=
  match rejected_parameter p with
  | Some name => fail_json_msg (arg_error h name)
  | None => ret tt
  end.

(** [main()] *)
Definition main (HAS_PIHOLE6API check_mode : bool) (p : params)
  : M Remote unit :=
  init_result [("success", VBool false); ("metric_type", VStr "");
               ("data", VDict []); ("error", VStr "")] ;;
  AnsibleModule p ;;
  (if negb HAS_PIHOLE6API then fail_json_msg missing_library_msg else ret tt) ;;
  let metric_type := metric_type p in
  let password := password p in
  let url := url p in
  set_result "metric_type" (ostr metric_type) ;;
  try_except
    (_ <- call h (OpenSession url password) ;;
     '(success, data) <- get_metric metric_type p ;;
     set_result "success" success ;;
     (if truthy success then set_result "data" data
      else
        e <- py_get data "error" (VStr "Unknown error") ;;
        set_result "error" e ;;
        fail_json [("msg", VStr ("Failed to retrieve metric "
                                 ++ fmt metric_type))]) ;;
     try_pass (_ <- call h CloseSession ;; ret tt))
    (fun e =>
       set_result "error" (VStr e) ;;
       fail_json [("msg", VStr ("Failed to retrieve metric " ++ fmt metric_type
                                ++ ": " ++ e))]) ;;
  exit_json.

End WithHost.

End metrics.

(* ===================================================================== *)
(** ** plugins/modules/ftl_info.py *)
(* ===================================================================== *)

Module ftl_info.

Record params : Type := {
  password : option string;
  url : option string
}.

(** The checks of [AnsibleModule(argument_spec=module_args, ...)]: the
    first parameter it rejects, if any. *)
Definition rejected_parameter (p : params) : option string :=
  if negb (required_str None (password p)) then Some "password"
  else if negb (required_str None (url p)) then Some "url"
  else None.

Section WithHost.
Context {Remote : Type} (h : Host Remote).

(** [get_ftl_info(client)] *)
Definition get_ftl_info : M Remote (value * value) :=
  try_except
    (result <- call h GetFtlInfo ;; ret (VBool true, result))
    (fun e => ret (VBool false, VDict [("error", VStr e)])).

(** [AnsibleModule(argument_spec=module_args, supports_check_mode=True)] *)
Definition AnsibleModule (p : params) : M Remote unit :=
  match rejected_parameter p with
  | Some name => fail_json_msg (arg_error h name)
  | None => ret tt
  end.

(** [main()] *)
Definition main (HAS_PIHOLE6API check_mode : bool) (p : params)
  : M Remote unit :=
  init_result [("success", VBool false); ("data", VDict []);
               ("error", VStr "")] ;;
  AnsibleModule p ;;
  (if negb HAS_PIHOLE6API then fail_json_msg missing_library_msg else ret tt) ;;
  let password := password p in
  let url := url p in
  try_except
    (_ <- call h (OpenSession url password) ;;
     '(success, data) <- get_ftl_info ;;
     set_result "success" success ;;
     (if truthy success then set_result "data" data
      else
        e <- py_get data "error" (VStr "Unknown error") ;;
        set_result "error" e ;;
        fail_json [("msg", VStr "Failed to retrieve FTL information")]) ;;
     try_pass (_ <- call h CloseSession ;; ret tt))
    (fun e =>
       set_result "error" (VStr e) ;;
       fail_json [("msg",
                   VStr ("Failed to retrieve FTL information: " ++ e))]) ;;
  exit_json.

End WithHost.

End ftl_info.

(* ===================================================================== *)
(** ** plugins/modules/network_info.py *)
(* ===================================================================== *)

Module network_info.

Record params : Type := {
  info_type : option string;
  password : option string;
  url : option string
}.

Definition info_type_choices : list string :=
  ["network_info"; "network_devices"].

(** The checks of [AnsibleModule(argument_spec=module_args, ...)]: the
    first parameter it rejects, if any. *)
Definition rejected_parameter (p : params) : option string :=
  if negb (required_str (Some info_type_choices) (info_type p))
  then Some "info_type"
  else if negb (required_str None (password p)) then Some "password"
  else if negb (required_str None (url p)) then Some "url"
  else None.

Section WithHost.
Context {Remote : Type} (h : Host Remote).

(** [get_network_info(client, info_type)] *)
Definition get_network_info (info_type : option string)
  : M Remote (value * value) :=
  try_except
    (if eqs info_type "network_info" then
       result <- call h GetNetworkInfo ;; ret (VBool true, result)
     else if eqs info_type "network_devices" then
       result <- call h GetNetworkDevices ;; ret (VBool true, result)
     else
       ret (VBool false,
            VDict [("error", VStr ("Unknown info type: " ++ fmt info_type))]))
    (fun e => ret (VBool false, VDict [("error", VStr e)])).

(** [AnsibleModule(argument_spec=module_args, supports_check_mode=True)] *)
Definition AnsibleModule (p : params) : M Remote unit :=
  match rejected_parameter p with
  | Some name => fail_json_msg (arg_error h name)
  | None => ret tt
  end.

(** [main()] *)
Definition main (HAS_PIHOLE6API check_mode : bool) (p : params)
  : M Remote unit :=
  init_result [("success", VBool false); ("info_type", VStr "");
               ("data", VDict []); ("error", VStr "")] ;;
  AnsibleModule p ;;
  (if negb HAS_PIHOLE6API then fail_json_msg missing_library_msg else ret tt) ;;
  let info_type := info_type p in
  let password := password p in
  let url := url p in
  set_result "info_type" (ostr info_type) ;;
  try_except
    (_ <- call h (OpenSession url password) ;;
     '(success, data) <- get_network_info info_type ;;
     set_result "success" success ;;
     (if truthy success then set_result "data" data
      else
        e <- py_get data "error" (VStr "Unknown error") ;;
        set_result "error" e ;;
        fail_json [("msg", VStr ("Failed to retrieve " ++ fmt info_type))]) ;;
     try_pass (_ <- call h CloseSession ;; ret tt))
    (fun e =>
       set_result "error" (VStr e) ;;
       fail_json [("msg", VStr ("Failed to retrieve " ++ fmt info_type
                                ++ ": " ++ e))]) ;;
  exit_json.

End WithHost.

End network_info.

(* ===================================================================== *)
(** ** Running a module *)
(* ===================================================================== *)

(** One invocation of one of the seven modules. *)
Inductive invocation : Type :=
| Actions (p : actions.params)
| DnsControl (p : dns_control.params)
| ConfigManagement (p : config_management.params)
| DomainManagement (p : domain_management.params)
| Metrics (p : metrics.params)
| FtlInfo (p : ftl_info.params)
| NetworkInfo (p : network_info.params).

(** What Ansible hands to the module besides its parameters: whether the
    run is a dry run, and whether [import pihole6api] succeeded. *)
Record settings : Type := {
  check_mode : bool;
  HAS_PIHOLE6API : bool
}.

Section Run.
Context {Remote : Type} (h : Host Remote).

Definition main_of (c : settings) (i : invocation) : M Remote unit :=
  match i with
  | Actions p => actions.main h (HAS_PIHOLE6API c) (check_mode c) p
  | DnsControl p => dns_control.main h (HAS_PIHOLE6API c) (check_mode c) p
  | ConfigManagement p =>
      config_management.main h (HAS_PIHOLE6API c) (check_mode c) p
  | DomainManagement p =>
      domain_management.main h (HAS_PIHOLE6API c) (check_mode c) p
  | Metrics p => metrics.main h (HAS_PIHOLE6API c) (check_mode c) p
  | FtlInfo p => ftl_info.main h (HAS_PIHOLE6API c) (check_mode c) p
  | NetworkInfo p => network_info.main h (HAS_PIHOLE6API c) (check_mode c) p
  end.

(** A run from the state [w] of the outside world. *)
Definition run (c : settings) (i : invocation) (w : Remote)
  : outcome unit * st Remote * list event :=
  main_of c i {| remote := w; result := [] |}.

(** How the run ended, and the calls it made. *)
Definition ending (c : settings) (i : invocation) (w : Remote) : outcome unit :=
  fst (fst (run c i w)).

Definition trace (c : settings) (i : invocation) (w : Remote) : list event :=
  snd (run c i w).

End Run.

(* ===================================================================== *)
(** ** Vocabulary of the properties *)
(* ===================================================================== *)

(** The [url] and [password] parameters of an invocation. *)
Definition url_of (i : invocation) : option string :=
  match i with
  | Actions p => actions.url p
  | DnsControl p => dns_control.url p
  | ConfigManagement p => config_management.url p
  | DomainManagement p => domain_management.url p
  | Metrics p => metrics.url p
  | FtlInfo p => ftl_info.url p
  | NetworkInfo p => network_info.url p
  end.

Definition password_of (i : invocation) : option string :=
  match i with
  | Actions p => actions.password p
  | DnsControl p => dns_control.password p
  | ConfigManagement p => config_management.password p
  | DomainManagement p => domain_management.password p
  | Metrics p => metrics.password p
  | FtlInfo p => ftl_info.password p
  | NetworkInfo p => network_info.password p
  end.

(** The same invocation with another password. *)
Definition set_password (i : invocation) (pw : string) : invocation :=
  match i with
  | Actions p =>
      Actions {| actions.action := actions.action p;
                 actions.password := Some pw;
                 actions.url := actions.url p |}
  | DnsControl p =>
      DnsControl {| dns_control.action := dns_control.action p;
                    dns_control.timer := dns_control.timer p;
                    dns_control.password := Some pw;
                    dns_control.url := dns_control.url p |}
  | ConfigManagement p =>
      ConfigManagement
        {| config_management.action := config_management.action p;
           config_management.config_section := config_management.config_section p;
           config_management.config_changes := config_management.config_changes p;
           config_management.element := config_management.element p;
           config_management.value := config_management.value p;
           config_management.export_path := config_management.export_path p;
           config_management.import_path := config_management.import_path p;
           config_management.import_options := config_management.import_options p;
           config_management.detailed := config_management.detailed p;
           config_management.password := Some pw;
           config_management.url := config_management.url p |}
  | DomainManagement p =>
      DomainManagement {| domain_management.domains := domain_management.domains p;
                          domain_management.password := Some pw;
                          domain_management.url := domain_management.url p |}
  | Metrics p =>
      Metrics {| metrics.metric_type := metrics.metric_type p;
                 metrics.blocked := metrics.blocked p;
                 metrics.count := metrics.count p;
                 metrics.clients := metrics.clients p;
                 metrics.start_time := metrics.start_time p;
                 metrics.end_time := metrics.end_time p;
                 metrics.from_ts := metrics.from_ts p;
                 metrics.until_ts := metrics.until_ts p;
                 metrics.upstream := metrics.upstream p;
                 metrics.domain := metrics.domain p;
                 metrics.client := metrics.client p;
                 metrics.cursor := metrics.cursor p;
                 metrics.length := metrics.length p;
                 metrics.password := Some pw;
                 metrics.url := metrics.url p |}
  | FtlInfo p => FtlInfo {| ftl_info.password := Some pw;
                            ftl_info.url := ftl_info.url p |}
  | NetworkInfo p =>
      NetworkInfo {| network_info.info_type := network_info.info_type p;
                     network_info.password := Some pw;
                     network_info.url := network_info.url p |}
  end.

(** The parameter [AnsibleModule] rejects, if any. *)
Definition rejected (i : invocation) : option string :=
  match i with
  | Actions p => actions.rejected_parameter p
  | DnsControl p => dns_control.rejected_parameter p
  | ConfigManagement p => config_management.rejected_parameter p
  | DomainManagement p => domain_management.rejected_parameter p
  | Metrics p => metrics.rejected_parameter p
  | FtlInfo p => ftl_info.rejected_parameter p
  | NetworkInfo p => network_info.rejected_parameter p
  end.

(** The operation selector of a module and its enumerated set
    ([ftl_info] and [domain_management] have none). *)
Definition selector (i : invocation) : option (option string * list string) :=
  match i with
  | Actions p => Some (actions.action p, actions.action_choices)
  | DnsControl p => Some (dns_control.action p, dns_control.action_choices)
  | ConfigManagement p =>
      Some (config_management.action p, config_management.action_choices)
  | Metrics p => Some (metrics.metric_type p, metrics.metric_type_choices)
  | NetworkInfo p =>
      Some (network_info.info_type p, network_info.info_type_choices)
  | DomainManagement _ | FtlInfo _ => None
  end.

(** The selectors of a domain entry and their enumerated sets. *)
Definition entry_selectors (dc : domain_management.domain_config)
  : list (option string * list string) :=
  [(domain_management.state dc, ["present"; "absent"]);
   (domain_management.domain_type dc, ["allow"; "deny"]);
   (domain_management.kind dc, ["exact"; "regex"])].

(** The selector is missing or outside the enumerated set; for the domain
    list, a selector of one of the entries is. *)
Definition selector_invalid (i : invocation) : Prop :=
  (exists x choices, selector i = Some (x, choices) /\
                     forall s, x = Some s -> ~ In s choices)
  \/
  (exists p dc x choices,
     i = DomainManagement p /\
     In dc (domain_management.domains_param p) /\
     In (x, choices) (entry_selectors dc) /\
     forall s, x = Some s -> ~ In s choices).

(** The parameter that the chosen [config_management] action needs is
    missing. *)
Definition required_parameter_missing (i : invocation) : Prop :=
  match i with
  | ConfigManagement p =>
      let action := config_management.action p in
      ((action = Some "add_item" \/ action = Some "delete_item") /\
       (config_management.element p = None \/ config_management.value p = None))
      \/ (action = Some "update" /\ config_management.config_changes p = None)
      \/ (action = Some "export" /\ config_management.export_path p = None)
      \/ (action = Some "import" /\ config_management.import_path p = None)
  | _ => False
  end.

(** The session opens: [PiHole6Client(url, password)] returns. *)
Definition session_opens {Remote} (h : Host Remote) (i : invocation)
    (w : Remote) : Prop :=
  exists v w1,
    remote_call h (OpenSession (url_of i) (password_of i)) w = (Returns v, w1).

(** No call of the trace is a mutation. *)
Definition no_mutation (t : list event) : bool :=
  forallb (fun ev => negb (mutating (fst ev))) t.

(** A mutating call that went through: the file was written, or the
    client returned a dictionary whose [success] is true. *)
Definition succeeded (ev : event) : bool :=
  mutating (fst ev) &&
  match ev with
  | (WriteFile _ _, Returns _) => true
  | (_, Returns (VDict d)) =>
      truthy (dict_get_default d "success" (VBool false))
  | _ => false
  end.

(** The [changed] flag as Ansible reads it: a result without the key has
    not changed anything. *)
Definition changed_flag (e : exit) : bool :=
  truthy (dict_get_default (kwargs_of e) "changed" (VBool false)).

(** [part] occurs in [text]. *)
Definition mentions (text part : string) : Prop :=
  exists before after, text = (before ++ part ++ after)%string.

(** The text of an exception is stored under an [error] key: at the top
    of the result, or inside its [response]. *)
Definition error_recorded (kwargs : dict) (msg : string) : Prop :=
  dict_get kwargs "error" = Some (VStr msg) \/
  exists d, dict_get kwargs "response" = Some (VDict d) /\
            dict_get d "error" = Some (VStr msg).

(** The [message] of a dry run, when the result has one. *)
Definition dry_run_message (kwargs : dict) : option string :=
  match dict_get kwargs "response" with
  | Some (VDict d) =>
      match dict_get d "message" with Some (VStr m) => Some m | _ => None end
  | _ => None
  end.


(** The calls made for the entries of a domain batch. *)
Definition domain_call (r : request) : bool :=
  match r with
  | GetDomain _ _ _ | DeleteDomain _ _ _ => true
  | AddDomain _ _ _ _ _ _ | UpdateDomain _ _ _ _ _ _ => true
  | _ => false
  end.

(** The calls whose exception makes the module fail with the text of the
    exception under an [error] key.  The others are: opening and closing
    the session, the status query of [dns_control], the retrieval of
    [config_management]'s [get], and every call of [domain_management]. *)
Definition fatal_call (r : request) : bool :=
  match r with
  | OpenSession _ _ | CloseSession => false
  | GetBlockingStatus => false
  | GetConfigSection _ _ | GetConfig _ => false
  | GetGroups => false
  | _ => negb (domain_call r)
  end.

(** The retrieval of [config_management]'s [get]. *)
Definition retrieval (r : request) : bool :=
  match r with
  | GetConfigSection _ _ | GetConfig _ => true
  | _ => false
  end.

(** The result record of one domain entry: it names the entry and carries
    its own two flags. *)
Definition entry_record (dc : domain_management.domain_config) (r : value) : Prop :=
  exists d,
    r = VDict d /\
    dict_get d "domain" = Some (ostr (domain_management.domain dc)) /\
    dict_get d "domain_type" = Some (ostr (domain_management.domain_type dc)) /\
    dict_get d "kind" = Some (ostr (domain_management.kind dc)) /\
    dict_get d "state" = Some (ostr (domain_management.state dc)) /\
    (exists b, dict_get d "changed" = Some (VBool b)) /\
    (exists v, dict_get d "success" = Some v).

(** The record of a domain entry whose call raised [msg]. *)
Definition failed_entry (msg : string) (r : value) : Prop :=
  exists d,
    r = VDict d /\
    dict_get d "success" = Some (VBool false) /\
    dict_get d "changed" = Some (VBool false) /\
    dict_get d "response" = Some (VDict [("error", VStr msg)]).

(** The modules whose dry run carries a [message], and what the message
    has to name: the action for [actions], the operands of the action for
    [config_management] ([get] has no dry run of its own). *)
Definition named_in_message {Remote} (h : Host Remote) (i : invocation)
  : option (list string) :=
  match i with
  | Actions p => Some [fmt (actions.action p)]
  | ConfigManagement p =>
      let action := config_management.action p in
      if eqs action "update" then
        Some [py_str h (config_management.config_changes p)]
      else if eqs action "add_item" || eqs action "delete_item" then
        Some [fmt (config_management.value p);
              fmt (config_management.element p)]
      else if eqs action "export" then
        Some [fmt (config_management.export_path p)]
      else if eqs action "import" then
        Some [fmt (config_management.import_path p)]
      else None
  | _ => None
  end.

(** The first mutating call of a trace. *)
Definition first_mutation (t : list event) : option event :=
  find (fun ev => mutating (fst ev)) t.

(** The update of an existing domain entry. *)
Definition updates_entry (r : request) : bool :=
  match r with
  | UpdateDomain _ _ _ _ _ _ => true
  | _ => false
  end.

(** Every module but the domain list. *)
Definition outside_domain_list (i : invocation) : bool :=
  match i with
  | DomainManagement _ => false
  | _ => true
  end.

(** What holds of a run with ending [e] and trace [t]:
    - a dry run makes no mutating call;
    - a real run that reports a change made a mutating call that went
      through;
    - when a fatal call raised, the module failed and recorded the text;
    - when opening the session raised, the module failed and [msg]
      carries the text;
    - when the status query of [dns_control] raised, the module failed. *)
Definition run_facts (c : settings) (e : exit) (t : list event) : Prop :=
  (check_mode c = true -> no_mutation t = true) /\
  (check_mode c = false -> changed_flag e = true ->
   existsb succeeded t = true) /\
  (forall r msg, In (r, Raises msg) t -> fatal_call r = true ->
     exists kw, e = FailJson kw /\ error_recorded kw msg) /\
  (forall u pw msg, In (OpenSession u pw, Raises msg) t ->
     exists kw text, e = FailJson kw /\
                     dict_get kw "msg" = Some (VStr text) /\
                     mentions text msg) /\
  (forall msg, In (GetBlockingStatus, Raises msg) t ->
     exists kw, e = FailJson kw /\
                dict_get kw "msg" =
                  Some (VStr "Failed to get current blocking status")).

Definition dry (has : bool) : settings :=
  {| check_mode := true; HAS_PIHOLE6API := has |}.

Definition real (has : bool) : settings :=
  {| check_mode := false; HAS_PIHOLE6API := has |}.

(** *** Hosts to run the modules against *)

(** A host without state, given by its answers. *)
Definition scripted (answer : request -> response) : Host unit :=
  {| remote_call := fun r w => (answer r, w);
     py_str := fun _ => "{...}";
     arg_error := fun name => ("invalid value for " ++ name)%string |}.

(** Everything succeeds; blocking is reported off, with no timer. *)
Definition obliging : Host unit :=
  scripted (fun r =>
    match r with
    | GetBlockingStatus =>
        Returns (VDict [("blocking", VBool false); ("timer", VInt 0)])
    | _ => Returns (VDict [("success", VBool true)])
    end).

(** Blocking is on, with no timer. *)
Definition blocking_on : Host unit :=
  scripted (fun r =>
    match r with
    | GetBlockingStatus =>
        Returns (VDict [("blocking", VBool true); ("timer", VInt 0)])
    | _ => Returns (VDict [("success", VBool true)])
    end).

(** The session opens and closes, every other call raises. *)
Definition unreachable : Host unit :=
  scripted (fun r =>
    match r with
    | OpenSession _ _ | CloseSession => Returns VNone
    | _ => Raises "connection refused"
    end).

(** No domain exists yet, and adding ["bad.example"] raises. *)
Definition picky : Host unit :=
  scripted (fun r =>
    match r with
    | GetDomain _ _ _ => Returns (VDict [("success", VBool false)])
    | AddDomain (Some "bad.example") _ _ _ _ _ => Raises "rejected"
    | _ => Returns (VDict [("success", VBool true)])
    end).

Definition settings_of (check : bool) : settings :=
  {| check_mode := check; HAS_PIHOLE6API := true |}.

Definition flush_arp : invocation :=
  Actions {| actions.action := Some "flush_arp";
             actions.password := Some "secret";
             actions.url := Some "http://pi.hole" |}.

Definition enable_blocking : invocation :=
  DnsControl {| dns_control.action := Some "enable";
                dns_control.timer := None;
                dns_control.password := Some "secret";
                dns_control.url := Some "http://pi.hole" |}.

Definition config_action (action : string) : config_management.params :=
  {| config_management.action := Some action;
     config_management.config_section := None;
     config_management.config_changes := None;
     config_management.element := None;
     config_management.value := None;
     config_management.export_path := None;
     config_management.import_path := None;
     config_management.import_options := None;
     config_management.detailed := false;
     config_management.password := Some "secret";
     config_management.url := Some "http://pi.hole" |}.

Definition deny_exact (name : string) : domain_management.domain_config :=
  {| domain_management.domain := Some name;
     domain_management.domain_type := Some "deny";
     domain_management.kind := Some "exact";
     domain_management.state := Some "present";
     domain_management.comment := None;
     domain_management.groups := [];
     domain_management.enabled := true |}.

Definition domain_batch (l : option (list domain_management.domain_config))
  : domain_management.params :=
  {| domain_management.domains := l;
     domain_management.password := Some "secret";
     domain_management.url := Some "http://pi.hole" |}.
(* ===================================================================== *)
(** ** Vocabulary of the further properties *)
(* ===================================================================== *)

(** *** Sessions *)

Definition opens (r : request) : bool :=
  match r with OpenSession _ _ => true | _ => false end.

Definition closes (r : request) : bool :=
  match r with CloseSession => true | _ => false end.

Definition session_call (r : request) : bool := opens r || closes r.

(** The calls of a run that used its session to the end: none at all, or
    a session opened first, closed last, and neither in between. *)
Definition bracketed (t : list event) : bool :=
  match t with
  | [] => true
  | (OpenSession _ _, Returns _) :: rest =>
      match rev rest with
      | (CloseSession, _) :: inner =>
          forallb (fun ev => negb (session_call (fst ev))) inner
      | _ => false
      end
  | _ => false
  end.

(** The calls of a run that never closed its session: none at all, or a
    session opened first and no other session call. *)
Definition left_open (t : list event) : bool :=
  match t with
  | [] => true
  | (OpenSession _ _, _) :: rest =>
      forallb (fun ev => negb (session_call (fst ev))) rest
  | _ => false
  end.

(** *** Answers of the client *)

(** A mutating call answered by the client (not the local file write). *)
Definition client_mutation (r : request) : bool :=
  mutating r && match r with WriteFile _ _ => false | _ => true end.

Definition is_dict (v : value) : bool :=
  match v with VDict _ => true | _ => false end.

(** The text of the [AttributeError] of [v.get(...)]. *)
Definition attribute_error (v : value) : string :=
  "'" ++ type_name v ++ "' object has no attribute 'get'".

(** The modules that only read. *)
Definition read_only (i : invocation) : bool :=
  match i with
  | Metrics _ | FtlInfo _ | NetworkInfo _ => true
  | _ => false
  end.

(** [TypeError] of [v > 0]. *)
Definition not_a_number (v : value) : bool :=
  match v with VInt _ | VBool _ => false | _ => true end.

(** *** plugins/modules/metrics.py, the [params] dictionary of [main] *)

Definition obool (o : option bool) : value :=
  match o with Some b => VBool b | None => VNone end.

(** The keys of the loop that fills [params]. *)
Definition collected_keys : list string :=
  ["blocked"; "count"; "clients"; "start_time"; "end_time"; "from_ts";
   "until_ts"; "upstream"; "domain"; "client"; "cursor"; "length"].

(** [module.params[key]] for those keys. *)
Definition module_params (p : metrics.params) (key : string) : value :=
  if String.eqb key "blocked" then obool (metrics.blocked p)
  else if String.eqb key "count" then oint (metrics.count p)
  else if String.eqb key "clients" then oint (metrics.clients p)
  else if String.eqb key "start_time" then oint (metrics.start_time p)
  else if String.eqb key "end_time" then oint (metrics.end_time p)
  else if String.eqb key "from_ts" then oint (metrics.from_ts p)
  else if String.eqb key "until_ts" then oint (metrics.until_ts p)
  else if String.eqb key "upstream" then ostr (metrics.upstream p)
  else if String.eqb key "domain" then ostr (metrics.domain p)
  else if String.eqb key "client" then ostr (metrics.client p)
  else if String.eqb key "cursor" then ostr (metrics.cursor p)
  else if String.eqb key "length" then oint (metrics.length p)
  else VNone.

(** [for key in [...]: if module.params[key] is not None:
    params[key] = module.params[key]], from a given dictionary. *)
Definition collect (lookup : string -> value) (keys : list string)
    (params : dict) : dict :=
  fold_left (fun params key =>
               if is_None (lookup key) then params
               else dict_set params key (lookup key))
            keys params.

(** The [params] dictionary handed to [get_metric]. *)
Definition collected_params (p : metrics.params) : dict :=
  collect (module_params p) collected_keys [].

(** The same parameters with other [start_time] and [end_time]. *)
Definition with_times (p : metrics.params) (start_time end_time : option Z)
  : metrics.params :=
  {| metrics.metric_type := metrics.metric_type p;
     metrics.blocked := metrics.blocked p;
     metrics.count := metrics.count p;
     metrics.clients := metrics.clients p;
     metrics.start_time := start_time;
     metrics.end_time := end_time;
     metrics.from_ts := metrics.from_ts p;
     metrics.until_ts := metrics.until_ts p;
     metrics.upstream := metrics.upstream p;
     metrics.domain := metrics.domain p;
     metrics.client := metrics.client p;
     metrics.cursor := metrics.cursor p;
     metrics.length := metrics.length p;
     metrics.password := metrics.password p;
     metrics.url := metrics.url p |}.

(** *** plugins/modules/domain_management.py *)

(** The answer to [get_domain] counts as "exists". *)
Definition lookup_found (resp : response) : bool :=
  match resp with
  | Returns (VDict d) => truthy (dict_get_default d "success" (VBool false))
  | _ => false
  end.

Definition lookup_call (r : request) : bool :=
  match r with GetDomain _ _ _ => true | _ => false end.

(** The calls made for the entries. *)
Definition entry_calls (t : list event) : list event :=
  filter (fun ev => domain_call (fst ev)) t.

(** The [changed] flag of a record. *)
Definition record_changed (r : value) : bool :=
  match r with
  | VDict d => truthy (dict_get_default d "changed" (VBool false))
  | _ => false
  end.

(** The record of an entry in a dry run: no [success], no [response]. *)
Definition dry_record (r : value) : Prop :=
  exists d, r = VDict d /\
            dict_get d "success" = Some (VBool false) /\
            dict_get d "response" = None.

(** The [groups] argument of a call. *)
Definition carried_groups (r : request) : option (list value) :=
  match r with
  | AddDomain _ _ _ _ groups _ | UpdateDomain _ _ _ _ groups _ => groups
  | _ => None
  end.

(** The object [item] of the answer of [get_groups] describes the group
    [g], given by name and id. *)
Definition describes (g : string * value) (item : value) : Prop :=
  exists d, item = VDict d /\
            dict_get d "name" = Some (VStr (fst g)) /\
            dict_get d "id" = Some (snd g).

(** The id of the last group called [name]. *)
Definition last_id (groups : list (string * value)) (name : string)
  : option value :=
  option_map snd (find (fun g => String.eqb (fst g) name) (rev groups)).

(** *** Further hosts and parameters to run the modules against *)

(** Everything succeeds, and [os.path.exists] answers [present]. *)
Definition file_host (present : bool) : Host unit :=
  scripted (fun r =>
    match r with
    | PathExists _ => Returns (VBool present)
    | ExportSettings => Returns (VStr "PK")
    | _ => Returns (VDict [("success", VBool true)])
    end).

Definition export_to (path : string) : config_management.params :=
  {| config_management.action := Some "export";
     config_management.config_section := None;
     config_management.config_changes := None;
     config_management.element := None;
     config_management.value := None;
     config_management.export_path := Some path;
     config_management.import_path := None;
     config_management.import_options := None;
     config_management.detailed := false;
     config_management.password := Some "secret";
     config_management.url := Some "http://pi.hole" |}.

Definition import_from (path : string) : config_management.params :=
  {| config_management.action := Some "import";
     config_management.config_section := None;
     config_management.config_changes := None;
     config_management.element := None;
     config_management.value := None;
     config_management.export_path := None;
     config_management.import_path := Some path;
     config_management.import_options := None;
     config_management.detailed := false;
     config_management.password := Some "secret";
     config_management.url := Some "http://pi.hole" |}.

(** Every call is answered, with an object that says it did not work. *)
Definition refusing : Host unit :=
  scripted (fun _ => Returns (VDict [("success", VBool false)])).

(** Every call is answered with [None]. *)
Definition silent : Host unit :=
  scripted (fun _ => Returns VNone).

(** Blocking is reported off, with the given timer. *)
Definition blocking_paused (timer : value) : Host unit :=
  scripted (fun r =>
    match r with
    | GetBlockingStatus =>
        Returns (VDict [("blocking", VBool false); ("timer", timer)])
    | _ => Returns (VDict [("success", VBool true)])
    end).

Definition dns_action (action : string) (timer : option Z)
  : dns_control.params :=
  {| dns_control.action := Some action;
     dns_control.timer := timer;
     dns_control.password := Some "secret";
     dns_control.url := Some "http://pi.hole" |}.

Definition summary_metric : metrics.params :=
  {| metrics.metric_type := Some "summary";
     metrics.blocked := None;
     metrics.count := None;
     metrics.clients := None;
     metrics.start_time := None;
     metrics.end_time := None;
     metrics.from_ts := None;
     metrics.until_ts := None;
     metrics.upstream := None;
     metrics.domain := None;
     metrics.client := None;
     metrics.cursor := None;
     metrics.length := None;
     metrics.password := Some "secret";
     metrics.url := Some "http://pi.hole" |}.

(** *** plugins/modules/domain_management.py, the calls of one entry *)

(** The mutation an entry calls for, given whether it was found: a
    present entry is updated when found and added otherwise, an absent
    entry is deleted when found. *)
Definition entry_request (dc : domain_management.domain_config)
    (group_mapping : dict) (found : bool) : option request :=
  let domain := domain_management.domain dc in
  let domain_type := domain_management.domain_type dc in
  let kind := domain_management.kind dc in
  let comment := domain_management.comment dc in
  let groups := domain_management.groups_argument dc group_mapping in
  let enabled := domain_management.enabled dc in
  if eqs (domain_management.state dc) "present" then
    if found then
      Some (UpdateDomain domain domain_type kind comment groups enabled)
    else Some (AddDomain domain domain_type kind comment groups enabled)
  else if eqs (domain_management.state dc) "absent" then
    if found then Some (DeleteDomain domain domain_type kind) else None
  else None.

Definition olist {A} (o : option A) : list A :=
  match o with Some a => [a] | None => [] end.

(** The calls made for one entry: the lookup of the entry, and after it,
    in a real run, the mutation the entry calls for. *)
Definition entry_block (check_mode : bool) (group_mapping : dict)
    (dc : domain_management.domain_config) (block : list event) : Prop :=
  exists resp rest,
    block = (GetDomain (domain_management.domain dc)
                       (domain_management.domain_type dc)
                       (domain_management.kind dc), resp) :: rest /\
    map fst rest =
      if check_mode then []
      else olist (entry_request dc group_mapping (lookup_found resp)).

(** The dictionary built from a list of groups, in order. *)
Definition mapping_of (groups : list (string * value)) (acc : dict) : dict :=
  fold_left (fun acc g => dict_set acc (fst g) (snd g)) groups acc.

(** The groups are listed: ["Default"] with id 0 and ["kids"] with id 3;
    everything else succeeds. *)
Definition grouped : Host unit :=
  scripted (fun r =>
    match r with
    | GetGroups =>
        Returns (VDict [("groups",
                         VList [VDict [("name", VStr "Default");
                                       ("id", VInt 0)];
                                VDict [("name", VStr "kids");
                                       ("id", VInt 3)]])])
    | _ => Returns (VDict [("success", VBool true)])
    end).

(** Listing the groups raises; no domain exists yet. *)
Definition ungrouped : Host unit :=
  scripted (fun r =>
    match r with
    | GetGroups => Raises "forbidden"
    | GetDomain _ _ _ => Returns (VDict [("success", VBool false)])
    | _ => Returns (VDict [("success", VBool true)])
    end).

Definition deny_exact_in (name : string) (groups : list string)
  : domain_management.domain_config :=
  {| domain_management.domain := Some name;
     domain_management.domain_type := Some "deny";
     domain_management.kind := Some "exact";
     domain_management.state := Some "present";
     domain_management.comment := None;
     domain_management.groups := groups;
     domain_management.enabled := true |}.

(** *** plugins/modules/domain_management.py, the record of one entry *)

(** [r[k]] for a record [r]. *)
Definition record_field (r : value) (k : string) : option value :=
  match r with VDict d => dict_get d k | _ => None end.

(** What a dry run counts as a change: adding and deleting, not
    updating. *)
Definition would_change (q : option request) : bool :=
  match q with
  | Some (AddDomain _ _ _ _ _ _) | Some (DeleteDomain _ _ _) => true
  | _ => false
  end.

(** The record [r] carries the outcome of a mutation answered by
    [answer]: the [success] the client gave and its answer as [response],
    or [success=False] and the text of the exception under
    [response.error]; [changed] is [True] exactly when [success] is
    truthy. *)
Definition answer_recorded (answer : response) (r : value) : Prop :=
  match answer with
  | Returns (VDict d) =>
      let success := dict_get_default d "success" (VBool false) in
      record_field r "success" = Some success /\
      record_field r "response" = Some (VDict d) /\
      record_field r "changed" = Some (VBool (truthy success))
  | Returns v =>
      record_field r "success" = Some (VBool false) /\
      record_field r "response" =
        Some (VDict [("error", VStr (attribute_error v))]) /\
      record_field r "changed" = Some (VBool false)
  | Raises msg =>
      record_field r "success" = Some (VBool false) /\
      record_field r "response" = Some (VDict [("error", VStr msg)]) /\
      record_field r "changed" = Some (VBool false)
  end.

(** The record [r] of the entry [dc] carries the outcome of the calls
    [block] made for that entry, and of nothing else: after a lookup
    alone, [success=False], no [response], and [changed] only in a dry
    run of an entry that would be added or deleted; after a mutation,
    the outcome of that mutation. *)
Definition entry_outcome (check_mode : bool) (group_mapping : dict)
    (dc : domain_management.domain_config) (block : list event) (r : value)
  : Prop :=
  match block with
  | [(_, found)] =>
      record_field r "success" = Some (VBool false) /\
      record_field r "response" = None /\
      record_field r "changed" =
        Some (VBool (check_mode &&
                     would_change (entry_request dc group_mapping
                                                 (lookup_found found))))
  | [_; (_, answer)] => answer_recorded answer r
  | _ => False
  end.

(** The entry [dc] was handled by the calls [fst br] and reported by the
    record [snd br]. *)
Definition entry_handled (check_mode : bool) (group_mapping : dict)
    (dc : domain_management.domain_config) (br : list event * value) : Prop :=
  entry_block check_mode group_mapping dc (fst br) /\
  entry_record dc (snd br) /\
  entry_outcome check_mode group_mapping dc (fst br) (snd br).

(** The client refuses the password, and says which. *)
Definition echoing : Host unit :=
  scripted (fun r =>
    match r with
    | OpenSession _ (Some password) =>
        Raises ("401 bad password " ++ password)
    | OpenSession _ None => Raises "401 no password"
    | _ => Returns (VDict [("success", VBool true)])
    end).

(* ===================================================================== *)
(** ** Proof tools *)
(* ===================================================================== *)

Lemma py_get_dict {Remote} (d : dict) k default (s : st Remote) :
  py_get (VDict d) k default s = (Ok (dict_get_default d k default), s, []).
Proof. reflexivity. Qed.

Lemma py_get_cases {Remote} (v : value) k default :
  (exists d, v = VDict d) \/
  (exists m, forall s : st Remote, py_get v k default s = (Raise m, s, [])).
Proof. destruct v; unfold py_get, raise; eauto. Qed.

Lemma py_gt0_cases {Remote} (v : value) :
  (exists b, forall s : st Remote, py_gt0 v s = (Ok b, s, [])) \/
  (exists m, forall s : st Remote, py_gt0 v s = (Raise m, s, [])).
Proof. destruct v; unfold py_gt0, ret, raise; eauto. Qed.

Lemma required_str_outside (x : option string) (choices : list string) :
  (forall s, x = Some s -> ~ In s choices) ->
  required_str (Some choices) x = false.
Proof.
  intros H. destruct x as [s|]; [|reflexivity]. simpl.
  destruct (in_choices s choices) eqn:E; [|reflexivity].
  unfold in_choices in E. apply existsb_exists in E as [y [Hy Heq]].
  apply String.eqb_eq in Heq. subst y. exfalso. exact (H s eq_refl Hy).
Qed.

Lemma eqs_true (x : option string) (lit : string) :
  eqs x lit = true <-> x = Some lit.
Proof.
  destruct x as [s|]; simpl.
  - rewrite String.eqb_eq. split; congruence.
  - split; discriminate.
Qed.

Lemma eqs_refl (lit : string) : eqs (Some lit) lit = true.
Proof. apply eqs_true. reflexivity. Qed.

Arguments py_get : simpl never.
Arguments py_gt0 : simpl never.
Arguments String.append : simpl never.
Arguments fmt : simpl never.
Arguments required_str : simpl never.
Arguments domain_management.process_domains : simpl never.
Arguments domain_management.get_group_name_to_id_mapping : simpl never.

Ltac unfold_py :=
  unfold bind, try_except, try_pass, call, ret, raise, set_result, get_result,
    init_result, exit_json, fail_json, fail_json_msg in *.

Ltac unfold_run :=
  unfold ending, trace, run, main_of in *.

(** One case split on the next thing the run depends on. *)
Ltac step :=
  match goal with
  | |- context [remote_call ?h ?r ?s] =>
      let v := fresh "v" in let m := fresh "m" in let w := fresh "w" in
      destruct (remote_call h r s) as [[v | m] w] eqn:?
  | |- context [@py_get ?R (VDict ?d) ?k ?def ?s] =>
      rewrite !(@py_get_dict R d k def)
  | |- context [@py_get ?R ?v ?k ?def ?s] =>
      let d := fresh "d" in let m := fresh "m" in let E := fresh "E" in
      destruct (@py_get_cases R v k def) as [[d ->] | [m E]];
      [ rewrite !(@py_get_dict R d k def) | rewrite !E; clear E ]
  | |- context [@py_gt0 ?R ?v ?s] =>
      let b := fresh "b" in let m := fresh "m" in let E := fresh "E" in
      destruct (@py_gt0_cases R v) as [[b E] | [m E]]; rewrite !E; clear E
  | |- context [match ?x with _ => _ end] =>
      lazymatch x with
      | context [match _ with _ => _ end] => fail
      | _ => destruct x eqn:?
      end
  end; cbn.

Ltac unfold_modules :=
  unfold actions.main, actions.AnsibleModule, actions.perform_action,
    dns_control.main, dns_control.AnsibleModule,
    dns_control.get_blocking_status, dns_control.set_blocking_status,
    config_management.main, config_management.AnsibleModule,
    config_management.get_config, config_management.update_config,
    config_management.add_config_item, config_management.delete_config_item,
    config_management.export_config, config_management.import_config,
    metrics.main, metrics.AnsibleModule, metrics.get_metric,
    ftl_info.main, ftl_info.AnsibleModule, ftl_info.get_ftl_info,
    network_info.main, network_info.AnsibleModule,
    network_info.get_network_info in *.

(** Two case splits that disagree. *)
Ltac clash :=
  match goal with
  | H1 : ?x = _, H2 : context [?x] |- _ =>
      rewrite H1 in H2; cbn in H2; discriminate H2
  end.

Ltac use_true :=
  repeat match goal with
         | H : ?x = true |- context [?x] => rewrite H
         end.


Lemma append_nil_r (s : string) : (s ++ "")%string = s.
Proof.
  induction s as [|a s IH]; [reflexivity|].
  unfold String.append. fold String.append. rewrite IH. reflexivity.
Qed.

Lemma append_assoc (a b c : string) :
  ((a ++ b) ++ c)%string = (a ++ (b ++ c))%string.
Proof.
  induction a as [|x a IH]; [reflexivity|].
  unfold String.append; fold String.append. rewrite IH. reflexivity.
Qed.

Lemma mentions_suffix (a b : string) : mentions (a ++ b) b.
Proof. exists a, "". rewrite append_nil_r. reflexivity. Qed.

Lemma mentions_prefix (a b : string) : mentions (a ++ b) a.
Proof. exists "", b. reflexivity. Qed.

Lemma mentions_after (a t p : string) : mentions t p -> mentions (a ++ t) p.
Proof.
  intros (x & y & ->). exists (a ++ x)%string, y.
  rewrite append_assoc. reflexivity.
Qed.

Create HintDb mentions.
#[export] Hint Resolve mentions_suffix mentions_prefix mentions_after : mentions.

(** Splitting [In x t] on a trace that is known. *)
Ltac in_trace H :=
  cbn in H;
  repeat match type of H with
         | _ \/ _ => destruct H as [H | H]
         | False => contradiction
         | (_, _) = (_, _) => inversion H; subst; clear H
         end.

(* ===================================================================== *)
(** ** Parameter errors come before the client *)
(* ===================================================================== *)

Lemma rejected_fails {Remote} (h : Host Remote) c i w name :
  rejected i = Some name ->
  ending h c i w = SystemExit (FailJson [("msg", VStr (arg_error h name))]) /\
  trace h c i w = [].
Proof.
  intros H. unfold_run.
  destruct i; cbn in H;
    [ unfold actions.main, actions.AnsibleModule
    | unfold dns_control.main, dns_control.AnsibleModule
    | unfold config_management.main, config_management.AnsibleModule
    | unfold domain_management.main, domain_management.AnsibleModule
    | unfold metrics.main, metrics.AnsibleModule
    | unfold ftl_info.main, ftl_info.AnsibleModule
    | unfold network_info.main, network_info.AnsibleModule ];
    rewrite H; unfold_py; cbn; auto.
Qed.

Lemma entry_selector_outside (dc : domain_management.domain_config) x choices :
  In (x, choices) (entry_selectors dc) ->
  (forall s, x = Some s -> ~ In s choices) ->
  domain_management.entry_ok dc = false.
Proof.
  intros I Hout. apply required_str_outside in Hout.
  unfold domain_management.entry_ok.
  destruct I as [I | [I | [I | []]]]; injection I as <- <-; rewrite Hout;
    rewrite ?andb_false_r; reflexivity.
Qed.

Lemma selector_invalid_rejected (i : invocation) :
  selector_invalid i -> exists name, rejected i = Some name.
Proof.
  intros [(x & choices & Hsel & Hout) | (p & dc & x & choices & -> & I & S & Hout)].
  - apply required_str_outside in Hout.
    destruct i; cbn in Hsel; inversion Hsel; subst; cbn;
      [ unfold actions.rejected_parameter
      | unfold dns_control.rejected_parameter
      | unfold config_management.rejected_parameter
      | unfold metrics.rejected_parameter
      | unfold network_info.rejected_parameter ];
      rewrite Hout; cbn; eauto.
  - cbn. unfold domain_management.rejected_parameter.
    assert (F : forallb domain_management.entry_ok
                  (domain_management.domains_param p) = false).
    { destruct (forallb domain_management.entry_ok
                  (domain_management.domains_param p)) eqn:E; [|reflexivity].
      rewrite forallb_forall in E. specialize (E dc I).
      rewrite (entry_selector_outside S Hout) in E. discriminate E. }
    rewrite F. cbn. eauto.
Qed.

Lemma config_missing_fails {Remote} (h : Host Remote) c p w :
  required_parameter_missing (ConfigManagement p) ->
  exists kw, ending h c (ConfigManagement p) w = SystemExit (FailJson kw) /\
             trace h c (ConfigManagement p) w = [].
Proof.
  intros H.
  destruct (rejected (ConfigManagement p)) as [name|] eqn:R.
  { eexists. eapply rejected_fails. eassumption. }
  cbn in R. unfold_run.
  unfold config_management.main, config_management.AnsibleModule.
  rewrite R. unfold_py. cbn.
  destruct (HAS_PIHOLE6API c); cbn; [|eauto].
  cbn in H.
  destruct H as [[[A | A] [E | E]] | [[A E] | [[A E] | [A E]]]];
    rewrite A, E; cbn; rewrite ?orb_true_r; cbn; eauto.
Qed.

(* ===================================================================== *)
(** ** The loop of the domain-list module *)
(* ===================================================================== *)

Section DomainLoop.
Context {Remote : Type} (h : Host Remote).

Import domain_management.

Lemma collect_groups_pure (items : list value) :
  forall (acc : dict) (s : st Remote),
    (exists m, collect_groups items acc s = (Ok m, s, [])) \/
    (exists msg, collect_groups items acc s = (Raise msg, s, [])).
Proof.
  induction items as [|group rest IH]; intros acc s; cbn.
  - left. eexists. reflexivity.
  - unfold bind, py_getitem, ret, raise.
    destruct group; eauto.
    destruct (dict_get d "name") as [name|]; eauto.
    destruct (dict_get d "id") as [id|]; eauto.
    destruct name;
      try (destruct (IH acc s) as [[m E] | [msg E]]; rewrite E; eauto);
      eauto.
    destruct (IH (dict_set acc s0 id) s) as [[m E] | [msg E]]; rewrite E; eauto.
Qed.

Lemma get_group_name_to_id_mapping_total (s : st Remote) :
  exists gm w resp,
    get_group_name_to_id_mapping h s =
      (Ok gm, {| remote := w; result := result s |}, [(GetGroups, resp)]).
Proof.
  unfold get_group_name_to_id_mapping. unfold_py.
  destruct (remote_call h GetGroups (remote s)) as [[v | m] w] eqn:E; cbn.
  2: { do 3 eexists. reflexivity. }
  destruct (@py_get_cases Remote v "groups" (VList [])) as [[d ->] | [m Em]].
  2: { rewrite Em. do 3 eexists. reflexivity. }
  rewrite py_get_dict.
  set (s1 := {| remote := w; result := result s |}).
  assert (P : (exists l, py_iter (dict_get_default d "groups" (VList [])) s1
                         = (Ok l, s1, [])) \/
              (exists msg, py_iter (dict_get_default d "groups" (VList [])) s1
                           = (Raise msg, s1, []))).
  { unfold py_iter, ret, raise.
    destruct (dict_get_default d "groups" (VList [])); eauto. }
  destruct P as [[l El] | [msg El]]; rewrite El.
  2: { do 3 eexists. reflexivity. }
  destruct (collect_groups_pure l [] s1) as [[m Ec] | [msg Ec]]; rewrite Ec;
    do 3 eexists; reflexivity.
Qed.

(** The loop body: it always completes, appends one domain and one record,
    and its calls are as the mode allows. *)
Lemma process_domain_spec (check : bool) (gm : dict) (dc : domain_config)
    (w : Remote) (c : bool) (ds rs : list value) :
  exists w' t c' r,
    process_domain h check gm dc
      {| remote := w;
         result := [("changed", VBool c); ("domains", VList ds);
                    ("results", VList rs)] |}
    = (Ok tt,
       {| remote := w';
          result := [("changed", VBool c');
                     ("domains", VList (ds ++ [ostr (domain dc)]));
                     ("results", VList (rs ++ [r]))] |},
       t)
    /\ entry_record dc r
    /\ (check = true -> no_mutation t = true)
    /\ (check = false -> c' = true -> c = true \/ existsb succeeded t = true)
    /\ forallb (fun ev => domain_call (fst ev)) t = true
    /\ (c = true -> c' = true)
    /\ (forall q msg, In (q, Raises msg) t -> mutating q = true ->
        failed_entry msg r).
Proof.
  unfold process_domain, domain_exists, update_domain, add_domain,
    delete_domain, append_result, entry_record.
  unfold_py. destruct check; cbn.
  all: repeat step.
  all: do 4 eexists; split; [reflexivity|].
  all: split; [eexists; repeat split; cbn; eauto|].
  all: split; [intros; try discriminate; reflexivity|].
  all: split; [intros; try discriminate; cbn;
               rewrite ?Heqb, ?Heqb0, ?Heqb1, ?Heqb2; auto|].
  all: split; [reflexivity|].
  all: split; [auto|].
  all: intros q msg I Q; in_trace I; try discriminate Q.
  all: eexists; repeat split; reflexivity.
Qed.

Lemma process_domains_spec (check : bool) (gm : dict)
    (l : list domain_config) :
  forall (w : Remote) (c : bool) (ds rs : list value),
  exists w' t c' rs',
    process_domains h check gm l
      {| remote := w;
         result := [("changed", VBool c); ("domains", VList ds);
                    ("results", VList rs)] |}
    = (Ok tt,
       {| remote := w';
          result := [("changed", VBool c');
                     ("domains", VList (ds ++ map (fun dc => ostr (domain dc)) l));
                     ("results", VList (rs ++ rs'))] |},
       t)
    /\ Forall2 entry_record l rs'
    /\ (check = true -> no_mutation t = true)
    /\ (check = false -> c' = true -> c = true \/ existsb succeeded t = true)
    /\ forallb (fun ev => domain_call (fst ev)) t = true
    /\ (c = true -> c' = true)
    /\ (forall q msg, In (q, Raises msg) t -> mutating q = true ->
        exists r, In r rs' /\ failed_entry msg r).
Proof.
  induction l as [|dc rest IH]; intros w c ds rs.
  - exists w, [], c, []. cbn. rewrite !app_nil_r.
    repeat split; auto. intros q msg [].
  - destruct (process_domain_spec check gm dc w c ds rs)
      as (w1 & t1 & c1 & r & E1 & R1 & M1 & S1 & F1 & K1 & X1).
    destruct (IH w1 c1 (ds ++ [ostr (domain dc)]) (rs ++ [r]))
      as (w2 & t2 & c2 & rs2 & E2 & R2 & M2 & S2 & F2 & K2 & X2).
    exists w2, (t1 ++ t2), c2, (r :: rs2).
    split.
    { change (process_domains h check gm (dc :: rest))
        with (bind (process_domain h check gm dc)
                   (fun _ => process_domains h check gm rest)).
      unfold bind at 1. rewrite E1, E2.
      cbn [map]. rewrite <- !app_assoc. reflexivity. }
    split; [constructor; assumption|].
    split.
    { intros C. unfold no_mutation. rewrite forallb_app.
      apply andb_true_intro. split; [apply M1 | apply M2]; exact C. }
    split.
    { intros C C2. rewrite existsb_app.
      destruct (S2 C C2) as [C1 | X].
      - destruct (S1 C C1) as [C0 | X]; [left; exact C0 | right].
        apply orb_true_intro. left. exact X.
      - right. apply orb_true_intro. right. exact X. }
    split; [rewrite forallb_app; apply andb_true_intro; split; assumption|].
    split; [auto|].
    intros q msg I Q. apply in_app_or in I. destruct I as [I | I].
    + exists r. split; [left; reflexivity | exact (X1 q msg I Q)].
    + destruct (X2 q msg I Q) as (r' & I' & F').
      exists r'. split; [right; exact I' | exact F'].
Qed.

End DomainLoop.

(** The runs of the domain-list module, by cases. *)
Lemma domain_run_cases {Remote} (h : Host Remote) (c : settings)
    (p : domain_management.params) (w : Remote) :
  let i := DomainManagement p in
  let url := domain_management.url p in
  let password := domain_management.password p in
  let domains := domain_management.domains_param p in
  (* rejected parameters, or no client library *)
  (exists text, ending h c i w = SystemExit (FailJson [("msg", VStr text)]) /\
                trace h c i w = [] /\
                (rejected i <> None \/ HAS_PIHOLE6API c = false))
  \/
  (rejected i = None /\ HAS_PIHOLE6API c = true /\
   ((* nothing to do *)
    (domains = [] /\
     ending h c i w = SystemExit (ExitJson [("changed", VBool false);
                                            ("domains", VList []);
                                            ("results", VList [])]) /\
     trace h c i w = [])
    \/
    (* the session does not open *)
    (domains <> [] /\
     exists msg w1,
       remote_call h (OpenSession url password) w = (Raises msg, w1) /\
       ending h c i w =
         SystemExit (FailJson [("msg", VStr ("Failed to manage domains: " ++ msg));
                               ("changed", VBool false);
                               ("domains", VList []);
                               ("results", VList [])]) /\
       trace h c i w = [(OpenSession url password, Raises msg)])
    \/
    (* the batch is processed *)
    (domains <> [] /\
     exists v w1 groups t closing changed records group_mapping w2 w3,
       remote_call h (OpenSession url password) w = (Returns v, w1) /\
       domain_management.get_group_name_to_id_mapping h
         {| remote := w1;
            result := [("changed", VBool false); ("domains", VList []);
                       ("results", VList [])] |}
       = (Ok group_mapping,
          {| remote := w2;
             result := [("changed", VBool false); ("domains", VList []);
                        ("results", VList [])] |},
          [(GetGroups, groups)]) /\
       domain_management.process_domains h (check_mode c) group_mapping domains
         {| remote := w2;
            result := [("changed", VBool false); ("domains", VList []);
                       ("results", VList [])] |}
       = (Ok tt,
          {| remote := w3;
             result :=
               [("changed", VBool changed);
                ("domains",
                 VList (map (fun dc => ostr (domain_management.domain dc))
                            domains));
                ("results", VList records)] |},
          t) /\
       ending h c i w =
         SystemExit (ExitJson
           [("changed", VBool changed);
            ("domains",
             VList (map (fun dc => ostr (domain_management.domain dc)) domains));
            ("results", VList records)]) /\
       trace h c i w =
         (OpenSession url password, Returns v) :: (GetGroups, groups)
           :: t ++ [(CloseSession, closing)] /\
       Forall2 entry_record domains records /\
       (check_mode c = true -> no_mutation t = true) /\
       (check_mode c = false -> changed = true -> existsb succeeded t = true) /\
       forallb (fun ev => domain_call (fst ev)) t = true /\
       (forall q msg, In (q, Raises msg) t -> mutating q = true ->
          exists r, In r records /\ failed_entry msg r)))).
Proof.
  intros i url password domains.
  destruct (rejected i) as [name|] eqn:R.
  { left. destruct (rejected_fails h c i w R) as [E T].
    eexists. repeat split; eauto. left. discriminate. }
  destruct (HAS_PIHOLE6API c) eqn:HAS.
  2: { left. exists missing_library_msg.
       unfold_run. subst i. cbn in R.
       unfold domain_management.main, domain_management.AnsibleModule.
       rewrite R, HAS. unfold_py. cbn. auto. }
  right. split; [reflexivity|]. split; [reflexivity|].
  unfold_run. subst i. cbn in R.
  unfold domain_management.main, domain_management.AnsibleModule.
  rewrite R, HAS. fold domains.
  destruct domains as [|dc rest] eqn:D.
  { left. unfold_py. cbn. auto. }
  right. fold url password.
  unfold_py. cbn.
  destruct (remote_call h (OpenSession url password) w) as [[v | msg] w1] eqn:O.
  2: { left. split; [discriminate|]. exists msg, w1. cbn. auto. }
  right. split; [discriminate|].
  destruct (get_group_name_to_id_mapping_total h
              {| remote := w1;
                 result := [("changed", VBool false); ("domains", VList []);
                            ("results", VList [])] |})
    as (gm & w2 & groups & G).
  rewrite G. cbn.
  destruct (process_domains_spec h (check_mode c) gm (dc :: rest) w2 false [] [])
    as (w3 & t & changed & records & E & F & M & S & N & _ & FE).
  rewrite E. cbn.
  destruct (remote_call h CloseSession w3) as [[v' | m'] w4]; cbn.
  all: exists v, w1, groups, t; eexists; exists changed, records, gm, w2, w3.
  all: repeat split; auto.
  all: try (rewrite app_nil_r; reflexivity).
  all: intros C1 C2; destruct (S C1 C2) as [Y | Y]; [discriminate | exact Y].
Qed.


(* ===================================================================== *)
(** ** Facts about every run *)
(* ===================================================================== *)

Lemma simple_run_facts {Remote} (h : Host Remote) (c : settings)
    (i : invocation) (w : Remote) :
  (forall p, i <> DomainManagement p) ->
  exists e s t, run h c i w = (SystemExit e, s, t) /\ run_facts c e t.
Proof.
  intros ND. destruct c as [check has]. unfold run_facts.
  destruct i; try (exfalso; eapply ND; reflexivity); clear ND.
  all: unfold_run; unfold_modules; unfold_py; cbn.
  all: destruct check, has; cbn.
  all: repeat step.
  all: do 3 eexists; split; [reflexivity|].
  all: split; [intros; try discriminate; reflexivity|].
  all: split;
    [ intros C0 C; try discriminate C0; cbn in C; try discriminate C;
      cbn; use_true; reflexivity |].
  all: split;
    [ intros r0 msg0 I F; in_trace I; try discriminate F;
      eexists; refine (conj eq_refl _);
      unfold error_recorded; cbn; eauto
    |].
  all: split;
    [ intros u0 pw0 msg0 I; in_trace I;
      do 2 eexists; refine (conj eq_refl (conj eq_refl _));
      auto 6 with mentions
    | intros msg0 I; in_trace I; eexists; split; reflexivity ].
Qed.

Lemma domain_call_not_fatal (r : request) :
  domain_call r = true -> fatal_call r = false.
Proof. destruct r; cbn; congruence. Qed.

Lemma domain_run_facts {Remote} (h : Host Remote) (c : settings)
    (p : domain_management.params) (w : Remote) :
  exists e s t,
    run h c (DomainManagement p) w = (SystemExit e, s, t) /\ run_facts c e t.
Proof.
  pose proof (domain_run_cases h c p w) as H. cbn zeta in H.
  unfold ending, trace in H.
  destruct (run h c (DomainManagement p) w) as [[o s] t]. cbn [fst snd] in H.
  unfold run_facts.
  destruct H as [(text & E & T & _) | (_ & _ & [(_ & E & T) | [(_ & H) | (_ & H)]])].
  - subst. do 3 eexists. split; [reflexivity|].
    repeat split; intros; try reflexivity; try contradiction.
    cbn in *. discriminate.
  - subst. do 3 eexists. split; [reflexivity|].
    repeat split; intros; try reflexivity; try contradiction.
    cbn in *. discriminate.
  - destruct H as (msg & w1 & O & E & T). subst.
    do 3 eexists. split; [reflexivity|].
    split; [reflexivity|]. split; [intros _ C; cbn in C; discriminate|].
    split; [|split].
    + intros r m I F. in_trace I. discriminate.
    + intros u pw m I. in_trace I.
      do 2 eexists. refine (conj eq_refl (conj eq_refl _)).
      auto with mentions.
    + intros m I. in_trace I.
  - destruct H as (v & w1 & groups & t' & closing & changed & records
                   & gm & w2 & w3 & O & _ & _ & E & T & R & M & S & D & _).
    subst. do 3 eexists. split; [reflexivity|].
    assert (inner : forall r resp, In (r, resp) t' -> domain_call r = true).
    { intros r resp I.
      rewrite forallb_forall in D. exact (D _ I). }
    split.
    { intros C. specialize (M C). unfold no_mutation in *.
      rewrite forallb_forall in M. apply forallb_forall. intros x I.
      destruct I as [<- | [<- | I]]; [reflexivity | reflexivity |].
      apply in_app_or in I. destruct I as [I | I]; [exact (M x I)|].
      destruct I as [<- | []]. reflexivity. }
    split.
    { intros C F. cbn in F. destruct changed; [|discriminate].
      destruct (proj1 (existsb_exists _ _) (S C eq_refl)) as (x & I & X).
      apply existsb_exists. exists x. split; [|exact X].
      right. right. apply in_or_app. left. exact I. }
    split; [|split].
    + intros r m I F. exfalso.
      destruct I as [I | [I | I]];
        [inversion I | inversion I; subst; discriminate |].
      apply in_app_or in I. destruct I as [I | I].
      * apply inner in I. apply domain_call_not_fatal in I. congruence.
      * in_trace I. discriminate.
    + intros u pw m I. exfalso.
      destruct I as [I | [I | I]]; [inversion I | inversion I |].
      apply in_app_or in I. destruct I as [I | I].
      * apply inner in I. discriminate.
      * in_trace I.
    + intros m I. exfalso.
      destruct I as [I | [I | I]]; [inversion I | inversion I |].
      apply in_app_or in I. destruct I as [I | I].
      * apply inner in I. discriminate.
      * in_trace I.
Qed.

(** Every module ends in [exit_json] or [fail_json], and the run has the
    facts above. *)
Lemma all_run_facts {Remote} (h : Host Remote) (c : settings)
    (i : invocation) (w : Remote) :
  exists e s t, run h c i w = (SystemExit e, s, t) /\ run_facts c e t.
Proof.
  destruct i;
    try (apply simple_run_facts; intros q; discriminate).
  apply domain_run_facts.
Qed.

(* ===================================================================== *)
(** ** Closing the session *)
(* ===================================================================== *)

(** The ending of a run is settled before [close_session] answers. *)
Lemma simple_ending_before_close {Remote} (h : Host Remote) (c : settings)
    (i : invocation) (w : Remote) :
  (forall p, i <> DomainManagement p) ->
  exists o, forall f, ending (with_close h f) c i w = o.
Proof.
  intros ND. destruct c as [check has].
  destruct i; try (exfalso; eapply ND; reflexivity); clear ND.
  all: unfold_run; unfold_modules; unfold_py; unfold with_close; cbn.
  all: destruct check, has; cbn.
  all: repeat step.
  all: eexists; intros f; try reflexivity.
  all: destruct (f _) as [[? | ?] ?]; cbn; reflexivity.
Qed.

Lemma domain_close_irrelevant {Remote} (h : Host Remote) (c : settings)
    (p : domain_management.params) (w : Remote) f g :
  ending (with_close h f) c (DomainManagement p) w =
  ending (with_close h g) c (DomainManagement p) w.
Proof.
  unfold_run. unfold domain_management.main, domain_management.AnsibleModule.
  change (domain_management.get_group_name_to_id_mapping (with_close h f))
    with (domain_management.get_group_name_to_id_mapping h).
  change (domain_management.get_group_name_to_id_mapping (with_close h g))
    with (domain_management.get_group_name_to_id_mapping h).
  change (domain_management.process_domains (with_close h f))
    with (domain_management.process_domains h).
  change (domain_management.process_domains (with_close h g))
    with (domain_management.process_domains h).
  unfold_py. unfold with_close. cbn.
  repeat step; reflexivity.
Qed.

Lemma close_irrelevant {Remote} (h : Host Remote) (c : settings)
    (i : invocation) (w : Remote) f g :
  ending (with_close h f) c i w = ending (with_close h g) c i w.
Proof.
  assert (S : (forall q, i <> DomainManagement q) ->
              ending (with_close h f) c i w = ending (with_close h g) c i w).
  { intros ND. destruct (simple_ending_before_close h c w ND) as [o E].
    rewrite (E f), (E g). reflexivity. }
  destruct i; try (apply S; intros q; discriminate).
  apply domain_close_irrelevant.
Qed.

(* ===================================================================== *)
(** ** The password *)
(* ===================================================================== *)

Lemma required_str_some (s : string) : required_str None (Some s) = true.
Proof. reflexivity. Qed.

Ltac unfold_rejected :=
  unfold actions.rejected_parameter, dns_control.rejected_parameter,
    config_management.rejected_parameter, domain_management.rejected_parameter,
    metrics.rejected_parameter, ftl_info.rejected_parameter,
    network_info.rejected_parameter in *.


(* ===================================================================== *)
(** ** Dry runs *)
(* ===================================================================== *)

(** Outside the domain list: when the real run attempts a mutating call,
    the dry run exits with [changed=True]. *)
Lemma would_mutate_is_reported {Remote} (h : Host Remote) (has : bool)
    (i : invocation) (w : Remote) :
  outside_domain_list i = true ->
  existsb (fun ev => mutating (fst ev)) (trace h (real has) i w) = true ->
  exists kw,
    ending h (dry has) i w = SystemExit (ExitJson kw) /\
    dict_get kw "changed" = Some (VBool true).
Proof.
  intros S. unfold dry, real.
  destruct i; try discriminate S; clear S.
  all: unfold_run; unfold_modules; unfold_py; cbn.
  all: destruct has; cbn.
  all: repeat step.
  all: intros X; try discriminate X.
  all: eexists; split; reflexivity.
Qed.

Ltac eqs_clash :=
  repeat match goal with
         | H : _ || _ = true |- _ => apply orb_prop in H; destruct H as [H | H]
         | H : eqs _ _ = true |- _ => apply eqs_true in H
         end;
  congruence.

(** The message of a dry run that exits: [actions] and the mutating
    actions of [config_management] name what they would do;
    [dns_control] has no message. *)
Lemma simple_dry_run_message {Remote} (h : Host Remote) (has : bool)
    (i : invocation) (w : Remote) (kw : dict) :
  (forall p, i <> DomainManagement p) ->
  ending h (dry has) i w = SystemExit (ExitJson kw) ->
  match i with
  | DnsControl _ => dry_run_message kw = None
  | _ =>
      match named_in_message h i with
      | Some parts =>
          exists text, dry_run_message kw = Some text /\
                       Forall (mentions text) parts
      | None => True
      end
  end.
Proof.
  intros ND. unfold dry.
  destruct i; try (exfalso; eapply ND; reflexivity); clear ND.
  4, 5, 6: intros _; exact I.
  all: unfold_run; unfold_modules; unfold_py; cbn.
  all: destruct has; cbn.
  all: repeat step.
  all: intros X; try discriminate X.
  all: try eqs_clash.
  all: injection X as <-; try reflexivity.
  all: try exact I.
  all: eexists; split; [reflexivity|].
  all: repeat constructor; auto 6 with mentions.
Qed.

(* ===================================================================== *)
(** ** The configuration module *)
(* ===================================================================== *)

(** The runs of [config_management]:
    - a retrieval that raised leaves a normal exit with [success=False],
      [changed=False] and the text under [response.error];
    - [get], once the session is open, always exits normally, unchanged;
    - any other action that ends without success ends in [fail_json]. *)
Lemma config_run_facts {Remote} (h : Host Remote) (c : settings)
    (p : config_management.params) (w : Remote) :
  exists e s t,
    run h c (ConfigManagement p) w = (SystemExit e, s, t) /\
    (forall r msg, In (r, Raises msg) t -> retrieval r = true ->
       exists kw, e = ExitJson kw /\
                  dict_get kw "success" = Some (VBool false) /\
                  dict_get kw "changed" = Some (VBool false) /\
                  error_recorded kw msg) /\
    (eqs (config_management.action p) "get" = true ->
     forall u pw v, In (OpenSession u pw, Returns v) t ->
       exists kw, e = ExitJson kw /\
                  dict_get kw "changed" = Some (VBool false)) /\
    (eqs (config_management.action p) "get" = false ->
     truthy (dict_get_default (kwargs_of e) "success" (VBool false)) = false ->
     failed e = true).
Proof.
  destruct c as [check has].
  unfold_run; unfold_modules; unfold_py; cbn.
  destruct check, has; cbn.
  all: repeat step.
  all: do 3 eexists; split; [reflexivity|].
  all: split;
    [ intros r0 msg0 I F; in_trace I; try discriminate F;
      eexists; refine (conj eq_refl (conj eq_refl (conj eq_refl _)));
      unfold error_recorded; cbn; eauto |].
  all: split;
    [ intros G u0 pw0 v0' I; try discriminate G; try eqs_clash;
      in_trace I; eexists; split; reflexivity
    | intros G S; try discriminate G; try reflexivity;
      cbn in S; try discriminate S; try congruence; try clash ].
Qed.

(** A dry run of [actions] that exits reports a change. *)
Lemma actions_dry_run_changed {Remote} (h : Host Remote) (has : bool)
    (p : actions.params) (w : Remote) (kw : dict) :
  ending h (dry has) (Actions p) w = SystemExit (ExitJson kw) ->
  dict_get kw "changed" = Some (VBool true).
Proof.
  unfold dry. unfold_run; unfold_modules; unfold_py; cbn.
  destruct has; cbn.
  all: repeat step.
  all: intros X; try discriminate X.
  all: injection X as <-; reflexivity.
Qed.

Lemma with_close_self {Remote} (h : Host Remote) (c : settings)
    (i : invocation) :
  main_of (with_close h (remote_call h CloseSession)) c i = main_of h c i.
Proof. destruct i; reflexivity. Qed.

(* ===================================================================== *)
(** ** The dry run of a batch, next to its real run *)
(* ===================================================================== *)

Lemma first_mutation_app (t1 t2 : list event) :
  first_mutation (t1 ++ t2) =
  match first_mutation t1 with
  | Some ev => Some ev
  | None => first_mutation t2
  end.
Proof.
  unfold first_mutation. induction t1 as [|ev t1 IH]; [reflexivity|].
  cbn. destruct (mutating (fst ev)); [reflexivity | exact IH].
Qed.

Lemma first_mutation_exists (t : list event) (ev : event) :
  first_mutation t = Some ev ->
  existsb (fun ev => mutating (fst ev)) t = true.
Proof.
  intros H. apply find_some in H. apply existsb_exists. exists ev. exact H.
Qed.

Section DomainPair.
Context {Remote : Type} (h : Host Remote).

Import domain_management.

(** One entry, processed for real and as a dry run from the same state of
    the appliance: until the real run mutates, the two stay together; and
    when the real run adds or deletes, the dry run reports a change. *)
Lemma process_domain_pair (gm : dict) (dc : domain_config) (w : Remote)
    (cr cd : bool) (dsr rsr dsd rsd : list value) :
  exists wr tr sr wd td sd cd',
    process_domain h false gm dc
      {| remote := w;
         result := [("changed", VBool cr); ("domains", VList dsr);
                    ("results", VList rsr)] |}
    = (Ok tt, {| remote := wr; result := sr |}, tr) /\
    process_domain h true gm dc
      {| remote := w;
         result := [("changed", VBool cd); ("domains", VList dsd);
                    ("results", VList rsd)] |}
    = (Ok tt, {| remote := wd; result := sd |}, td) /\
    dict_get sd "changed" = Some (VBool cd') /\
    match first_mutation tr with
    | None => wr = wd /\ cd' = cd
    | Some ev => updates_entry (fst ev) = false -> cd' = true
    end.
Proof.
  unfold process_domain, domain_exists, update_domain, add_domain,
    delete_domain, append_result.
  unfold_py. cbn.
  repeat step.
  all: do 7 eexists; split; [reflexivity|]; split; [reflexivity|].
  all: split; [reflexivity|]; cbn.
  all: first [ split; reflexivity
             | intros X; first [discriminate X | reflexivity]
             | clash ].
Qed.

Lemma process_domains_pair (gm : dict) (l : list domain_config) :
  forall (w : Remote) (cr cd : bool) (dsr rsr dsd rsd : list value),
  exists wr tr sr wd td sd cd',
    process_domains h false gm l
      {| remote := w;
         result := [("changed", VBool cr); ("domains", VList dsr);
                    ("results", VList rsr)] |}
    = (Ok tt, {| remote := wr; result := sr |}, tr) /\
    process_domains h true gm l
      {| remote := w;
         result := [("changed", VBool cd); ("domains", VList dsd);
                    ("results", VList rsd)] |}
    = (Ok tt, {| remote := wd; result := sd |}, td) /\
    dict_get sd "changed" = Some (VBool cd') /\
    match first_mutation tr with
    | None => wr = wd /\ cd' = cd
    | Some ev => updates_entry (fst ev) = false -> cd' = true
    end.
Proof.
  induction l as [|dc rest IH]; intros w cr cd dsr rsr dsd rsd.
  { do 7 eexists. split; [reflexivity|]. split; [reflexivity|].
    split; [reflexivity|]. cbn. auto. }
  change (process_domains h false gm (dc :: rest))
    with (bind (process_domain h false gm dc)
               (fun _ => process_domains h false gm rest)).
  change (process_domains h true gm (dc :: rest))
    with (bind (process_domain h true gm dc)
               (fun _ => process_domains h true gm rest)).
  unfold bind.
  destruct (process_domain_spec h false gm dc w cr dsr rsr)
    as (w1r & t1r & c1r & rr & E1r & _).
  destruct (process_domain_spec h true gm dc w cd dsd rsd)
    as (w1d & t1d & c1d & rd & E1d & _).
  destruct (process_domain_pair gm dc w cr cd dsr rsr dsd rsd)
    as (wr & tr & sr & wd & td & sd & cd1 & P1 & P2 & P3 & P4).
  rewrite E1r in P1. rewrite E1d in P2.
  injection P1 as <- <- <-. injection P2 as <- <- <-.
  cbn in P3. injection P3 as <-.
  rewrite E1r, E1d.
  destruct (first_mutation t1r) as [ev|] eqn:F1.
  - destruct (process_domains_spec h false gm rest w1r c1r
                (dsr ++ [ostr (domain dc)]) (rsr ++ [rr]))
      as (w2r & t2r & c2r & rs2r & E2r & _).
    destruct (process_domains_spec h true gm rest w1d c1d
                (dsd ++ [ostr (domain dc)]) (rsd ++ [rd]))
      as (w2d & t2d & c2d & rs2d & E2d & _ & _ & _ & _ & K & _).
    rewrite E2r, E2d.
    do 6 eexists. exists c2d. split; [reflexivity|]. split; [reflexivity|].
    split; [reflexivity|].
    rewrite first_mutation_app, F1. auto.
  - destruct P4 as [<- ->].
    destruct (IH w1r c1r cd (dsr ++ [ostr (domain dc)]) (rsr ++ [rr])
                (dsd ++ [ostr (domain dc)]) (rsd ++ [rd]))
      as (w2r & t2r & s2r & w2d & t2d & s2d & cd2 & Q1 & Q2 & Q3 & Q4).
    rewrite Q1, Q2.
    do 6 eexists. exists cd2. split; [reflexivity|]. split; [reflexivity|].
    split; [exact Q3|].
    rewrite first_mutation_app, F1. exact Q4.
Qed.

End DomainPair.

(** The domain list: when the first mutating call of the real run adds
    or deletes an entry, the dry run exits with [changed=True]. *)
Lemma domain_would_mutate_is_reported {Remote} (h : Host Remote) (has : bool)
    (p : domain_management.params) (w : Remote) (ev : event) :
  first_mutation (trace h (real has) (DomainManagement p) w) = Some ev ->
  updates_entry (fst ev) = false ->
  exists kw,
    ending h (dry has) (DomainManagement p) w = SystemExit (ExitJson kw) /\
    dict_get kw "changed" = Some (VBool true).
Proof.
  intros F U.
  pose proof (domain_run_cases h (real has) p w) as Hr. cbn zeta in Hr.
  destruct Hr as [(text & _ & T & _) |
                  (R & HAS & [(_ & _ & T) | [(_ & Hr) | (N & Hr)]])].
  - rewrite T in F. discriminate F.
  - rewrite T in F. discriminate F.
  - destruct Hr as (msg & w1 & _ & _ & T). rewrite T in F. discriminate F.
  - destruct Hr as (v & w1 & groups & t & closing & changed & records
                    & gm & w2 & w3 & Or & Gr & Lr & _ & Tr & _).
    rewrite Tr in F. cbn in F.
    change (find (fun ev => mutating (fst ev)) (t ++ [(CloseSession, closing)]))
      with (first_mutation (t ++ [(CloseSession, closing)])) in F.
    rewrite first_mutation_app in F.
    pose proof (domain_run_cases h (dry has) p w) as Hd. cbn zeta in Hd.
    destruct Hd as [(text & _ & _ & [X | X]) |
                    (_ & _ & [(B & _) | [(_ & Hd) | (_ & Hd)]])];
      try contradiction; try (cbn in *; congruence).
    + destruct Hd as (msg & w1' & Od & _). congruence.
    + destruct Hd as (v' & w1' & groups' & t' & closing' & changed' & records'
                      & gm' & w2' & w3' & Od & Gd & Ld & Ed & _).
      rewrite Or in Od. injection Od as <- <-.
      rewrite Gr in Gd. injection Gd as <- <- <-.
      cbn [check_mode real dry] in Lr, Ld.
      destruct (process_domains_pair h gm (domain_management.domains_param p)
                  w2 false false [] [] [] [])
        as (wr & tr & sr & wd & td & sd & cd' & P1 & P2 & P3 & P4).
      rewrite Lr in P1. injection P1 as <- <- <-.
      rewrite Ld in P2. injection P2 as <- <- <-.
      cbn in P3. injection P3 as <-.
      destruct (first_mutation t) as [ev'|]; [|discriminate F].
      injection F as ->.
      rewrite (P4 U) in Ed.
      eexists. split; [exact Ed | reflexivity].
Qed.

(* ===================================================================== *)
(** ** The entries of a batch, their calls and their records *)
(* ===================================================================== *)

Lemma py_get_cases_text {Remote} (v : value) k default :
  (exists d, v = VDict d) \/
  (is_dict v = false /\
   forall s : st Remote, py_get v k default s = (Raise (attribute_error v), s, [])).
Proof. destruct v; unfold py_get, raise, attribute_error; cbn; eauto. Qed.

Arguments attribute_error : simpl never.

(** [step], keeping the text of the [AttributeError]. *)
Ltac step_text :=
  match goal with
  | |- context [remote_call ?h ?r ?s] =>
      let v := fresh "v" in let m := fresh "m" in let w := fresh "w" in
      destruct (remote_call h r s) as [[v | m] w] eqn:?
  | |- context [@py_get ?R (VDict ?d) ?k ?def ?s] =>
      rewrite !(@py_get_dict R d k def)
  | |- context [@py_get ?R ?v ?k ?def ?s] =>
      let d := fresh "d" in let N := fresh "N" in let E := fresh "E" in
      destruct (@py_get_cases_text R v k def) as [[d ->] | [N E]];
      [ rewrite !(@py_get_dict R d k def) | rewrite !E; clear E ]
  | |- context [@py_gt0 ?R ?v ?s] =>
      let b := fresh "b" in let m := fresh "m" in let E := fresh "E" in
      destruct (@py_gt0_cases R v) as [[b E] | [m E]]; rewrite !E; clear E
  | |- context [match ?x with _ => _ end] =>
      lazymatch x with
      | context [match _ with _ => _ end] => fail
      | _ => destruct x eqn:?
      end
  end; cbn.

Ltac not_a_dict :=
  match goal with
  | N : is_dict (VDict _) = false |- _ => discriminate N
  end.

Ltac no_dict :=
  repeat match goal with
         | N : is_dict ?v = false |- _ =>
             destruct v; try discriminate N; clear N
         end.

Ltac known :=
  repeat match goal with
         | H : eqs _ _ = _ |- _ => rewrite H; clear H
         | H : truthy _ = _ |- _ => rewrite H; clear H
         end.

Lemma filter_all {A} (f : A -> bool) (l : list A) :
  forallb f l = true -> filter f l = l.
Proof.
  induction l as [|a l IH]; [reflexivity|].
  cbn. intros H. apply andb_prop in H as [Ha Hl].
  rewrite Ha, (IH Hl). reflexivity.
Qed.

Lemma entry_calls_of_a_batch (o g k : event) (t : list event) :
  domain_call (fst o) = false -> domain_call (fst g) = false ->
  domain_call (fst k) = false ->
  forallb (fun ev => domain_call (fst ev)) t = true ->
  entry_calls (o :: g :: t ++ [k]) = t.
Proof.
  intros O G K T. unfold entry_calls. cbn [filter].
  rewrite O, G, filter_app. cbn [filter]. rewrite K, app_nil_r.
  apply filter_all. exact T.
Qed.

Section EntryOutcome.
Context {Remote : Type} (h : Host Remote).
Import domain_management.

Lemma process_domain_outcome (check : bool) (gm : dict) (dc : domain_config)
    (w : Remote) (c : bool) (ds rs : list value) :
  exists w' t c' r,
    process_domain h check gm dc
      {| remote := w;
         result := [("changed", VBool c); ("domains", VList ds);
                    ("results", VList rs)] |}
    = (Ok tt,
       {| remote := w';
          result := [("changed", VBool c');
                     ("domains", VList (ds ++ [ostr (domain dc)]));
                     ("results", VList (rs ++ [r]))] |},
       t)
    /\ entry_handled check gm dc (t, r).
Proof.
  unfold process_domain, domain_exists, update_domain, add_domain,
    delete_domain, append_result, entry_handled, entry_block, entry_record,
    entry_outcome.
  unfold_py. destruct check; cbn.
  all: repeat step_text.
  all: do 4 eexists; split; [reflexivity|].
  all: cbn [fst snd].
  all: split; [do 2 eexists; split; [reflexivity|];
               unfold entry_request, lookup_found; no_dict; cbn; known; cbn;
               reflexivity|].
  all: split; [eexists; repeat split; cbn; eauto|].
  all: unfold answer_recorded, record_field, would_change, entry_request,
         lookup_found; no_dict; cbn; known; cbn; repeat split; reflexivity.
Qed.

Lemma process_domains_outcome (check : bool) (gm : dict)
    (l : list domain_config) :
  forall (w : Remote) (c : bool) (ds rs : list value),
  exists w' t c' rs' blocks,
    process_domains h check gm l
      {| remote := w;
         result := [("changed", VBool c); ("domains", VList ds);
                    ("results", VList rs)] |}
    = (Ok tt,
       {| remote := w';
          result := [("changed", VBool c');
                     ("domains", VList (ds ++ map (fun dc => ostr (domain dc)) l));
                     ("results", VList (rs ++ rs'))] |},
       t)
    /\ t = concat blocks
    /\ length blocks = length l
    /\ length rs' = length l
    /\ Forall2 (entry_handled check gm) l (combine blocks rs').
Proof.
  induction l as [|dc rest IH]; intros w c ds rs.
  - exists w, [], c, [], []. cbn. rewrite !app_nil_r.
    repeat split; auto.
  - destruct (process_domain_outcome check gm dc w c ds rs)
      as (w1 & t1 & c1 & r & E1 & H1).
    destruct (IH w1 c1 (ds ++ [ostr (domain dc)]) (rs ++ [r]))
      as (w2 & t2 & c2 & rs2 & blocks & E2 & T2 & B2 & R2 & H2).
    exists w2, (t1 ++ t2), c2, (r :: rs2), (t1 :: blocks).
    split.
    { change (process_domains h check gm (dc :: rest))
        with (bind (process_domain h check gm dc)
                   (fun _ => process_domains h check gm rest)).
      unfold bind at 1. rewrite E1, E2.
      cbn [map]. rewrite <- !app_assoc. reflexivity. }
    split; [subst t2; reflexivity|].
    split; [cbn; rewrite B2; reflexivity|].
    split; [cbn; rewrite R2; reflexivity|].
    cbn [combine]. constructor; assumption.
Qed.

End EntryOutcome.

(* ===================================================================== *)
(** ** The claims *)
(* ===================================================================== *)

(** *** C1 *)

(** C1, as stated, fails.  A dry run of [dns_control] that would enable
    blocking exits with [changed=True], but its result has no message at
    all: it only carries [action_performed] and [blocking]. *)
Lemma dry_run_enable_has_no_message :
  let out := [("changed", VBool true); ("action_performed", VStr "enable");
              ("blocking", VBool true)] in
  ending obliging (dry true) enable_blocking tt = SystemExit (ExitJson out) /\
  dry_run_message out = None /\
  dict_get out "msg" = None.
Proof. repeat split. Qed.

(** C1, amended.  In check mode no module attempts a mutating call.
    Whenever the real run against the same appliance attempts a mutating
    call, and the first such call is not the update of an existing domain
    entry, the dry run exits normally with [changed=True].  A dry run of
    [actions], or of a [config_management] action other than [get], that
    exits normally carries a message naming the action ([actions]) or the
    operands of the action ([config_management]); [dns_control] and
    [domain_management] carry no message. *)
Theorem dry_run_contract :
  forall {Remote} (h : Host Remote) (has : bool) (i : invocation) (w : Remote),
    no_mutation (trace h (dry has) i w) = true /\
    (forall ev,
       first_mutation (trace h (real has) i w) = Some ev ->
       updates_entry (fst ev) = false ->
       exists kw,
         ending h (dry has) i w = SystemExit (ExitJson kw) /\
         dict_get kw "changed" = Some (VBool true)) /\
    (forall kw,
       ending h (dry has) i w = SystemExit (ExitJson kw) ->
       match i with
       | DnsControl _ | DomainManagement _ => dry_run_message kw = None
       | _ =>
           match named_in_message h i with
           | Some parts =>
               exists text, dry_run_message kw = Some text /\
                            Forall (mentions text) parts
           | None => True
           end
       end).
Proof.
  intros Remote h has i w. split; [|split].
  - destruct (all_run_facts h (dry has) i w) as (e & s & t & E & F & _).
    unfold trace. rewrite E. apply F. reflexivity.
  - intros ev F U.
    destruct (outside_domain_list i) eqn:O.
    + apply would_mutate_is_reported; [exact O|].
      exact (first_mutation_exists _ F).
    + destruct i; try discriminate O.
      exact (domain_would_mutate_is_reported h has p w F U).
  - intros kw E.
    pose proof (fun ND => @simple_dry_run_message Remote h has i w kw ND E)
      as S.
    destruct i; try (apply S; intros q; discriminate). clear S.
    pose proof (domain_run_cases h (dry has) p w) as H. cbn zeta in H.
    rewrite E in H.
    destruct H as [(text & X & _) | (_ & _ & [(_ & X & _) | [(_ & H) | (_ & H)]])].
    + discriminate X.
    + injection X as ->. reflexivity.
    + destruct H as (msg & w1 & _ & X & _). discriminate X.
    + destruct H as (v & w1 & groups & t' & closing & changed & records
                     & gm & w2 & w3 & _ & _ & _ & X & _).
      injection X as ->. reflexivity.
Qed.

Lemma dry_run_contract_witness :
  first_mutation (trace obliging (real true) flush_arp tt)
    = Some (FlushArp, Returns (VDict [("success", VBool true)])) /\
  exists kw,
    ending obliging (dry true) flush_arp tt = SystemExit (ExitJson kw) /\
    dict_get kw "changed" = Some (VBool true).
Proof.
  split; [reflexivity|].
  apply (proj1 (proj2 (dry_run_contract obliging true flush_arp tt))
               (FlushArp, Returns (VDict [("success", VBool true)])));
    reflexivity.
Defined.

(** The case the statement leaves aside: an entry that exists already.
    The real run updates it, the dry run reports nothing to change. *)
Example dry_run_of_an_existing_entry :
  let i := DomainManagement (domain_batch (Some [deny_exact "ads.example"])) in
  first_mutation (trace obliging (real true) i tt)
    = Some (UpdateDomain (Some "ads.example") (Some "deny") (Some "exact")
                         None None true,
            Returns (VDict [("success", VBool true)])) /\
  ending obliging (dry true) i tt =
    SystemExit (ExitJson
      [("changed", VBool false);
       ("domains", VList [VStr "ads.example"]);
       ("results",
        VList [VDict [("domain", VStr "ads.example");
                      ("domain_type", VStr "deny"); ("kind", VStr "exact");
                      ("state", VStr "present"); ("changed", VBool false);
                      ("success", VBool false)]])]).
Proof. split; reflexivity. Qed.

(** A dry run of [config_management]: nothing but the session is touched,
    and the message names the value and the element. *)
Example dry_run_of_add_item :
  let p :=
    {| config_management.action := Some "add_item";
       config_management.config_section := None;
       config_management.config_changes := None;
       config_management.element := Some "dns_servers";
       config_management.value := Some "8.8.8.8";
       config_management.export_path := None;
       config_management.import_path := None;
       config_management.import_options := None;
       config_management.detailed := false;
       config_management.password := Some "secret";
       config_management.url := Some "http://pi.hole" |} in
  run obliging (dry true) (ConfigManagement p) tt =
    (SystemExit (ExitJson
       [("changed", VBool true); ("action_performed", VStr "add_item");
        ("success", VBool true);
        ("response",
         VDict [("message", VStr "Would add 8.8.8.8 to dns_servers")])]),
     {| remote := tt;
        result :=
          [("changed", VBool true); ("action_performed", VStr "add_item");
           ("success", VBool true);
           ("response",
            VDict [("message", VStr "Would add 8.8.8.8 to dns_servers")])] |},
     [(OpenSession (Some "http://pi.hole") (Some "secret"),
       Returns (VDict [("success", VBool true)]));
      (CloseSession, Returns (VDict [("success", VBool true)]))]).
Proof. reflexivity. Qed.

(** *** C2 *)

(** C2.  Every module whose operation selector is missing or outside its
    enumerated set (for the domain list: a selector of one of the
    entries), and [config_management] when the parameter its
    action needs is missing ([element] or [value] for [add_item] and
    [delete_item], [config_changes] for [update], [export_path] for
    [export], [import_path] for [import]), ends in [fail_json] without
    having built the client or made any call. *)
Theorem invalid_input_fails_before_any_call :
  forall {Remote} (h : Host Remote) (c : settings) (i : invocation) (w : Remote),
    selector_invalid i \/ required_parameter_missing i ->
    exists kwargs,
      ending h c i w = SystemExit (FailJson kwargs) /\ trace h c i w = [].
Proof.
  intros Remote h c i w [H | H].
  - destruct (selector_invalid_rejected H) as [name R].
    eexists. eapply rejected_fails. exact R.
  - destruct i; try contradiction. apply config_missing_fails. exact H.
Qed.

Lemma invalid_input_witness :
  exists kwargs,
    ending obliging (settings_of false)
           (Actions {| actions.action := Some "reboot";
                       actions.password := Some "secret";
                       actions.url := Some "http://pi.hole" |}) tt
      = SystemExit (FailJson kwargs) /\
    trace obliging (settings_of false)
          (Actions {| actions.action := Some "reboot";
                      actions.password := Some "secret";
                      actions.url := Some "http://pi.hole" |}) tt = [].
Proof.
  apply invalid_input_fails_before_any_call.
  left. left. eexists _, _. split; [reflexivity|].
  intros s E. injection E as <-. cbn. intuition discriminate.
Defined.

(** *** C3 *)

(** C3.  A valid batch of [N] domain entries, once the session is open,
    makes the module exit normally with exactly [N] result records, one
    per entry and in the order of the batch.  Every entry is handled,
    whatever the client answered or raised for the entries before it:
    the calls made for the entries are [N] blocks in the order of the
    batch, the block of an entry being its own lookup, followed in a real
    run by the one mutation the entry calls for.  The record of an entry
    names the entry and carries the outcome of the entry's own block and
    of nothing else: [success] and [response] as the client answered the
    mutation, or [success=False] and the text of the exception under
    [response.error] when the mutation raised, [changed=True] exactly
    when [success] is truthy; after a lookup alone, [success=False], no
    [response], and [changed] only in check mode for an entry that would
    be added or deleted. *)
Theorem batch_yields_one_record_per_entry :
  forall {Remote} (h : Host Remote) (c : settings)
         (p : domain_management.params) (w : Remote),
    rejected (DomainManagement p) = None ->
    HAS_PIHOLE6API c = true ->
    session_opens h (DomainManagement p) w ->
    let batch := domain_management.domains_param p in
    exists kwargs records blocks group_mapping,
      ending h c (DomainManagement p) w = SystemExit (ExitJson kwargs) /\
      dict_get kwargs "results" = Some (VList records) /\
      dict_get kwargs "domains" =
        Some (VList (map (fun dc => ostr (domain_management.domain dc)) batch)) /\
      length records = length batch /\
      Forall2 entry_record batch records /\
      entry_calls (trace h c (DomainManagement p) w) = concat blocks /\
      length blocks = length batch /\
      Forall2 (entry_handled (check_mode c) group_mapping) batch
              (combine blocks records).
Proof.
  intros Remote h c p w R HAS (v & w1 & O) batch.
  pose proof (domain_run_cases h c p w) as H. cbn zeta in H. cbn in O.
  fold batch in H.
  destruct H as [(text & _ & _ & [X | X]) |
                 (_ & _ & [(B & E & T) | [(_ & H) | (_ & H)]])].
  - contradiction.
  - congruence.
  - rewrite B. eexists _, [], [], []. split; [exact E|]. rewrite T.
    repeat split; constructor.
  - destruct H as (msg & w2 & X & _). congruence.
  - destruct H as (v' & w2 & groups & t' & closing & changed & records
                   & gm & w3 & w4 & _ & _ & P & E & T & F & _ & _ & D & _).
    destruct (process_domains_outcome h (check_mode c) gm batch w3 false [] [])
      as (w4' & t & c' & rs' & blocks & P' & T' & LB & LR & H').
    rewrite P' in P. cbn in P. inversion P; subst.
    exists [("changed", VBool changed);
            ("domains",
             VList (map (fun dc => ostr (domain_management.domain dc)) batch));
            ("results", VList records)], records, blocks, gm.
    split; [exact E|]. split; [reflexivity|]. split; [reflexivity|].
    split; [exact LR|]. split; [exact F|].
    split; [rewrite T; apply entry_calls_of_a_batch; try reflexivity; exact D|].
    split; [exact LB | exact H'].
Qed.

Lemma batch_witness :
  exists kwargs records blocks group_mapping,
    ending picky (settings_of false)
      (DomainManagement
         (domain_batch (Some [deny_exact "bad.example";
                              deny_exact "ads.example"]))) tt
      = SystemExit (ExitJson kwargs) /\
    dict_get kwargs "results" = Some (VList records) /\
    dict_get kwargs "domains" =
      Some (VList [VStr "bad.example"; VStr "ads.example"]) /\
    length records = 2 /\
    Forall2 entry_record [deny_exact "bad.example"; deny_exact "ads.example"]
            records /\
    entry_calls
      (trace picky (settings_of false)
         (DomainManagement
            (domain_batch (Some [deny_exact "bad.example";
                                 deny_exact "ads.example"]))) tt)
      = concat blocks /\
    length blocks = 2 /\
    Forall2 (entry_handled false group_mapping)
            [deny_exact "bad.example"; deny_exact "ads.example"]
            (combine blocks records).
Proof.
  apply (@batch_yields_one_record_per_entry unit picky (settings_of false)
           (domain_batch (Some [deny_exact "bad.example";
                                deny_exact "ads.example"])) tt).
  - reflexivity.
  - reflexivity.
  - exists (VDict [("success", VBool true)]), tt. reflexivity.
Defined.

(** The run of the witness: the first entry fails, the second one is
    still processed. *)
Example batch_with_a_failing_entry :
  ending picky (settings_of false)
    (DomainManagement
       (domain_batch (Some [deny_exact "bad.example";
                            deny_exact "ads.example"]))) tt
  = SystemExit (ExitJson
      [("changed", VBool true);
       ("domains", VList [VStr "bad.example"; VStr "ads.example"]);
       ("results",
        VList [VDict [("domain", VStr "bad.example");
                      ("domain_type", VStr "deny"); ("kind", VStr "exact");
                      ("state", VStr "present"); ("changed", VBool false);
                      ("success", VBool false);
                      ("response", VDict [("error", VStr "rejected")])];
               VDict [("domain", VStr "ads.example");
                      ("domain_type", VStr "deny"); ("kind", VStr "exact");
                      ("state", VStr "present"); ("changed", VBool true);
                      ("success", VBool true);
                      ("response", VDict [("success", VBool true)])]])]).
Proof. reflexivity. Qed.

(** *** C4 *)

(** C4.  [dns_control] with [action=enable], against an appliance whose
    status query reports blocking on and no timer running: the run makes
    no mutating call and exits normally with [changed=False]. *)
Theorem enable_when_enabled_changes_nothing :
  forall {Remote} (h : Host Remote) (c : settings) (p : dns_control.params)
         (w w1 w2 : Remote) (v blocking : value) (status : dict),
    rejected (DnsControl p) = None ->
    HAS_PIHOLE6API c = true ->
    dns_control.action p = Some "enable" ->
    remote_call h (OpenSession (dns_control.url p) (dns_control.password p)) w
      = (Returns v, w1) ->
    remote_call h GetBlockingStatus w1 = (Returns (VDict status), w2) ->
    dict_get status "blocking" = Some blocking ->
    truthy blocking = true ->
    dict_get_default status "timer" (VInt 0) = VInt 0 ->
    no_mutation (trace h c (DnsControl p) w) = true /\
    exists kwargs,
      ending h c (DnsControl p) w = SystemExit (ExitJson kwargs) /\
      dict_get kwargs "changed" = Some (VBool false).
Proof.
  intros Remote h c p w w1 w2 v blocking status R HAS A O G B T Z.
  destruct c as [check has]. cbn in R, HAS. subst has.
  assert (N : is_None blocking = false) by (destruct blocking; auto; discriminate).
  unfold_run. unfold_modules. rewrite R, A. unfold_py. cbn.
  rewrite O. cbn. rewrite G. cbn.
  assert (B' : dict_get_default status "blocking" (VBool false) = blocking)
    by (unfold dict_get_default; rewrite B; reflexivity).
  rewrite !py_get_dict. cbn. rewrite B', Z, N. cbn.
  unfold py_gt0, ret. cbn. rewrite T. cbn.
  destruct (remote_call h CloseSession w2) as [[v' | m'] w3]; cbn.
  all: split; [reflexivity|]; eexists; split; reflexivity.
Qed.

Lemma enable_when_enabled_witness :
  no_mutation (trace blocking_on (settings_of false) enable_blocking tt) = true /\
  exists kwargs,
    ending blocking_on (settings_of false) enable_blocking tt
      = SystemExit (ExitJson kwargs) /\
    dict_get kwargs "changed" = Some (VBool false).
Proof.
  apply (@enable_when_enabled_changes_nothing unit blocking_on
           (settings_of false)
           {| dns_control.action := Some "enable";
              dns_control.timer := None;
              dns_control.password := Some "secret";
              dns_control.url := Some "http://pi.hole" |}
           tt tt tt (VDict [("success", VBool true)]) (VBool true)
           [("blocking", VBool true); ("timer", VInt 0)]);
    reflexivity.
Defined.

(** *** C5 *)

(** C5, as stated, fails.  A dry run of [actions] makes no mutating call,
    so no mutation occurred, and it is a dry run; yet [changed] is true. *)
Lemma dry_run_reports_changed :
  no_mutation (trace obliging (dry true) flush_arp tt) = true /\
  ending obliging (dry true) flush_arp tt =
    SystemExit (ExitJson
      [("changed", VBool true); ("action_performed", VStr "flush_arp");
       ("success", VBool true);
       ("response",
        VDict [("message", VStr "Would perform action: flush_arp")])]).
Proof. split; reflexivity. Qed.

(** C5, amended.  For every module, outside check mode, [changed] is
    false whenever no mutation occurred: a run that reports a change has
    made a mutating call that went through.  In check mode [changed] is
    not false: a dry run of [actions] that exits normally reports
    [changed=True]. *)
Theorem changed_means_a_mutation_went_through :
  forall {Remote} (h : Host Remote) (c : settings) (i : invocation) (w : Remote),
    (forall e,
       check_mode c = false ->
       ending h c i w = SystemExit e ->
       changed_flag e = true ->
       existsb succeeded (trace h c i w) = true) /\
    (forall p kwargs,
       i = Actions p ->
       check_mode c = true ->
       ending h c i w = SystemExit (ExitJson kwargs) ->
       dict_get kwargs "changed" = Some (VBool true)).
Proof.
  intros Remote h c i w. split.
  - intros e C E X.
    destruct (all_run_facts h c i w) as (e' & s & t & R & _ & F & _).
    unfold ending, trace in *. rewrite R in *. cbn in E.
    injection E as <-. exact (F C X).
  - intros p kwargs -> C E. destruct c as [check has]. cbn in C. subst check.
    exact (actions_dry_run_changed h has p w E).
Qed.

Lemma changed_witness :
  existsb succeeded (trace obliging (settings_of false) flush_arp tt) = true.
Proof.
  apply (proj1 (changed_means_a_mutation_went_through obliging
                  (settings_of false) flush_arp tt)
               (ExitJson [("changed", VBool true);
                          ("action_performed", VStr "flush_arp");
                          ("success", VBool true);
                          ("response", VDict [("success", VBool true)])]));
    reflexivity.
Defined.

(** *** C6 *)

(** C6, as stated, fails.  A client that refuses the password and names
    it in its exception: the module copies the text of the exception into
    [msg] (and [metrics] into [error] as well), and the password with
    it. *)
Lemma echoed_password_reaches_the_message :
  ending echoing (settings_of false) (set_password flush_arp "hunter2") tt =
    SystemExit (FailJson
      [("msg",
        VStr "Failed to perform action flush_arp: 401 bad password hunter2");
       ("changed", VBool false); ("action_performed", VStr "flush_arp");
       ("success", VBool false); ("response", VDict [])]) /\
  ending echoing (settings_of false)
         (set_password (Metrics summary_metric) "hunter2") tt =
    SystemExit (FailJson
      [("msg",
        VStr "Failed to retrieve metric summary: 401 bad password hunter2");
       ("success", VBool false); ("metric_type", VStr "summary");
       ("data", VDict []); ("error", VStr "401 bad password hunter2")]) /\
  ending echoing (settings_of false) (set_password flush_arp "hunter2") tt <>
  ending echoing (settings_of false) (set_password flush_arp "swordfish") tt.
Proof. repeat split; try reflexivity. discriminate. Qed.

(** C6, amended.  The modules hand the password to
    [PiHole6Client(url, password)] and to nothing else: two runs of a
    module that differ only in the password, against a client that
    answers [PiHole6Client(url, password)] alike for both, end alike, so
    the result record or error payload tells nothing about the
    password. *)
Theorem password_does_not_reach_the_result :
  forall {Remote} (h : Host Remote) (c : settings) (i : invocation)
         (w : Remote) (pw1 pw2 : string),
    remote_call h (OpenSession (url_of i) (Some pw1)) w =
    remote_call h (OpenSession (url_of i) (Some pw2)) w ->
    ending h c (set_password i pw1) w = ending h c (set_password i pw2) w.
Proof.
  intros Remote h c i w pw1 pw2 H. destruct c as [check has].
  destruct i; cbn in H.
  all: unfold_run; unfold set_password; unfold_modules;
       unfold domain_management.main, domain_management.AnsibleModule;
       unfold_rejected; unfold domain_management.domains_param;
       unfold_py; cbn.
  all: rewrite !required_str_some; cbn.
  all: destruct check, has; cbn.
  all: repeat (try rewrite H; step).
  all: reflexivity.
Qed.

Lemma password_witness :
  ending obliging (settings_of false) (set_password flush_arp "hunter2") tt =
  ending obliging (settings_of false) (set_password flush_arp "swordfish") tt.
Proof.
  apply (@password_does_not_reach_the_result unit obliging (settings_of false)
           flush_arp tt "hunter2" "swordfish").
  reflexivity.
Defined.

(** *** C7 *)

(** C7, as stated, fails.  [config_management] with [action=get] against
    an appliance whose retrieval raises: the exception is caught and its
    text stored under [response.error], but the module exits normally. *)
Lemma failed_retrieval_is_not_a_failure :
  In (GetConfig false, Raises "connection refused")
     (trace unreachable (settings_of false)
            (ConfigManagement (config_action "get")) tt) /\
  ending unreachable (settings_of false)
         (ConfigManagement (config_action "get")) tt =
    SystemExit (ExitJson
      [("changed", VBool false); ("action_performed", VStr "get");
       ("success", VBool false);
       ("response", VDict [("error", VStr "connection refused")])]).
Proof. split; [right; left; reflexivity | reflexivity]. Qed.

(** C7, amended.  No module propagates an exception: every run ends in
    [exit_json] or [fail_json].  When a call other than opening or
    closing the session, the status query of [dns_control], the retrieval
    of [config_management]'s [get] and the calls of [domain_management]
    raises, the module fails and the text of the exception is stored
    under an [error] key.  When opening the session raises, the module
    fails and [msg] carries the text.  When the status query of
    [dns_control] raises, the module fails, without the text.  When the
    retrieval of [get] raises, the text is stored under [response.error]
    and the module exits normally with [success=False].  When adding,
    updating or deleting a domain entry raises, the record of the entry
    carries [success=False] and the text under [response.error], and the
    module exits normally. *)
Theorem exceptions_are_caught_and_reported :
  forall {Remote} (h : Host Remote) (c : settings) (i : invocation) (w : Remote),
  exists e,
    ending h c i w = SystemExit e /\
    (forall r msg,
       In (r, Raises msg) (trace h c i w) -> fatal_call r = true ->
       exists kwargs, e = FailJson kwargs /\ error_recorded kwargs msg) /\
    (forall url password msg,
       In (OpenSession url password, Raises msg) (trace h c i w) ->
       exists kwargs text,
         e = FailJson kwargs /\
         dict_get kwargs "msg" = Some (VStr text) /\ mentions text msg) /\
    (forall msg,
       In (GetBlockingStatus, Raises msg) (trace h c i w) ->
       exists kwargs,
         e = FailJson kwargs /\
         dict_get kwargs "msg" =
           Some (VStr "Failed to get current blocking status")) /\
    (forall p r msg,
       i = ConfigManagement p ->
       In (r, Raises msg) (trace h c i w) -> retrieval r = true ->
       exists kwargs,
         e = ExitJson kwargs /\
         dict_get kwargs "success" = Some (VBool false) /\
         error_recorded kwargs msg) /\
    (forall p r msg,
       i = DomainManagement p ->
       In (r, Raises msg) (trace h c i w) -> mutating r = true ->
       exists kwargs records record,
         e = ExitJson kwargs /\
         dict_get kwargs "results" = Some (VList records) /\
         In record records /\ failed_entry msg record).
Proof.
  intros Remote h c i w.
  destruct (all_run_facts h c i w) as (e & s & t & R & _ & _ & F & O & B).
  exists e. unfold ending, trace. rewrite R. cbn [fst snd].
  split; [reflexivity|]. split; [exact F|]. split; [exact O|].
  split; [exact B|]. split.
  - intros p r msg -> I G.
    destruct (config_run_facts h c p w) as (e' & s' & t' & R' & X & _).
    rewrite R' in R. injection R as <- <- <-.
    destruct (X r msg I G) as (kw & E & S & _ & D).
    exists kw. auto.
  - intros p r msg -> I Q.
    pose proof (domain_run_cases h c p w) as H. cbn zeta in H.
    unfold ending, trace in H. rewrite R in H. cbn [fst snd] in H.
    destruct H as [(text & _ & T & _) |
                   (_ & _ & [(_ & _ & T) | [(_ & H) | (_ & H)]])].
    + subst t. contradiction.
    + subst t. contradiction.
    + destruct H as (m & w1 & _ & _ & T). subst t. in_trace I. discriminate Q.
    + destruct H as (v & w1 & groups & t' & closing & changed & records
                     & gm & w2 & w3 & _ & _ & _ & E & T & _ & _ & _ & _ & X).
      subst t.
      destruct I as [I | [I | I]];
        [ inversion I | inversion I; subst; discriminate Q |].
      apply in_app_or in I. destruct I as [I | I].
      * destruct (X r msg I Q) as (rec & In_rec & Failed).
        injection E as ->.
        eexists _, records, rec. repeat split; try reflexivity; assumption.
      * in_trace I. discriminate Q.
Qed.

Lemma exceptions_witness :
  exists kwargs,
    ending unreachable (settings_of false) flush_arp tt
      = SystemExit (FailJson kwargs) /\
    error_recorded kwargs "connection refused".
Proof.
  destruct (exceptions_are_caught_and_reported unreachable (settings_of false)
              flush_arp tt) as (e & E & F & _).
  destruct (F FlushArp "connection refused") as (kw & -> & D).
  - right. left. reflexivity.
  - reflexivity.
  - exists kw. split; [exact E | exact D].
Defined.

(** *** C8 *)

(** C8.  For every module, whatever [close_session] does (return or
    raise, and whatever it does to the appliance), the run ends exactly
    as it ends with the client's own [close_session]: same exit, same
    result. *)
Theorem close_failure_is_swallowed :
  forall {Remote} (h : Host Remote) (closing : Remote -> response * Remote)
         (c : settings) (i : invocation) (w : Remote),
    ending (with_close h closing) c i w = ending h c i w.
Proof.
  intros Remote h closing c i w.
  rewrite (close_irrelevant h c i w closing (remote_call h CloseSession)).
  unfold ending, run. rewrite with_close_self. reflexivity.
Qed.

(** *** C9 *)

(** C9.  [config_management]: with [action=get], once the session is
    open, the module exits normally and unchanged, with [success=False]
    when the retrieval raised; with any other action, a run that ends
    without success ends in [fail_json]. *)
Theorem only_get_survives_a_failure :
  forall {Remote} (h : Host Remote) (c : settings)
         (p : config_management.params) (w : Remote),
    let i := ConfigManagement p in
    (config_management.action p = Some "get" ->
     rejected i = None ->
     HAS_PIHOLE6API c = true ->
     session_opens h i w ->
     exists kwargs,
       ending h c i w = SystemExit (ExitJson kwargs) /\
       dict_get kwargs "changed" = Some (VBool false) /\
       (forall r msg,
          In (r, Raises msg) (trace h c i w) -> retrieval r = true ->
          dict_get kwargs "success" = Some (VBool false))) /\
    (config_management.action p <> Some "get" ->
     forall e,
       ending h c i w = SystemExit e ->
       truthy (dict_get_default (kwargs_of e) "success" (VBool false)) = false ->
       failed e = true).
Proof.
  intros Remote h c p w i.
  destruct (config_run_facts h c p w) as (e & s & t & R & X & G & N).
  split.
  - intros A Rj HAS (v & w1 & O).
    assert (I : In (OpenSession (config_management.url p)
                                (config_management.password p), Returns v) t).
    { clear X G N. revert R. destruct c as [check has]. cbn in HAS. subst has.
      cbn in Rj, O.
      unfold_run; unfold_modules; rewrite Rj, A; unfold_py; cbn.
      rewrite O. cbn.
      intros R. destruct t as [|ev t]; [|left].
      all: repeat (revert R; step; intros R); inversion R; reflexivity. }
    destruct (G (proj2 (eqs_true _ _) A) _ _ _ I) as (kw & -> & C).
    exists kw. unfold ending, trace, i. rewrite R. cbn [fst snd].
    split; [reflexivity|]. split; [exact C|].
    intros r msg Ir Gr.
    destruct (X r msg Ir Gr) as (kw' & E & S & _).
    injection E as <-. exact S.
  - intros A e' E S.
    unfold ending, i in E. rewrite R in E. cbn in E. injection E as <-.
    apply N; [|exact S].
    destruct (eqs (config_management.action p) "get") eqn:Q; [|reflexivity].
    apply eqs_true in Q. contradiction.
Qed.

Lemma only_get_witness :
  exists kwargs,
    ending unreachable (settings_of false)
           (ConfigManagement (config_action "get")) tt
      = SystemExit (ExitJson kwargs) /\
    dict_get kwargs "changed" = Some (VBool false) /\
    dict_get kwargs "success" = Some (VBool false).
Proof.
  destruct (proj1 (only_get_survives_a_failure unreachable (settings_of false)
                     (config_action "get") tt))
    as (kw & E & C & S).
  - reflexivity.
  - reflexivity.
  - reflexivity.
  - exists VNone, tt. reflexivity.
  - exists kw. split; [exact E|]. split; [exact C|].
    apply (S (GetConfig false) "connection refused").
    + right. left. reflexivity.
    + reflexivity.
Defined.

(** *** C10 *)

(** C10.  [domain_management] with [domains] omitted or empty (and the
    other parameters accepted, the client library present): the module
    exits at once with [changed=False] and empty [domains] and [results],
    without building a client or making any call. *)
Theorem empty_batch_exits_at_once :
  forall {Remote} (h : Host Remote) (c : settings)
         (p : domain_management.params) (w : Remote),
    domain_management.domains p = None \/ domain_management.domains p = Some [] ->
    rejected (DomainManagement p) = None ->
    HAS_PIHOLE6API c = true ->
    ending h c (DomainManagement p) w =
      SystemExit (ExitJson [("changed", VBool false); ("domains", VList []);
                            ("results", VList [])]) /\
    trace h c (DomainManagement p) w = [].
Proof.
  intros Remote h c p w D R HAS.
  assert (B : domain_management.domains_param p = []).
  { unfold domain_management.domains_param. destruct D as [-> | ->]; reflexivity. }
  pose proof (domain_run_cases h c p w) as H. cbn zeta in H.
  destruct H as [(text & _ & _ & [X | X]) |
                 (_ & _ & [(_ & E & T) | [(N & _) | (N & _)]])];
    try contradiction; try congruence.
  split; assumption.
Qed.

Lemma empty_batch_witness :
  ending obliging (settings_of false) (DomainManagement (domain_batch None)) tt =
    SystemExit (ExitJson [("changed", VBool false); ("domains", VList []);
                          ("results", VList [])]) /\
  trace obliging (settings_of false) (DomainManagement (domain_batch None)) tt
    = [].
Proof.
  apply (@empty_batch_exits_at_once unit obliging (settings_of false)
           (domain_batch None) tt).
  - left. reflexivity.
  - reflexivity.
  - reflexivity.
Defined.

(* ===================================================================== *)
(** * Further properties of the modules *)
(* ===================================================================== *)

(* ===================================================================== *)
(** ** Sessions and answers, module by module *)
(* ===================================================================== *)

(** What holds of a run outside the domain list, with ending [e] and
    trace [t]. *)
Lemma simple_run_more {Remote} (h : Host Remote) (c : settings)
    (i : invocation) (w : Remote) :
  (forall p, i <> DomainManagement p) ->
  exists e s t,
    run h c i w = (SystemExit e, s, t) /\
    (if failed e then left_open t else bracketed t) = true /\
    (forall r d, In (r, Returns (VDict d)) t -> client_mutation r = true ->
       truthy (dict_get_default d "success" (VBool false)) = false ->
       exists kw, e = FailJson kw /\
                  dict_get kw "response" = Some (VDict d)) /\
    (forall r d, In (r, Returns (VDict d)) t -> client_mutation r = true ->
       truthy (dict_get_default d "success" (VBool false)) = true ->
       exists kw, e = ExitJson kw /\
                  dict_get kw "changed" = Some (VBool true)) /\
    (forall r v, In (r, Returns v) t -> client_mutation r = true ->
       is_dict v = false ->
       exists kw, e = FailJson kw /\
                  error_recorded kw (attribute_error v)).
Proof.
  intros ND. destruct c as [check has].
  destruct i; try (exfalso; eapply ND; reflexivity); clear ND.
  all: unfold_run; unfold_modules; unfold_py; cbn.
  all: destruct check, has; cbn.
  all: repeat step_text.
  all: do 3 eexists; split; [reflexivity|].
  all: split; [reflexivity|].
  all: split;
    [ intros rq dq Iq Fq Sq; in_trace Iq; try discriminate Fq;
      try congruence; try clash; try not_a_dict;
      eexists; split; reflexivity |].
  all: split;
    [ intros rq dq Iq Fq Sq; in_trace Iq; try discriminate Fq;
      try congruence; try clash; try not_a_dict;
      eexists; split; reflexivity |].
  all: intros rq vq Iq Fq Sq; in_trace Iq; try discriminate Fq;
    try discriminate Sq;
    eexists; refine (conj eq_refl _); unfold error_recorded; cbn; eauto.
Qed.

(* ===================================================================== *)
(** ** The blocking-control module, once the status is known *)
(* ===================================================================== *)

Section BlockingStatus.
Context {Remote : Type} (h : Host Remote) (c : settings)
        (p : dns_control.params).
Context (w w1 w2 : Remote) (v blocking : value) (status : dict).
Hypothesis accepted : rejected (DnsControl p) = None.
Hypothesis library : HAS_PIHOLE6API c = true.
Hypothesis opened :
  remote_call h (OpenSession (dns_control.url p) (dns_control.password p)) w
  = (Returns v, w1).
Hypothesis answered :
  remote_call h GetBlockingStatus w1 = (Returns (VDict status), w2).
Hypothesis has_blocking : dict_get status "blocking" = Some blocking.
Hypothesis not_none : is_None blocking = false.

Ltac known_status :=
  destruct c as [check has]; cbn in accepted, library; subst has;
  assert (B' : dict_get_default status "blocking" (VBool false) = blocking)
    by (unfold dict_get_default; rewrite has_blocking; reflexivity);
  unfold_run; unfold_modules; rewrite accepted; unfold_py; cbn;
  rewrite opened; cbn; rewrite answered; cbn;
  rewrite !py_get_dict; cbn; rewrite B', not_none; cbn.

(** X1.  [action=status]: the run reports the blocking state as the
    client gave it, and the remaining timer when it is positive; it
    changes nothing and makes no mutating call, in either mode. *)
Theorem status_reports_the_remaining_timer (z : Z) :
  dns_control.action p = Some "status" ->
  dict_get_default status "timer" (VInt 0) = VInt z ->
  ending h c (DnsControl p) w =
    SystemExit (ExitJson
      ([("changed", VBool false); ("action_performed", VStr "status");
        ("blocking", blocking)]
       ++ if Z.ltb 0 z then [("timer", VInt z)] else [])) /\
  no_mutation (trace h c (DnsControl p) w) = true.
Proof.
  intros A T. known_status. rewrite A, T. cbn.
  unfold py_gt0, ret. cbn.
  destruct (Z.ltb 0 z); cbn;
    destruct (remote_call h CloseSession w2) as [[v' | m'] w3]; cbn;
    split; reflexivity.
Qed.

(** X2.  Outside check mode the run makes at most one mutating call:
    [enable] sends [True] when blocking is off or a timer is running,
    [disable] sends [False] when blocking is on (a running timer alone
    does not count), [status] sends nothing; the [timer] parameter goes
    to the client as it is. *)
Theorem blocking_is_switched_only_when_needed (z : Z) :
  check_mode c = false ->
  dict_get_default status "timer" (VInt 0) = VInt z ->
  let action := dns_control.action p in
  map fst (filter (fun ev => mutating (fst ev)) (trace h c (DnsControl p) w)) =
    if eqs action "enable" && (negb (truthy blocking) || Z.ltb 0 z) then
      [SetBlockingStatus true (dns_control.timer p)]
    else if eqs action "disable" && truthy blocking then
      [SetBlockingStatus false (dns_control.timer p)]
    else [].
Proof.
  intros C T action. subst action. known_status. cbn in C. subst check.
  rewrite T. unfold py_gt0, ret, dns_control.set_blocking_status. unfold_py.
  destruct (eqs (dns_control.action p) "status") eqn:?,
           (eqs (dns_control.action p) "enable") eqn:?,
           (eqs (dns_control.action p) "disable") eqn:?;
    try eqs_clash; destruct (truthy blocking), (Z.ltb 0 z); cbn.
  all: repeat step; reflexivity.
Qed.

(** X3.  When the client reports a timer that is not a number ([None],
    a string, ...), the comparison [current_timer > 0] raises: the module
    fails, whatever the action, after two calls and without closing the
    session. *)
Theorem timer_that_is_not_a_number_fails (timer : value) :
  dict_get status "timer" = Some timer ->
  not_a_number timer = true ->
  ending h c (DnsControl p) w =
    SystemExit (FailJson
      [("msg", VStr ("Failed to control DNS blocking: "
                     ++ "'>' not supported between instances of '"
                     ++ type_name timer ++ "' and 'int'"));
       ("changed", VBool false); ("action_performed", VStr "");
       ("blocking", blocking)]) /\
  trace h c (DnsControl p) w =
    [(OpenSession (dns_control.url p) (dns_control.password p), Returns v);
     (GetBlockingStatus, Returns (VDict status))].
Proof.
  intros T N.
  assert (T' : dict_get_default status "timer" (VInt 0) = timer)
    by (unfold dict_get_default; rewrite T; reflexivity).
  known_status. rewrite T'.
  unfold py_gt0, ret, raise.
  destruct timer; try discriminate N; cbn; split; reflexivity.
Qed.

End BlockingStatus.

Lemma status_witness :
  ending (blocking_paused (VInt 30)) (settings_of true)
         (DnsControl (dns_action "status" None)) tt =
    SystemExit (ExitJson
      [("changed", VBool false); ("action_performed", VStr "status");
       ("blocking", VBool false); ("timer", VInt 30)]) /\
  no_mutation (trace (blocking_paused (VInt 30)) (settings_of true)
                     (DnsControl (dns_action "status" None)) tt) = true.
Proof.
  apply (@status_reports_the_remaining_timer unit
           (blocking_paused (VInt 30)) (settings_of true)
           (dns_action "status" None) tt tt tt
           (VDict [("success", VBool true)]) (VBool false)
           [("blocking", VBool false); ("timer", VInt 30)]
           eq_refl eq_refl eq_refl eq_refl eq_refl eq_refl 30%Z).
  - reflexivity.
  - reflexivity.
Defined.

Lemma blocking_is_switched_witness :
  map fst (filter (fun ev => mutating (fst ev))
             (trace (blocking_paused (VInt 30)) (settings_of false)
                    (DnsControl (dns_action "enable" (Some 60%Z))) tt)) =
    [SetBlockingStatus true (Some 60%Z)].
Proof.
  apply (@blocking_is_switched_only_when_needed unit
           (blocking_paused (VInt 30)) (settings_of false)
           (dns_action "enable" (Some 60%Z)) tt tt tt
           (VDict [("success", VBool true)]) (VBool false)
           [("blocking", VBool false); ("timer", VInt 30)]
           eq_refl eq_refl eq_refl eq_refl eq_refl eq_refl 30%Z).
  - reflexivity.
  - reflexivity.
Defined.

Lemma timer_that_is_not_a_number_witness :
  ending (blocking_paused VNone) (settings_of false)
         (DnsControl (dns_action "status" None)) tt =
    SystemExit (FailJson
      [("msg", VStr ("Failed to control DNS blocking: "
                     ++ "'>' not supported between instances of '"
                     ++ "NoneType" ++ "' and 'int'"));
       ("changed", VBool false); ("action_performed", VStr "");
       ("blocking", VBool false)]) /\
  trace (blocking_paused VNone) (settings_of false)
        (DnsControl (dns_action "status" None)) tt =
    [(OpenSession (Some "http://pi.hole") (Some "secret"),
      Returns (VDict [("success", VBool true)]));
     (GetBlockingStatus,
      Returns (VDict [("blocking", VBool false); ("timer", VNone)]))].
Proof.
  apply (@timer_that_is_not_a_number_fails unit
           (blocking_paused VNone) (settings_of false)
           (dns_action "status" None) tt tt tt
           (VDict [("success", VBool true)]) (VBool false)
           [("blocking", VBool false); ("timer", VNone)]
           eq_refl eq_refl eq_refl eq_refl eq_refl eq_refl VNone).
  - reflexivity.
  - reflexivity.
Defined.

(* ===================================================================== *)
(** ** The configuration module: retrieval, export and import *)
(* ===================================================================== *)

Ltac section_known :=
  repeat match goal with
         | H : config_management.config_section _ = _ |- _ =>
             rewrite H; clear H
         end.

Lemma config_run_more {Remote} (h : Host Remote) (c : settings)
    (p : config_management.params) (w : Remote) :
  exists e s t,
    run h c (ConfigManagement p) w = (SystemExit e, s, t) /\
    (* retrieval *)
    (forall r v, In (r, Returns v) t -> retrieval r = true ->
       e = ExitJson [("changed", VBool false);
                     ("action_performed", ostr (config_management.action p));
                     ("success", VBool true); ("response", v);
                     ("config", v)]) /\
    (forall section detailed resp,
       In (GetConfigSection section detailed, resp) t ->
       config_management.config_section p = Some section /\
       truthy_str (Some section) = true /\
       detailed = config_management.detailed p) /\
    (forall detailed resp,
       In (GetConfig detailed, resp) t ->
       truthy_str (config_management.config_section p) = false /\
       detailed = config_management.detailed p) /\
    (* export *)
    (forall path data resp,
       In (WriteFile path data, resp) t ->
       path = config_management.export_path p /\
       In (ExportSettings, Returns data) t /\
       check_mode c = false) /\
    (forall path data v,
       In (WriteFile path data, Returns v) t ->
       exists kw,
         e = ExitJson kw /\
         dict_get kw "changed" = Some (VBool true) /\
         dict_get kw "export_path" = Some (ostr path) /\
         dict_get kw "response" =
           Some (VDict [("message",
                         VStr ("Configuration exported to " ++ fmt path))])) /\
    (* import *)
    (forall path options resp,
       In (ImportSettings path options, resp) t ->
       path = config_management.import_path p /\
       options = config_management.import_options p /\
       check_mode c = false /\
       exists v, In (PathExists path, Returns v) t /\ truthy v = true) /\
    (forall path v,
       In (PathExists path, Returns v) t -> truthy v = false ->
       (exists kw,
          e = FailJson kw /\
          error_recorded kw ("Import file not found: " ++ fmt path)) /\
       forallb (fun ev => match fst ev with
                          | ImportSettings _ _ => false
                          | _ => true
                          end) t = true).
Proof.
  destruct c as [check has].
  unfold_run; unfold_modules; unfold_py; cbn.
  destruct check, has; cbn.
  all: repeat step.
  all: do 3 eexists; split; [reflexivity|].
  all: split;
    [ intros rq vq Iq Rq; in_trace Iq; try discriminate Rq; reflexivity |].
  all: split;
    [ intros sq dq rq Iq; in_trace Iq; section_known; cbn; auto |].
  all: split;
    [ intros dq rq Iq; in_trace Iq; section_known; cbn;
      (split; [first [reflexivity | apply negb_false_iff; assumption
                     | assumption | clash | eauto] | reflexivity]) |].
  all: split;
    [ intros pq dq rq Iq; in_trace Iq; cbn; auto 6 |].
  all: split;
    [ intros pq dq vq Iq; in_trace Iq;
      eexists; repeat split; reflexivity |].
  all: split;
    [ intros pq oq rq Iq; in_trace Iq;
      repeat split; eexists; (split; [cbn; auto 6
              | first [assumption | apply negb_false_iff; assumption]]) |].
  all: intros pq vq Iq Tq; in_trace Iq; try clash;
    try (match goal with
         | H : negb (truthy ?v) = false, H' : truthy ?v = false |- _ =>
             rewrite H' in H; discriminate H
         end);
    (split; [eexists; refine (conj eq_refl _);
             unfold error_recorded; cbn; eauto | reflexivity]).
Qed.

Lemma run_parts {Remote} (h : Host Remote) (c : settings) (i : invocation)
    (w : Remote) o s t :
  run h c i w = (o, s, t) -> ending h c i w = o /\ trace h c i w = t.
Proof. intros E. unfold ending, trace. rewrite E. split; reflexivity. Qed.

(** X4.  [config_management], action [get]: whenever the retrieval
    returns, the module exits with [success=True] and hands the answer
    back untouched, as [response] and as [config], whatever the answer
    says about its own success.  The section is asked for only when
    [config_section] is a non-empty string; otherwise the whole
    configuration is read. *)
Theorem get_hands_the_answer_back {Remote} (h : Host Remote) (c : settings)
    (p : config_management.params) (w : Remote) (r : request) (v : value) :
  In (r, Returns v) (trace h c (ConfigManagement p) w) ->
  retrieval r = true ->
  ending h c (ConfigManagement p) w =
    SystemExit (ExitJson [("changed", VBool false);
                          ("action_performed",
                           ostr (config_management.action p));
                          ("success", VBool true); ("response", v);
                          ("config", v)]) /\
  r = match config_management.config_section p with
      | Some section =>
          if negb (String.eqb section "")
          then GetConfigSection section (config_management.detailed p)
          else GetConfig (config_management.detailed p)
      | None => GetConfig (config_management.detailed p)
      end.
Proof.
  intros I R.
  destruct (config_run_more h c p w)
    as (e & s & t & E & G & GS & GC & _).
  apply run_parts in E as [E T]. rewrite T in I. rewrite E.
  split; [rewrite (G r v I R); reflexivity|].
  destruct r; try discriminate R.
  - destruct (GS _ _ _ I) as (S1 & S2 & ->). rewrite S1.
    cbn in S2. rewrite S2. reflexivity.
  - destruct (GC _ _ I) as (S1 & ->).
    destruct (config_management.config_section p) as [section|];
      [|reflexivity].
    cbn in S1. rewrite S1. reflexivity.
Qed.

Lemma get_hands_the_answer_back_witness :
  ending obliging (settings_of false)
         (ConfigManagement (config_action "get")) tt =
    SystemExit (ExitJson [("changed", VBool false);
                          ("action_performed", VStr "get");
                          ("success", VBool true);
                          ("response", VDict [("success", VBool true)]);
                          ("config", VDict [("success", VBool true)])]).
Proof.
  apply (get_hands_the_answer_back obliging (settings_of false)
           (config_action "get") tt (GetConfig false)
           (VDict [("success", VBool true)])).
  - right. left. reflexivity.
  - reflexivity.
Defined.

(** X5.  [config_management], action [export]: the file is written only
    in a real run, to [export_path], and with exactly what the client's
    export returned just before; when the write goes through, the module
    exits with [changed=True], the path and the message that names it. *)
Theorem export_writes_what_the_client_returned {Remote} (h : Host Remote)
    (c : settings) (p : config_management.params) (w : Remote)
    (path : option string) (data : value) (resp : response) :
  In (WriteFile path data, resp) (trace h c (ConfigManagement p) w) ->
  path = config_management.export_path p /\
  In (ExportSettings, Returns data) (trace h c (ConfigManagement p) w) /\
  check_mode c = false /\
  (forall v, resp = Returns v ->
     exists kw,
       ending h c (ConfigManagement p) w = SystemExit (ExitJson kw) /\
       dict_get kw "changed" = Some (VBool true) /\
       dict_get kw "export_path" = Some (ostr path) /\
       dict_get kw "response" =
         Some (VDict [("message",
                       VStr ("Configuration exported to " ++ fmt path))])).
Proof.
  intros I.
  destruct (config_run_more h c p w)
    as (e & s & t & E & _ & _ & _ & W1 & W2 & _).
  apply run_parts in E as [E T]. rewrite T in *. rewrite E.
  destruct (W1 _ _ _ I) as (P & X & C).
  repeat split; try assumption.
  intros v ->. destruct (W2 _ _ _ I) as (kw & -> & K).
  exists kw. split; [reflexivity | exact K].
Qed.

Lemma export_witness :
  In (ExportSettings, Returns (VStr "PK"))
     (trace (file_host true) (settings_of false)
            (ConfigManagement (export_to "/tmp/teleporter.zip")) tt) /\
  exists kw,
    ending (file_host true) (settings_of false)
           (ConfigManagement (export_to "/tmp/teleporter.zip")) tt
      = SystemExit (ExitJson kw) /\
    dict_get kw "export_path" = Some (VStr "/tmp/teleporter.zip").
Proof.
  destruct (export_writes_what_the_client_returned (file_host true)
              (settings_of false) (export_to "/tmp/teleporter.zip") tt
              (Some "/tmp/teleporter.zip") (VStr "PK")
              (Returns (VDict [("success", VBool true)])))
    as (_ & X & _ & K).
  - right. right. left. reflexivity.
  - split; [exact X|].
    destruct (K _ eq_refl) as (kw & E & _ & P & _).
    exists kw. split; [exact E | exact P].
Defined.

(** X6.  [config_management], action [import]: the client's import is
    called only in a real run, only after [os.path.exists(import_path)]
    answered true, and with [import_path] and [import_options] as they
    were given. *)
Theorem import_is_sent_for_an_existing_file_only {Remote} (h : Host Remote)
    (c : settings) (p : config_management.params) (w : Remote)
    (path : option string) (options : option value) (resp : response) :
  In (ImportSettings path options, resp)
     (trace h c (ConfigManagement p) w) ->
  path = config_management.import_path p /\
  options = config_management.import_options p /\
  check_mode c = false /\
  exists v, In (PathExists path, Returns v)
               (trace h c (ConfigManagement p) w) /\
            truthy v = true.
Proof.
  intros I.
  destruct (config_run_more h c p w)
    as (e & s & t & E & _ & _ & _ & _ & _ & I1 & _).
  apply run_parts in E as [E T]. rewrite T in *.
  exact (I1 _ _ _ I).
Qed.

Lemma import_witness :
  exists v, In (PathExists (Some "/tmp/teleporter.zip"), Returns v)
               (trace (file_host true) (settings_of false)
                      (ConfigManagement (import_from "/tmp/teleporter.zip"))
                      tt) /\
            truthy v = true.
Proof.
  destruct (import_is_sent_for_an_existing_file_only (file_host true)
              (settings_of false) (import_from "/tmp/teleporter.zip") tt
              (Some "/tmp/teleporter.zip") None
              (Returns (VDict [("success", VBool true)])))
    as (_ & _ & _ & X).
  - right. right. left. reflexivity.
  - exact X.
Defined.

(** X7.  [config_management], action [import]: when
    [os.path.exists(import_path)] answers false, the module fails, its
    [response] carries [Import file not found: <path>], and the client's
    import is never called. *)
Theorem missing_import_file_is_never_sent {Remote} (h : Host Remote)
    (c : settings) (p : config_management.params) (w : Remote)
    (path : option string) (v : value) :
  In (PathExists path, Returns v) (trace h c (ConfigManagement p) w) ->
  truthy v = false ->
  (exists kw,
     ending h c (ConfigManagement p) w = SystemExit (FailJson kw) /\
     error_recorded kw ("Import file not found: " ++ fmt path)) /\
  forall path' options resp,
    ~ In (ImportSettings path' options, resp)
         (trace h c (ConfigManagement p) w).
Proof.
  intros I F.
  destruct (config_run_more h c p w)
    as (e & s & t & E & _ & _ & _ & _ & _ & _ & I2).
  apply run_parts in E as [E T]. rewrite T in *. rewrite E.
  destruct (I2 _ _ I F) as ((kw & -> & K) & N).
  split; [exists kw; split; [reflexivity | exact K]|].
  intros path' options resp J.
  rewrite forallb_forall in N. specialize (N _ J). discriminate N.
Qed.

Lemma missing_import_file_witness :
  exists kw,
    ending (file_host false) (settings_of false)
           (ConfigManagement (import_from "/tmp/teleporter.zip")) tt
      = SystemExit (FailJson kw) /\
    error_recorded kw ("Import file not found: "
                       ++ fmt (Some "/tmp/teleporter.zip")).
Proof.
  apply (missing_import_file_is_never_sent (file_host false)
           (settings_of false) (import_from "/tmp/teleporter.zip") tt
           (Some "/tmp/teleporter.zip") (VBool false)).
  - right. left. reflexivity.
  - reflexivity.
Defined.

(* ===================================================================== *)
(** ** The session, in every module *)
(* ===================================================================== *)

Lemma domain_call_no_session (r : request) :
  domain_call r = true -> negb (session_call r) = true.
Proof. destruct r; intros H; try discriminate H; reflexivity. Qed.

Lemma domain_calls_no_session (t : list event) :
  forallb (fun ev => domain_call (fst ev)) t = true ->
  forallb (fun ev => negb (session_call (fst ev))) t = true.
Proof.
  rewrite !forallb_forall. intros H ev I.
  apply domain_call_no_session, H, I.
Qed.

Lemma forallb_rev {A} (f : A -> bool) (l : list A) :
  forallb f (rev l) = forallb f l.
Proof.
  induction l as [|a l IH]; [reflexivity|].
  cbn. rewrite forallb_app, IH. cbn. rewrite andb_true_r. apply andb_comm.
Qed.

(** X8.  Every module, every run: the run ends in [exit_json] or
    [fail_json]; a run that exits made no call at all or opened one
    session first and closed it last, with no other session call in
    between; a run that fails never closes the session it may have
    opened. *)
Theorem session_is_closed_on_exit_only {Remote} (h : Host Remote)
    (c : settings) (i : invocation) (w : Remote) :
  exists e,
    ending h c i w = SystemExit e /\
    (if failed e then left_open (trace h c i w)
     else bracketed (trace h c i w)) = true.
Proof.
  destruct (outside_domain_list i) eqn:O.
  - destruct (@simple_run_more _ h c i w) as (e & s & t & E & B & _).
    { intros p ->. discriminate O. }
    apply run_parts in E as [E T]. rewrite T, E. exists e.
    split; [reflexivity | exact B].
  - destruct i as [| | |p| | |]; try discriminate O.
    destruct (domain_run_cases h c p w)
      as [(text & E & T & _)
         |(_ & _ & [(_ & E & T)
                   |[(_ & msg & w1 & _ & E & T)
                    |(_ & v & w1 & groups & t & closing & changed & records
                      & gm & w2 & w3 & _ & _ & _ & E & T & _ & _ & _ & F & _)]])];
      rewrite E, T; eexists; (split; [reflexivity|]); try reflexivity.
    cbn [failed bracketed].
    change ((GetGroups, groups) :: t ++ [(CloseSession, closing)])
      with (((GetGroups, groups) :: t) ++ [(CloseSession, closing)]).
    rewrite rev_app_distr. cbn [rev app].
    rewrite forallb_app, forallb_rev. cbn.
    rewrite (domain_calls_no_session _ F). reflexivity.
Qed.

(* ===================================================================== *)
(** ** What the answer to a mutating call does to the result *)
(* ===================================================================== *)

Lemma outside_domain_list_not (i : invocation) :
  outside_domain_list i = true -> forall p, i <> DomainManagement p.
Proof. intros O p ->. discriminate O. Qed.

(** X9.  Modules other than [domain_management]: when the client answers
    a mutating call with an object whose [success] is missing or falsy,
    the module fails and its [response] is that object, as it came. *)
Theorem refused_request_fails_with_the_answer {Remote} (h : Host Remote)
    (c : settings) (i : invocation) (w : Remote) (r : request) (d : dict) :
  outside_domain_list i = true ->
  In (r, Returns (VDict d)) (trace h c i w) ->
  client_mutation r = true ->
  truthy (dict_get_default d "success" (VBool false)) = false ->
  exists kw,
    ending h c i w = SystemExit (FailJson kw) /\
    dict_get kw "response" = Some (VDict d).
Proof.
  intros O I M S.
  destruct (@simple_run_more _ h c i w (@outside_domain_list_not i O))
    as (e & s & t & E & _ & R & _).
  apply run_parts in E as [E T]. rewrite T in I. rewrite E.
  destruct (R r d I M S) as (kw & -> & K). exists kw. auto.
Qed.

(** X10.  Modules other than [domain_management]: when the client answers
    a mutating call with an object whose [success] is truthy, the module
    exits with [changed=True]. *)
Theorem accepted_request_reports_a_change {Remote} (h : Host Remote)
    (c : settings) (i : invocation) (w : Remote) (r : request) (d : dict) :
  outside_domain_list i = true ->
  In (r, Returns (VDict d)) (trace h c i w) ->
  client_mutation r = true ->
  truthy (dict_get_default d "success" (VBool false)) = true ->
  exists kw,
    ending h c i w = SystemExit (ExitJson kw) /\
    dict_get kw "changed" = Some (VBool true).
Proof.
  intros O I M S.
  destruct (@simple_run_more _ h c i w (@outside_domain_list_not i O))
    as (e & s & t & E & _ & _ & R & _).
  apply run_parts in E as [E T]. rewrite T in I. rewrite E.
  destruct (R r d I M S) as (kw & -> & K). exists kw. auto.
Qed.

(** X11.  Modules other than [domain_management]: when the client answers
    a mutating call with something that is not an object, reading
    [success] raises, and the module fails with the text of that
    [AttributeError] recorded. *)
Theorem answer_without_get_fails {Remote} (h : Host Remote)
    (c : settings) (i : invocation) (w : Remote) (r : request) (v : value) :
  outside_domain_list i = true ->
  In (r, Returns v) (trace h c i w) ->
  client_mutation r = true ->
  is_dict v = false ->
  exists kw,
    ending h c i w = SystemExit (FailJson kw) /\
    error_recorded kw (attribute_error v).
Proof.
  intros O I M S.
  destruct (@simple_run_more _ h c i w (@outside_domain_list_not i O))
    as (e & s & t & E & _ & _ & _ & R).
  apply run_parts in E as [E T]. rewrite T in I. rewrite E.
  destruct (R r v I M S) as (kw & -> & K). exists kw. auto.
Qed.

Lemma refused_request_witness :
  exists kw,
    ending refusing (settings_of false) flush_arp tt
      = SystemExit (FailJson kw) /\
    dict_get kw "response" = Some (VDict [("success", VBool false)]).
Proof.
  apply (@refused_request_fails_with_the_answer unit refusing
           (settings_of false) flush_arp tt FlushArp
           [("success", VBool false)]).
  - reflexivity.
  - right. left. reflexivity.
  - reflexivity.
  - reflexivity.
Defined.

Lemma accepted_request_witness :
  exists kw,
    ending obliging (settings_of false) flush_arp tt
      = SystemExit (ExitJson kw) /\
    dict_get kw "changed" = Some (VBool true).
Proof.
  apply (@accepted_request_reports_a_change unit obliging
           (settings_of false) flush_arp tt FlushArp
           [("success", VBool true)]).
  - reflexivity.
  - right. left. reflexivity.
  - reflexivity.
  - reflexivity.
Defined.

Lemma answer_without_get_witness :
  exists kw,
    ending silent (settings_of false) flush_arp tt
      = SystemExit (FailJson kw) /\
    error_recorded kw "'NoneType' object has no attribute 'get'".
Proof.
  apply (@answer_without_get_fails unit silent
           (settings_of false) flush_arp tt FlushArp VNone).
  - reflexivity.
  - right. left. reflexivity.
  - reflexivity.
  - reflexivity.
Defined.

(* ===================================================================== *)
(** ** Before the first call *)
(* ===================================================================== *)

(** X12.  Every module: the parameters are checked before the client
    library is looked at.  A rejected parameter gives Ansible's message
    whether the library is there or not; accepted parameters without the
    library give the message that asks for it, before any check of the
    module's own and before any call. *)
Theorem parameters_come_before_the_library {Remote} (h : Host Remote)
    (c : settings) (i : invocation) (w : Remote) :
  HAS_PIHOLE6API c = false ->
  ending h c i w =
    SystemExit (FailJson
      [("msg", VStr match rejected i with
                    | Some name => arg_error h name
                    | None => missing_library_msg
                    end)]) /\
  trace h c i w = [].
Proof.
  intros L. destruct (rejected i) as [name|] eqn:R.
  - exact (rejected_fails h c i w R).
  - destruct c as [check has]. cbn in L. subst has.
    unfold_run; destruct i; cbn in R; unfold_modules;
      unfold domain_management.main, domain_management.AnsibleModule;
      rewrite R; split; reflexivity.
Qed.

Lemma parameters_come_before_the_library_witness :
  ending obliging (real false) (ConfigManagement (config_action "update")) tt
  = SystemExit (FailJson [("msg", VStr missing_library_msg)]) /\
  trace obliging (real false) (ConfigManagement (config_action "update")) tt
  = [].
Proof.
  apply (@parameters_come_before_the_library unit obliging (real false)
           (ConfigManagement (config_action "update")) tt).
  reflexivity.
Defined.

(* ===================================================================== *)
(** ** The modules that only read *)
(* ===================================================================== *)

Lemma read_only_run {Remote} (h : Host Remote) (c : settings)
    (i : invocation) (w : Remote) :
  read_only i = true ->
  exists e s t,
    run h c i w = (SystemExit e, s, t) /\
    no_mutation t = true /\
    (forall kw, e = ExitJson kw ->
       exists u pw v0 r v closing,
         t = [(OpenSession u pw, Returns v0); (r, Returns v);
              (CloseSession, closing)] /\
         dict_get kw "success" = Some (VBool true) /\
         dict_get kw "data" = Some v /\
         dict_get kw "error" = Some (VStr "")) /\
    (forall kw, e = FailJson kw ->
       dict_get kw "data" = None \/ dict_get kw "data" = Some (VDict [])).
Proof.
  intros RO. destruct c as [check has].
  destruct i; try discriminate RO.
  all: unfold_run; unfold_modules; unfold_py; cbn.
  all: destruct has; cbn.
  all: repeat step.
  all: do 3 eexists; split; [reflexivity|].
  all: split; [reflexivity|].
  all: split; intros kw K; inversion K; subst; cbn; auto.
  all: do 6 eexists; repeat split; reflexivity.
Qed.

(** X13.  [metrics], [ftl_info] and [network_info] never make a mutating
    call, and run the same in check mode as outside it. *)
Theorem read_only_modules_only_read {Remote} (h : Host Remote)
    (c : settings) (i : invocation) (w : Remote) :
  read_only i = true ->
  no_mutation (trace h c i w) = true /\
  forall c', HAS_PIHOLE6API c' = HAS_PIHOLE6API c ->
             run h c' i w = run h c i w.
Proof.
  intros RO. split.
  - destruct (read_only_run h c i w RO) as (e & s & t & E & N & _).
    apply run_parts in E as [_ T]. rewrite T. exact N.
  - intros [check' has'] L. destruct c as [check has]. cbn in L. subst has'.
    destruct i; try discriminate RO; reflexivity.
Qed.

Lemma read_only_witness :
  no_mutation (trace obliging (settings_of false) (Metrics summary_metric) tt)
  = true /\
  run obliging (settings_of true) (Metrics summary_metric) tt
  = run obliging (settings_of false) (Metrics summary_metric) tt.
Proof.
  destruct (@read_only_modules_only_read unit obliging (settings_of false)
              (Metrics summary_metric) tt eq_refl) as [N S].
  split; [exact N | exact (S (settings_of true) eq_refl)].
Defined.

(** X14.  [metrics], [ftl_info] and [network_info]: a run that exits made
    exactly three calls, opening the session, one retrieval that
    returned, and closing the session; [data] is what the retrieval
    returned, untouched, [success] is [True] and [error] is empty.  A run
    that fails carries no data. *)
Theorem read_only_exit_carries_the_answer {Remote} (h : Host Remote)
    (c : settings) (i : invocation) (w : Remote) (e : exit) :
  read_only i = true ->
  ending h c i w = SystemExit e ->
  match e with
  | ExitJson kw =>
      exists u pw v0 r v closing,
        trace h c i w = [(OpenSession u pw, Returns v0); (r, Returns v);
                         (CloseSession, closing)] /\
        dict_get kw "success" = Some (VBool true) /\
        dict_get kw "data" = Some v /\
        dict_get kw "error" = Some (VStr "")
  | FailJson kw =>
      dict_get kw "data" = None \/ dict_get kw "data" = Some (VDict [])
  end.
Proof.
  intros RO E.
  destruct (read_only_run h c i w RO) as (e' & s & t & R & _ & X & F).
  apply run_parts in R as [R T]. rewrite R in E. inversion E; subst e'.
  rewrite T. destruct e as [kw|kw]; [exact (X kw eq_refl) | exact (F kw eq_refl)].
Qed.

Lemma read_only_exit_witness :
  exists u pw v0 r v closing,
    trace obliging (settings_of false) (Metrics summary_metric) tt
      = [(OpenSession u pw, Returns v0); (r, Returns v);
         (CloseSession, closing)] /\
    dict_get [("success", VBool true); ("metric_type", VStr "summary");
              ("data", VDict [("success", VBool true)]); ("error", VStr "")]
             "success" = Some (VBool true) /\
    dict_get [("success", VBool true); ("metric_type", VStr "summary");
              ("data", VDict [("success", VBool true)]); ("error", VStr "")]
             "data" = Some v /\
    dict_get [("success", VBool true); ("metric_type", VStr "summary");
              ("data", VDict [("success", VBool true)]); ("error", VStr "")]
             "error" = Some (VStr "").
Proof.
  apply (@read_only_exit_carries_the_answer unit obliging (settings_of false)
           (Metrics summary_metric) tt
           (ExitJson [("success", VBool true); ("metric_type", VStr "summary");
                      ("data", VDict [("success", VBool true)]);
                      ("error", VStr "")])).
  - reflexivity.
  - reflexivity.
Defined.

(* ===================================================================== *)
(** ** The [params] dictionary of the metrics module *)
(* ===================================================================== *)

Lemma dict_get_set (d : dict) (k k' : string) (v : value) :
  dict_get (dict_set d k v) k' =
    if String.eqb k k' then Some v else dict_get d k'.
Proof.
  induction d as [|[k0 v0] d IH]; cbn.
  - destruct (String.eqb k k'); reflexivity.
  - destruct (String.eqb k0 k) eqn:E0; cbn.
    + apply String.eqb_eq in E0. subst k0.
      destruct (String.eqb k k'); reflexivity.
    + rewrite IH. destruct (String.eqb k0 k') eqn:E1; [|reflexivity].
      apply String.eqb_eq in E1. subst k0.
      rewrite String.eqb_sym, E0. reflexivity.
Qed.

Lemma collect_get (lookup : string -> value) (keys : list string) :
  forall (d : dict) (k : string),
    dict_get (collect lookup keys d) k =
      if existsb (String.eqb k) keys && negb (is_None (lookup k))
      then Some (lookup k) else dict_get d k.
Proof.
  unfold collect. induction keys as [|key keys IH]; intros d k; cbn.
  - reflexivity.
  - rewrite IH. destruct (String.eqb k key) eqn:E; cbn.
    + apply String.eqb_eq in E. subst key.
      destruct (is_None (lookup k)) eqn:N; cbn.
      * rewrite andb_false_r. reflexivity.
      * rewrite andb_true_r, dict_get_set, String.eqb_refl.
        destruct (existsb (String.eqb k) keys); reflexivity.
    + destruct (existsb (String.eqb k) keys && negb (is_None (lookup k)));
        [reflexivity|].
      destruct (is_None (lookup key)); [reflexivity|].
      rewrite dict_get_set, String.eqb_sym, E. reflexivity.
Qed.

Lemma collected_params_get (p : metrics.params) (key : string) :
  dict_get (collected_params p) key =
    if is_None (module_params p key) then None
    else Some (module_params p key).
Proof.
  unfold collected_params. rewrite collect_get.
  destruct (existsb (String.eqb key) collected_keys) eqn:X;
    destruct (is_None (module_params p key)) eqn:N; try reflexivity.
  exfalso. cbn in X. unfold module_params in N.
  repeat match type of X with
         | (String.eqb ?a ?b || _)%bool = false =>
             apply orb_false_elim in X; destruct X as [X0 X];
             rewrite X0 in N; clear X0
         end.
  discriminate N.
Qed.

(** X15.  [metrics], the loop that fills [params]: after it, a key is in
    the dictionary exactly when the module parameter of that name is not
    [None], and then it maps to the parameter's value. *)
Theorem params_holds_what_is_not_none (p : metrics.params) (key : string) :
  dict_get (collected_params p) key =
    if is_None (module_params p key) then None
    else Some (module_params p key).
Proof. exact (collected_params_get p key). Qed.

(** X16.  [metrics], what [get_metric] reads from [params]: every
    [params.get(key)] gives the module parameter or [None], and the two
    reads with a default give 20 clients and 100 queries when the
    parameter is absent. *)
Theorem get_metric_reads_the_parameters (p : metrics.params) :
  let params := collected_params p in
  dict_get_default params "blocked" VNone = obool (metrics.blocked p) /\
  dict_get_default params "count" VNone = oint (metrics.count p) /\
  dict_get_default params "clients" (VInt 20) =
    VInt (metrics.get_default (metrics.clients p) 20) /\
  dict_get_default params "length" (VInt 100) =
    VInt (metrics.get_default (metrics.length p) 100) /\
  dict_get_default params "from_ts" VNone = oint (metrics.from_ts p) /\
  dict_get_default params "until_ts" VNone = oint (metrics.until_ts p) /\
  dict_get_default params "upstream" VNone = ostr (metrics.upstream p) /\
  dict_get_default params "domain" VNone = ostr (metrics.domain p) /\
  dict_get_default params "client" VNone = ostr (metrics.client p) /\
  dict_get_default params "cursor" VNone = ostr (metrics.cursor p).
Proof.
  cbv zeta. unfold dict_get_default. rewrite !collected_params_get.
  unfold module_params. cbn.
  destruct p as [mt bl co cl st en fr un up dom cli cur len pw u]; cbn.
  repeat split;
    match goal with
    | |- context [is_None (_ ?x)] => destruct x; reflexivity
    end.
Qed.

(** X17.  [metrics]: [start_time] and [end_time] are accepted and put
    into [params], but no metric reads them; the run is the same
    whatever they are. *)
Theorem start_and_end_time_are_ignored {Remote} (h : Host Remote)
    (c : settings) (p : metrics.params) (w : Remote)
    (start_time end_time : option Z) :
  run h c (Metrics (with_times p start_time end_time)) w =
  run h c (Metrics p) w /\
  dict_get (collected_params (with_times p start_time end_time)) "start_time"
  = option_map VInt start_time.
Proof.
  split; [reflexivity|].
  rewrite collected_params_get. cbn. destruct start_time; reflexivity.
Qed.

(* ===================================================================== *)
(** ** The domain list, entry by entry *)
(* ===================================================================== *)

Section DomainEntries.
Context {Remote : Type} (h : Host Remote).
Import domain_management.

Lemma process_domain_more (check : bool) (gm : dict) (dc : domain_config)
    (w : Remote) (c : bool) (ds rs : list value) :
  exists w' t c' r,
    process_domain h check gm dc
      {| remote := w;
         result := [("changed", VBool c); ("domains", VList ds);
                    ("results", VList rs)] |}
    = (Ok tt,
       {| remote := w';
          result := [("changed", VBool c');
                     ("domains", VList (ds ++ [ostr (domain dc)]));
                     ("results", VList (rs ++ [r]))] |},
       t)
    /\ c' = c || record_changed r
    /\ entry_block check gm dc t
    /\ (check = true -> dry_record r).
Proof.
  unfold process_domain, domain_exists, update_domain, add_domain,
    delete_domain, append_result, entry_block, dry_record.
  unfold_py. destruct check; cbn.
  all: repeat step_text.
  all: do 4 eexists; split; [reflexivity|].
  all: split; [cbn; known; cbn; rewrite ?orb_true_r, ?orb_false_r;
               reflexivity|].
  all: split; [do 2 eexists; split; [reflexivity|];
               unfold entry_request, lookup_found; no_dict; cbn; known; cbn;
               reflexivity|].
  all: intros C; try discriminate C; eexists; repeat split; reflexivity.
Qed.

End DomainEntries.

Section DomainBatch.
Context {Remote : Type} (h : Host Remote).
Import domain_management.

Lemma process_domains_more (check : bool) (gm : dict)
    (l : list domain_config) :
  forall (w : Remote) (c : bool) (ds rs : list value),
  exists w' t c' rs' blocks,
    process_domains h check gm l
      {| remote := w;
         result := [("changed", VBool c); ("domains", VList ds);
                    ("results", VList rs)] |}
    = (Ok tt,
       {| remote := w';
          result := [("changed", VBool c');
                     ("domains", VList (ds ++ map (fun dc => ostr (domain dc)) l));
                     ("results", VList (rs ++ rs'))] |},
       t)
    /\ c' = c || existsb record_changed rs'
    /\ t = concat blocks
    /\ Forall2 (entry_block check gm) l blocks
    /\ (check = true -> Forall dry_record rs').
Proof.
  induction l as [|dc rest IH]; intros w c ds rs.
  - exists w, [], c, [], []. cbn. rewrite !app_nil_r, orb_false_r.
    repeat split; auto.
  - destruct (process_domain_more h check gm dc w c ds rs)
      as (w1 & t1 & c1 & r & E1 & C1 & B1 & D1).
    destruct (IH w1 c1 (ds ++ [ostr (domain dc)]) (rs ++ [r]))
      as (w2 & t2 & c2 & rs2 & blocks & E2 & C2 & T2 & B2 & D2).
    exists w2, (t1 ++ t2), c2, (r :: rs2), (t1 :: blocks).
    split.
    { change (process_domains h check gm (dc :: rest))
        with (bind (process_domain h check gm dc)
                   (fun _ => process_domains h check gm rest)).
      unfold bind at 1. rewrite E1, E2.
      cbn [map]. rewrite <- !app_assoc. reflexivity. }
    split; [subst c2 c1; cbn; rewrite orb_assoc; reflexivity|].
    split; [subst t2; reflexivity|].
    split; [constructor; assumption|].
    intros C. constructor; auto.
Qed.

End DomainBatch.

Lemma entry_block_size check gm dc (block : list event) :
  entry_block check gm dc block ->
  1 <= length block <= 2 /\
  (check = true -> length block = 1) /\
  length (filter (fun ev => mutating (fst ev)) block) <= 1 /\
  length (filter (fun ev => lookup_call (fst ev)) block) = 1 /\
  forallb (fun ev => domain_call (fst ev)) block = true.
Proof.
  intros (resp & rest & -> & R).
  assert (L : length rest <= 1 /\ (check = true -> length rest = 0) /\
              forallb (fun ev => domain_call (fst ev)) rest = true /\
              length (filter (fun ev => lookup_call (fst ev)) rest) = 0).
  { destruct check.
    - destruct rest; [cbn; auto | discriminate R].
    - unfold entry_request in R.
      destruct rest as [|[q a] [|x rest]]; cbn; auto.
      + cbn in R.
        destruct (eqs (domain_management.state dc) "present"),
                 (eqs (domain_management.state dc) "absent"),
                 (lookup_found resp); cbn in R; try discriminate R;
          inversion R; subst q; cbn; repeat split; auto; discriminate.
      + exfalso. cbn in R.
        destruct (eqs (domain_management.state dc) "present"),
                 (eqs (domain_management.state dc) "absent"),
                 (lookup_found resp); discriminate R. }
  destruct L as (L1 & L2 & L3 & L4). cbn.
  pose proof (filter_length_le (fun ev : event => mutating (fst ev)) rest).
  unfold event in *.
  split; [lia|].
  split; [intros C; specialize (L2 C); lia|].
  split; [lia|]. split; [lia|]. exact L3.
Qed.

Lemma entry_blocks_size check gm l (blocks : list (list event)) :
  Forall2 (entry_block check gm) l blocks ->
  length l <= length (concat blocks) <= 2 * length l /\
  (check = true -> length (concat blocks) = length l) /\
  length (filter (fun ev => mutating (fst ev)) (concat blocks)) <= length l /\
  length (filter (fun ev => lookup_call (fst ev)) (concat blocks)) = length l /\
  forallb (fun ev => domain_call (fst ev)) (concat blocks) = true.
Proof.
  induction 1 as [|dc block l blocks B _ IH]; cbn [concat length].
  - cbn. repeat split; auto.
  - destruct (entry_block_size B) as (B1 & B2 & B3 & B4 & B5).
    destruct IH as (I1 & I2 & I3 & I4 & I5).
    rewrite !filter_app, !length_app, forallb_app.
    unfold event in *.
    split; [lia|].
    split; [intros C; specialize (B2 C); specialize (I2 C); lia|].
    split; [lia|]. split; [lia|].
    apply andb_true_intro. split; assumption.
Qed.

(** The runs of [domain_management]: either no call is made for any
    entry, or the session opens, the groups are listed, and the entries
    are handled block by block. *)
Lemma domain_run_more {Remote} (h : Host Remote) (c : settings)
    (p : domain_management.params) (w : Remote) :
  let i := DomainManagement p in
  let domains := domain_management.domains_param p in
  ((trace h c i w = [] \/
    exists msg,
      trace h c i w =
        [(OpenSession (domain_management.url p)
                      (domain_management.password p), Raises msg)]) /\
   ((exists kw, ending h c i w = SystemExit (FailJson kw)) \/
    (domains = [] /\
     ending h c i w = SystemExit (ExitJson [("changed", VBool false);
                                            ("domains", VList []);
                                            ("results", VList [])]))))
  \/
  (exists v w1 w2 groups gm blocks records closing,
     remote_call h (OpenSession (domain_management.url p)
                                (domain_management.password p)) w
       = (Returns v, w1) /\
     domain_management.get_group_name_to_id_mapping h
       {| remote := w1;
          result := [("changed", VBool false); ("domains", VList []);
                     ("results", VList [])] |}
     = (Ok gm,
        {| remote := w2;
           result := [("changed", VBool false); ("domains", VList []);
                      ("results", VList [])] |},
        [(GetGroups, groups)]) /\
     ending h c i w =
       SystemExit (ExitJson
         [("changed", VBool (existsb record_changed records));
          ("domains",
           VList (map (fun dc => ostr (domain_management.domain dc)) domains));
          ("results", VList records)]) /\
     trace h c i w =
       (OpenSession (domain_management.url p) (domain_management.password p),
        Returns v) :: (GetGroups, groups)
         :: concat blocks ++ [(CloseSession, closing)] /\
     Forall2 (entry_block (check_mode c) gm) domains blocks /\
     (check_mode c = true -> Forall dry_record records)).
Proof.
  intros i domains.
  destruct (domain_run_cases h c p w)
    as [(text & E & T & _)
       |(_ & _ & [(D & E & T)
                 |[(_ & msg & w1 & _ & E & T)
                  |(_ & v & w1 & groups & t & closing & changed & records
                    & gm & w2 & w3 & O & G & P & E & T & _)]])];
    fold i in E, T; fold domains in E, T.
  - left. rewrite E, T. split; eauto.
  - left. rewrite E, T. split; eauto.
  - left. rewrite E, T. split; eauto.
  - right.
    destruct (process_domains_more h (check_mode c) gm
                (domain_management.domains_param p) w2 false [] [])
      as (w3' & t' & c' & rs' & blocks & P' & C' & T' & B' & D').
    rewrite P' in P. cbn in P. inversion P; subst.
    exists v, w1, w2, groups, gm, blocks, records, closing.
    repeat split; assumption.
Qed.

(* ===================================================================== *)
(** ** The group mapping *)
(* ===================================================================== *)

Lemma find_app_first {A} (f : A -> bool) (l1 l2 : list A) :
  find f (l1 ++ l2) =
    match find f l1 with Some x => Some x | None => find f l2 end.
Proof.
  induction l1 as [|a l1 IH]; [reflexivity|].
  cbn. destruct (f a); [reflexivity | exact IH].
Qed.

Lemma mapping_of_get (groups : list (string * value)) :
  forall (acc : dict) (name : string),
    dict_get (mapping_of groups acc) name =
      match last_id groups name with
      | Some id => Some id
      | None => dict_get acc name
      end.
Proof.
  unfold mapping_of, last_id.
  induction groups as [|g groups IH]; intros acc name; [reflexivity|].
  cbn [fold_left rev]. rewrite IH, find_app_first.
  destruct (find (fun g0 => String.eqb (fst g0) name) (rev groups));
    [reflexivity|].
  cbn. rewrite dict_get_set.
  destruct (String.eqb (fst g) name); reflexivity.
Qed.

Lemma map_group_ids_empty (groups : list string) :
  domain_management.map_group_ids groups [] = [].
Proof. induction groups as [|g groups IH]; [reflexivity | exact IH]. Qed.

Section GroupMapping.
Context {Remote : Type} (h : Host Remote).
Import domain_management.

Lemma collect_groups_described (groups : list (string * value))
    (items : list value) :
  Forall2 describes groups items ->
  forall (acc : dict) (s : st Remote),
    collect_groups items acc s = (Ok (mapping_of groups acc), s, []).
Proof.
  induction 1 as [|g item groups items (d & -> & N & I) _ IH];
    intros acc s; [reflexivity|].
  cbn. unfold bind, py_getitem, ret. rewrite N, I. cbn.
  rewrite IH. reflexivity.
Qed.

Lemma group_mapping_answer (s : st Remote) :
  exists gm w resp,
    remote_call h GetGroups (remote s) = (resp, w) /\
    get_group_name_to_id_mapping h s =
      (Ok gm, {| remote := w; result := result s |}, [(GetGroups, resp)]) /\
    ((forall d, resp <> Returns (VDict d)) -> gm = []) /\
    (forall d items groups,
       resp = Returns (VDict d) ->
       dict_get d "groups" = Some (VList items) ->
       Forall2 describes groups items ->
       gm = mapping_of groups []).
Proof.
  unfold get_group_name_to_id_mapping. unfold_py.
  destruct (remote_call h GetGroups (remote s)) as [[v | m] w] eqn:E; cbn.
  2: { do 3 eexists. split; [reflexivity|]. split; [reflexivity|].
       split; [reflexivity|]. intros d items groups D. discriminate D. }
  destruct (@py_get_cases_text Remote v "groups" (VList [])) as [[d ->] | [N Em]].
  2: { rewrite Em. do 3 eexists. split; [reflexivity|]. split; [reflexivity|].
       split; [reflexivity|]. intros d items groups D.
       inversion D; subst v. discriminate N. }
  rewrite py_get_dict.
  set (s1 := {| remote := w; result := result s |}).
  destruct (dict_get d "groups") as [listed|] eqn:L.
  - unfold dict_get_default. rewrite L.
    assert (P : (exists l, py_iter listed s1 = (Ok l, s1, []) /\
                           (forall items, listed = VList items -> l = items))
                \/ (exists msg, py_iter listed s1 = (Raise msg, s1, []) /\
                                forall items, listed <> VList items)).
    { unfold py_iter, ret, raise.
      destruct listed; try (right; eexists; split; [reflexivity|];
                            intros items; discriminate);
        left; eexists; (split; [reflexivity|]); intros items D;
        try discriminate D. inversion D. reflexivity. }
    destruct P as [(l & El & Il) | (msg & El & Il)]; rewrite El.
    2: { do 3 eexists. split; [reflexivity|]. split; [reflexivity|].
         split; [reflexivity|]. intros d' items groups D G.
         inversion D; subst d'. rewrite L in G. inversion G; subst listed.
         exfalso. exact (Il items eq_refl). }
    destruct (collect_groups_pure l [] s1) as [[m Ec] | [msg Ec]];
      rewrite Ec; do 3 eexists; (split; [reflexivity|]);
      (split; [reflexivity|]);
      (split; [intros X; exfalso; exact (X d eq_refl)|]);
      intros d' items groups D G F; inversion D; subst d';
      rewrite L in G; inversion G; subst listed;
      rewrite (Il items eq_refl) in Ec;
      rewrite (collect_groups_described F) in Ec; inversion Ec; reflexivity.
  - unfold dict_get_default. rewrite L. cbn.
    do 3 eexists. split; [reflexivity|]. split; [reflexivity|].
    split; [intros X; exfalso; exact (X d eq_refl)|].
    intros d' items groups D G. inversion D; subst d'.
    rewrite L in G. discriminate G.
Qed.

(** X18.  [get_group_name_to_id_mapping], when the client lists the
    groups as objects with a string [name] and an [id]: one call is made,
    and a name maps to the id of the last group of that name; a name that
    no group has is not in the mapping. *)
Theorem group_mapping_keeps_the_last_id (w w' : Remote) (res d : dict)
    (items : list value) (groups : list (string * value)) :
  remote_call h GetGroups w = (Returns (VDict d), w') ->
  dict_get d "groups" = Some (VList items) ->
  Forall2 describes groups items ->
  exists gm,
    get_group_name_to_id_mapping h {| remote := w; result := res |} =
      (Ok gm, {| remote := w'; result := res |},
       [(GetGroups, Returns (VDict d))]) /\
    forall name, dict_get gm name = last_id groups name.
Proof.
  intros C G F.
  destruct (group_mapping_answer {| remote := w; result := res |})
    as (gm & w0 & resp & C0 & E & _ & M).
  cbn in C0, E. rewrite C in C0. inversion C0; subst resp w0.
  exists gm. split; [exact E|].
  intros name. rewrite (M d items groups eq_refl G F), mapping_of_get.
  destruct (last_id groups name); reflexivity.
Qed.

End GroupMapping.

Lemma group_mapping_witness :
  exists gm,
    domain_management.get_group_name_to_id_mapping grouped
      {| remote := tt; result := [] |} =
      (Ok gm, {| remote := tt; result := [] |},
       [(GetGroups,
         Returns (VDict [("groups",
                          VList [VDict [("name", VStr "Default");
                                        ("id", VInt 0)];
                                 VDict [("name", VStr "kids");
                                        ("id", VInt 3)]])]))]) /\
    forall name,
      dict_get gm name =
        last_id [("Default", VInt 0); ("kids", VInt 3)] name.
Proof.
  apply (@group_mapping_keeps_the_last_id unit grouped tt tt []
           [("groups", VList [VDict [("name", VStr "Default");
                                     ("id", VInt 0)];
                              VDict [("name", VStr "kids");
                                     ("id", VInt 3)]])]
           [VDict [("name", VStr "Default"); ("id", VInt 0)];
            VDict [("name", VStr "kids"); ("id", VInt 3)]]
           [("Default", VInt 0); ("kids", VInt 3)]).
  - reflexivity.
  - reflexivity.
  - repeat constructor; eexists; repeat split; reflexivity.
Defined.

(** X19.  The group names of an entry: the ids sent are those of the
    names the mapping knows, in the order of the entry; names it does not
    know are dropped without a word, and when none is known the call gets
    [groups=None]. *)
Theorem unknown_groups_are_dropped (dc : domain_management.domain_config)
    (group_mapping : dict) :
  (forall id,
     In id (domain_management.map_group_ids (domain_management.groups dc)
                                            group_mapping) <->
     exists name, In name (domain_management.groups dc) /\
                  dict_get group_mapping name = Some id) /\
  (domain_management.groups_argument dc group_mapping = None <->
   forall name, In name (domain_management.groups dc) ->
                dict_get group_mapping name = None) /\
  (forall ids, domain_management.groups_argument dc group_mapping = Some ids ->
     ids = domain_management.map_group_ids (domain_management.groups dc)
                                           group_mapping /\
     ids <> []).
Proof.
  unfold domain_management.groups_argument, domain_management.map_group_ids.
  set (f := fun group_name : string =>
              match dict_get group_mapping group_name with
              | Some id => [id]
              | None => []
              end).
  assert (A : forall id l, In id (flat_map f l) <->
                exists name, In name l /\
                             dict_get group_mapping name = Some id).
  { intros id l. rewrite in_flat_map. unfold f.
    split; intros (name & I & X); exists name; (split; [exact I|]).
    - destruct (dict_get group_mapping name) as [x|]; [|contradiction].
      destruct X as [->|[]]. reflexivity.
    - rewrite X. left. reflexivity. }
  split; [intros id; apply A|].
  split.
  - split.
    + intros N name I.
      destruct (flat_map f (domain_management.groups dc)) as [|x l] eqn:F;
        [|discriminate N].
      destruct (dict_get group_mapping name) as [id|] eqn:G; [|reflexivity].
      exfalso. assert (X : In id (flat_map f (domain_management.groups dc)))
        by (apply A; eauto).
      rewrite F in X. exact X.
    + intros N.
      destruct (flat_map f (domain_management.groups dc)) as [|x l] eqn:F;
        [reflexivity|].
      exfalso. assert (X : In x (flat_map f (domain_management.groups dc)))
        by (rewrite F; left; reflexivity).
      apply A in X. destruct X as (name & I & G).
      rewrite (N name I) in G. discriminate G.
  - intros ids S.
    destruct (flat_map f (domain_management.groups dc)) as [|x l];
      [discriminate S|].
    inversion S. split; [reflexivity | discriminate].
Qed.

(* ===================================================================== *)
(** ** The domain list, as a whole *)
(* ===================================================================== *)

(** X20.  [domain_management], a run that exits: the calls made for the
    entries are one block per entry, in the order of [domains]; each
    block starts with the lookup of that entry, followed in a real run by
    the one mutation the entry calls for (update or add for [present],
    delete for [absent] when found), and by nothing in check mode. *)
Theorem entries_are_handled_in_order {Remote} (h : Host Remote)
    (c : settings) (p : domain_management.params) (w : Remote) (kw : dict) :
  ending h c (DomainManagement p) w = SystemExit (ExitJson kw) ->
  exists group_mapping blocks,
    entry_calls (trace h c (DomainManagement p) w) = concat blocks /\
    Forall2 (entry_block (check_mode c) group_mapping)
            (domain_management.domains_param p) blocks.
Proof.
  intros X.
  destruct (domain_run_more h c p w)
    as [([T | (msg & T)] & [(kw' & E) | (D & E)])
       |(v & w1 & w2 & groups & gm & blocks & records & closing
         & _ & _ & E & T & B & _)];
    rewrite E in X; try discriminate X.
  - exists [], []. rewrite T, D. split; [reflexivity | constructor].
  - exists [], []. rewrite T, D. split; [reflexivity | constructor].
  - exists gm, blocks. split; [|exact B].
    rewrite T. apply entry_calls_of_a_batch; try reflexivity.
    apply (entry_blocks_size B).
Qed.

Lemma entries_in_order_witness :
  exists group_mapping blocks,
    entry_calls (trace picky (settings_of false)
                   (DomainManagement
                      (domain_batch (Some [deny_exact "ads.example"]))) tt)
      = concat blocks /\
    Forall2 (entry_block false group_mapping) [deny_exact "ads.example"]
            blocks.
Proof.
  apply (@entries_are_handled_in_order unit picky (settings_of false)
           (domain_batch (Some [deny_exact "ads.example"])) tt
           [("changed", VBool true);
            ("domains", VList [VStr "ads.example"]);
            ("results",
             VList [VDict [("domain", VStr "ads.example");
                           ("domain_type", VStr "deny");
                           ("kind", VStr "exact");
                           ("state", VStr "present");
                           ("changed", VBool true);
                           ("success", VBool true);
                           ("response", VDict [("success", VBool true)])]])]).
  reflexivity.
Defined.

(** X21.  [domain_management], a run that exits: the top-level [changed]
    is the disjunction of the [changed] flags of the records in
    [results]. *)
Theorem batch_changed_is_any_record_changed {Remote} (h : Host Remote)
    (c : settings) (p : domain_management.params) (w : Remote) (kw : dict) :
  ending h c (DomainManagement p) w = SystemExit (ExitJson kw) ->
  exists records,
    dict_get kw "results" = Some (VList records) /\
    dict_get kw "changed" = Some (VBool (existsb record_changed records)).
Proof.
  intros X.
  destruct (domain_run_more h c p w)
    as [(_ & [(kw' & E) | (D & E)])
       |(v & w1 & w2 & groups & gm & blocks & records & closing
         & _ & _ & E & _)];
    rewrite E in X; try discriminate X; inversion X; subst kw.
  - exists []. split; reflexivity.
  - exists records. split; reflexivity.
Qed.

Lemma batch_changed_witness :
  exists records,
    dict_get [("changed", VBool true);
              ("domains", VList [VStr "ads.example"]);
              ("results",
               VList [VDict [("domain", VStr "ads.example");
                             ("domain_type", VStr "deny");
                             ("kind", VStr "exact");
                             ("state", VStr "present");
                             ("changed", VBool true);
                             ("success", VBool true);
                             ("response",
                              VDict [("success", VBool true)])]])] "results"
      = Some (VList records) /\
    dict_get [("changed", VBool true);
              ("domains", VList [VStr "ads.example"]);
              ("results",
               VList [VDict [("domain", VStr "ads.example");
                             ("domain_type", VStr "deny");
                             ("kind", VStr "exact");
                             ("state", VStr "present");
                             ("changed", VBool true);
                             ("success", VBool true);
                             ("response",
                              VDict [("success", VBool true)])]])] "changed"
      = Some (VBool (existsb record_changed records)).
Proof.
  apply (@batch_changed_is_any_record_changed unit picky
           (settings_of false)
           (domain_batch (Some [deny_exact "ads.example"])) tt
           [("changed", VBool true);
            ("domains", VList [VStr "ads.example"]);
            ("results",
             VList [VDict [("domain", VStr "ads.example");
                           ("domain_type", VStr "deny");
                           ("kind", VStr "exact");
                           ("state", VStr "present");
                           ("changed", VBool true);
                           ("success", VBool true);
                           ("response", VDict [("success", VBool true)])]])]).
  reflexivity.
Defined.

(** X22.  [domain_management], any run over [n] entries: at most [2n+3]
    calls, at most [n+3] in check mode, at most [n] mutating calls and at
    most [n] lookups. *)
Theorem calls_of_a_batch_are_bounded {Remote} (h : Host Remote)
    (c : settings) (p : domain_management.params) (w : Remote) :
  let n := length (domain_management.domains_param p) in
  let t := trace h c (DomainManagement p) w in
  length t <= 2 * n + 3 /\
  (check_mode c = true -> length t <= n + 3) /\
  length (filter (fun ev => mutating (fst ev)) t) <= n /\
  length (filter (fun ev => lookup_call (fst ev)) t) <= n.
Proof.
  intros n t. subst n t.
  destruct (domain_run_more h c p w)
    as [([T | (msg & T)] & _)
       |(v & w1 & w2 & groups & gm & blocks & records & closing
         & _ & _ & _ & T & B & _)];
    rewrite T.
  - cbn. repeat split; intros; lia.
  - cbn. repeat split; intros; lia.
  - destruct (entry_blocks_size B) as (L1 & L2 & L3 & L4 & _).
    cbn [length filter fst mutating lookup_call].
    rewrite !filter_app, !length_app. cbn.
    unfold event in *.
    split; [lia|].
    split; [intros C; specialize (L2 C); lia|].
    split; lia.
Qed.

(** X23.  [domain_management] in check mode, a run that exits: no record
    carries a [response], and every record has [success=False], also the
    records of the entries that would change. *)
Theorem dry_records_carry_no_answer {Remote} (h : Host Remote)
    (c : settings) (p : domain_management.params) (w : Remote) (kw : dict) :
  check_mode c = true ->
  ending h c (DomainManagement p) w = SystemExit (ExitJson kw) ->
  exists records,
    dict_get kw "results" = Some (VList records) /\
    Forall dry_record records.
Proof.
  intros C X.
  destruct (domain_run_more h c p w)
    as [(_ & [(kw' & E) | (D & E)])
       |(v & w1 & w2 & groups & gm & blocks & records & closing
         & _ & _ & E & _ & _ & R)];
    rewrite E in X; try discriminate X; inversion X; subst kw.
  - exists []. split; [reflexivity | constructor].
  - exists records. split; [reflexivity | exact (R C)].
Qed.

Lemma dry_records_witness :
  exists records,
    dict_get [("changed", VBool true);
              ("domains", VList [VStr "ads.example"]);
              ("results",
               VList [VDict [("domain", VStr "ads.example");
                             ("domain_type", VStr "deny");
                             ("kind", VStr "exact");
                             ("state", VStr "present");
                             ("changed", VBool true);
                             ("success", VBool false)]])] "results"
      = Some (VList records) /\
    Forall dry_record records.
Proof.
  apply (@dry_records_carry_no_answer unit picky (settings_of true)
           (domain_batch (Some [deny_exact "ads.example"])) tt
           [("changed", VBool true);
            ("domains", VList [VStr "ads.example"]);
            ("results",
             VList [VDict [("domain", VStr "ads.example");
                           ("domain_type", VStr "deny");
                           ("kind", VStr "exact");
                           ("state", VStr "present");
                           ("changed", VBool true);
                           ("success", VBool false)]])]).
  - reflexivity.
  - reflexivity.
Defined.

Lemma in_concat_block {A} (x : A) (blocks : list (list A)) :
  In x (concat blocks) -> exists block, In block blocks /\ In x block.
Proof.
  induction blocks as [|b blocks IH]; cbn; [contradiction|].
  intros I. apply in_app_or in I as [I | I].
  - exists b. auto.
  - destruct (IH I) as (block & B & X). exists block. auto.
Qed.

Lemma Forall2_right {A B} (R : A -> B -> Prop) (l : list A) (l' : list B) :
  Forall2 R l l' -> forall y, In y l' -> exists x, In x l /\ R x y.
Proof.
  induction 1 as [|x y l l' Rxy _ IH]; intros z; cbn; [contradiction|].
  intros [<- | I]; [exists x; auto|].
  destruct (IH z I) as (x' & Ix & Rx). exists x'. auto.
Qed.

Lemma entry_block_without_groups check dc (block : list event) :
  entry_block check [] dc block ->
  forall q a, In (q, a) block -> carried_groups q = None.
Proof.
  intros (resp & rest & -> & R) q a [I | I].
  - inversion I. reflexivity.
  - assert (Q : In q (map fst rest)) by (apply (in_map fst _ _ I)).
    rewrite R in Q. destruct check; [contradiction|].
    unfold entry_request, domain_management.groups_argument in Q.
    rewrite map_group_ids_empty in Q.
    destruct (eqs (domain_management.state dc) "present"),
             (eqs (domain_management.state dc) "absent"),
             (lookup_found resp); cbn in Q;
      try contradiction; destruct Q as [<- | []]; reflexivity.
Qed.

(** X24.  [domain_management]: when listing the groups raises, or gives
    something that is not an object, the run goes on with an empty
    mapping, and every call it makes carries [groups=None], whatever
    groups the entries name. *)
Theorem no_listing_no_groups {Remote} (h : Host Remote)
    (c : settings) (p : domain_management.params) (w : Remote)
    (resp : response) :
  In (GetGroups, resp) (trace h c (DomainManagement p) w) ->
  (forall d, resp <> Returns (VDict d)) ->
  (exists kw, ending h c (DomainManagement p) w = SystemExit (ExitJson kw)) /\
  forall q a, In (q, a) (trace h c (DomainManagement p) w) ->
              carried_groups q = None.
Proof.
  intros I N.
  destruct (domain_run_more h c p w)
    as [([T | (msg & T)] & _)
       |(v & w1 & w2 & groups & gm & blocks & records & closing
         & _ & G & E & T & B & _)];
    rewrite T in *.
  - contradiction.
  - destruct I as [I | []]. discriminate I.
  - split; [eexists; exact E|].
    assert (F := proj2 (proj2 (proj2 (proj2 (entry_blocks_size B))))).
    assert (R : groups = resp).
    { destruct I as [I | [I | I]]; [discriminate I | congruence |].
      apply in_app_or in I as [I | [I | []]]; [|discriminate I].
      rewrite forallb_forall in F. specialize (F _ I). discriminate F. }
    subst groups.
    destruct (group_mapping_answer h
                {| remote := w1;
                   result := [("changed", VBool false); ("domains", VList []);
                              ("results", VList [])] |})
      as (gm' & w' & resp' & _ & G' & Z & _).
    rewrite G' in G. inversion G; subst.
    rewrite (Z N) in B.
    intros q a [J | [J | J]]; [inversion J; reflexivity
                              | inversion J; reflexivity |].
    apply in_app_or in J as [J | [J | []]]; [|inversion J; reflexivity].
    apply in_concat_block in J as (block & K & J).
    destruct (Forall2_right B _ K) as (dc & _ & Bk).
    exact (entry_block_without_groups Bk _ _ J).
Qed.

Lemma no_listing_witness :
  (exists kw,
     ending ungrouped (settings_of false)
            (DomainManagement
               (domain_batch (Some [deny_exact_in "ads.example" ["kids"]])))
            tt = SystemExit (ExitJson kw)) /\
  forall q a,
    In (q, a) (trace ungrouped (settings_of false)
                 (DomainManagement
                    (domain_batch (Some [deny_exact_in "ads.example"
                                           ["kids"]]))) tt) ->
    carried_groups q = None.
Proof.
  apply (@no_listing_no_groups unit ungrouped (settings_of false)
           (domain_batch (Some [deny_exact_in "ads.example" ["kids"]])) tt
           (Raises "forbidden")).
  - right. left. reflexivity.
  - intros d. discriminate.
Defined.
